(** * Stability-gap metrics of [stability_gap_example.py]

    A shallow embedding of the metric computations of
    [StabilityGap/stability_gap_example.py]: the accuracy log filled by
    [train_and_evaluate], the smoothed-window trough/recovery analysis, the
    sliding-window forgetting/plasticity scan and the cross-trial mean and
    standard error.

    Numbers.  A finite [float64] is modelled by the rational [Q] that is
    its value; the non-finite values of numpy ([nan], [inf], [-inf]) are
    kept as separate constructors of [npfloat], because the script relies
    on numpy's division, which yields [nan] or an infinity where Python's
    own division would raise.  Python integers are [Z].

    Rounding.  The modules [Np], [Scipy], [Analysis], [Sliding] and
    [Reducer] compute on these values without rounding.  The modules
    [Float64], [Aggregate] and [Rounded] round the result of every
    operation with a function [fl : Q -> Q], and [Rounded] takes the
    arrays and means that scipy and numpy return as they are;
    [Binary64.rnd] is the rounding to the nearest float64, and
    [Binary64.uniform_filter1d_5] and [Binary64.np_mean] are the
    library computations under it.  What depends on a tie between two
    computed values (the trough, the recovery index, a slope being
    not-a-number, a reported digit) is stated over [Rounded] and
    [Aggregate]. *)

From Stdlib Require Import ZArith QArith Qround Qabs List Bool Lia Lqa.
Import ListNotations.

Local Open Scope Z_scope.

(** ** Python sequences *)

Module Py.

(** [l[i]] for a list or a one-dimensional array: a negative index counts
    from the end, an index outside the sequence raises IndexError
    ([None]). *)
Definition get {A} (l : list A) (i : Z) : option A :=
  let n := Z.of_nat (length l) in
  if i <? 0
  then if i + n <? 0 then None else nth_error l (Z.to_nat (i + n))
  else nth_error l (Z.to_nat i).

(** How a slice bound is clipped to the sequence. *)
Definition clip (n i : Z) : Z :=
  if i <? 0 then Z.max 0 (i + n) else Z.min i n.

(** [l[a:b]]. *)
Definition slice {A} (l : list A) (a b : Z) : list A :=
  let n := Z.of_nat (length l) in
  let a' := clip n a in
  let b' := clip n b in
  firstn (Z.to_nat (b' - a')) (skipn (Z.to_nat a') l).

(** [l[a:]]. *)
Definition slice_from {A} (l : list A) (a : Z) : list A :=
  skipn (Z.to_nat (clip (Z.of_nat (length l)) a)) l.

(** [range(a, b)]. *)
Definition range (a b : Z) : list Z :=
  map (fun k => a + Z.of_nat k) (seq 0 (Z.to_nat (b - a))).

(** The error monad of a computation that may raise. *)
Definition bind {A B} (x : option A) (f : A -> option B) : option B :=
  match x with
  | Some a => f a
  | None => None
  end.

End Py.

Notation "x <- c ;; k" := (Py.bind c (fun x => k))
  (at level 61, c at next level, right associativity).

(** ** numpy floating-point values *)

Inductive npfloat : Type :=
| Fin (q : Q)
| PInf
| NInf
| NaN.

Module Np.

Local Open Scope Q_scope.

Definition isnan (x : npfloat) : bool :=
  match x with
  | NaN => true
  | _ => false
  end.

(** Equality of values: rationals up to [Qeq]. *)
Definition feq (x y : npfloat) : Prop :=
  match x, y with
  | Fin a, Fin b => a == b
  | PInf, PInf => True
  | NInf, NInf => True
  | NaN, NaN => True
  | _, _ => False
  end.

Definition fopp (x : npfloat) : npfloat :=
  match x with
  | Fin a => Fin (- a)
  | PInf => NInf
  | NInf => PInf
  | NaN => NaN
  end.

Definition fadd (x y : npfloat) : npfloat :=
  match x, y with
  | NaN, _ | _, NaN => NaN
  | Fin a, Fin b => Fin (a + b)
  | PInf, NInf | NInf, PInf => NaN
  | PInf, _ | _, PInf => PInf
  | NInf, _ | _, NInf => NInf
  end.

Definition fsub (x y : npfloat) : npfloat := fadd x (fopp y).

(** The sign of a rational: -1, 0 or 1. *)
Definition sgn (a : Q) : Z := Z.sgn (Qnum a).

Definition of_sign (s : Z) : npfloat :=
  match s with
  | Z0 => NaN
  | Zpos _ => PInf
  | Zneg _ => NInf
  end.

Definition fsgn (x : npfloat) : Z :=
  match x with
  | Fin a => sgn a
  | PInf => 1%Z
  | NInf => (-1)%Z
  | NaN => 0%Z
  end.

Definition fmul (x y : npfloat) : npfloat :=
  match x, y with
  | NaN, _ | _, NaN => NaN
  | Fin a, Fin b => Fin (a * b)
  | _, _ => of_sign (fsgn x * fsgn y)
  end.

(** numpy's true division: a zero divisor gives [nan] for a zero dividend
    and a signed infinity otherwise; nothing is raised. *)
Definition fdiv (x y : npfloat) : npfloat :=
  match x, y with
  | NaN, _ | _, NaN => NaN
  | Fin a, Fin b => if Qeq_bool b 0 then of_sign (sgn a) else Fin (a / b)
  | Fin _, _ => Fin 0
  | _, Fin b => if Qeq_bool b 0 then x else of_sign (fsgn x * sgn b)
  | _, _ => NaN
  end.

(** [x >= y]; false as soon as one side is [nan]. *)
Definition fge (x y : npfloat) : bool :=
  match x, y with
  | NaN, _ | _, NaN => false
  | Fin a, Fin b => Qle_bool b a
  | PInf, _ => true
  | _, NInf => true
  | _, _ => false
  end.

Definition of_int (z : Z) : npfloat := Fin (inject_Z z).

Definition of_len {A} (l : list A) : npfloat :=
  of_int (Z.of_nat (length l)).

(** [np.sum]. *)
Definition sum (l : list npfloat) : npfloat :=
  fold_left fadd l (Fin 0).

(** [np.mean]: the sum over the count, [nan] for no element; on the
    values, with no rounding (numpy's summation in float64 is
    [Aggregate.np_mean]). *)
Definition mean (l : list npfloat) : npfloat :=
  fdiv (sum l) (of_len l).

(** [np.nanmean]: the mean of the elements that are not [nan], [nan] when
    none is left. *)
Definition nanmean (l : list npfloat) : npfloat :=
  mean (filter (fun x => negb (isnan x)) l).

(** [np.argmin] of an array of finite values: the first index of the
    minimum; ValueError ([None]) on an empty array. *)
Fixpoint argmin_from (best : Q) (best_i next_i : Z) (l : list Q) : Z :=
  match l with
  | [] => best_i
  | x :: rest =>
      if Qlt_le_dec x best
      then argmin_from x next_i (next_i + 1)%Z rest
      else argmin_from best best_i (next_i + 1)%Z rest
  end.

Definition argmin (l : list Q) : option Z :=
  match l with
  | [] => None
  | x :: rest => Some (argmin_from x 0%Z 1%Z rest)
  end.

End Np.

(** ** [scipy.ndimage.uniform_filter1d]

    The script calls [uniform_filter1d(window, size=5)], so with scipy's
    defaults [mode='reflect'] and [origin=0]: the output at [i] is the mean
    of the five positions [i-2 .. i+2] of the input extended on both sides
    by its mirror image, [(d c b a | a b c d | d c b a)].  The mean here is
    that of the values, with no rounding; scipy's running sum in float64
    is [Binary64.uniform_filter1d_5]. *)

Module Scipy.

(** The input position read for position [i] of the extended line. *)
Definition reflect_index (n : Z) (i : Z) : Z :=
  let k := i mod (2 * n) in
  if k <? n then k else 2 * n - 1 - k.

(** The sample of an input of length [n] that stands at position [k] of
    the line extended by one mirror image on each side. *)
Definition mirror (n k : Z) : Z :=
  if k <? 0 then - 1 - k
  else if k <? n then k
  else 2 * n - 1 - k.

Definition Qsum (l : list Q) : Q := fold_right Qplus 0%Q l.

Definition extended (input : list Q) (i : Z) : Q :=
  nth (Z.to_nat (reflect_index (Z.of_nat (length input)) i)) input 0%Q.

Definition uniform_filter1d (input : list Q) (size : Z) : list Q :=
  map (fun i =>
         (Qsum (map (fun k => extended input (i - size / 2 + k))
                    (Py.range 0 size))
          / inject_Z size)%Q)
      (Py.range 0 (Z.of_nat (length input))).

End Scipy.

(** ** The trough/recovery analysis (section "TBP SD SR" of the script) *)

Module Analysis.

Import Np.

(** What the body of the window loop computes for one window: the two
    indices it prints, the value it appends to each of the five per-task
    lists, and the value of the loop variable [i] it leaves behind. *)
Record window_result : Type := {
  min_window_index : Z;
  recovery_window_index : Z;
  tbp : Z;
  slope_down : npfloat;
  slope_up : npfloat;
  gap_depth : npfloat;
  new_recovery_index : Z;
  sr_fixed : npfloat
}.

(** [for i in range(min_window_index, iters): if smoothed_window[i] >=
    smoothed_baseline: recovery_window_index = i; break].  The result is
    the value of [i] after the loop and the recovery index, if one was
    set.  [i] keeps its previous value when the range is empty. *)
Fixpoint recovery_scan (smoothed_window : list Q)
         (smoothed_baseline : npfloat) (indices : list Z) (i : Z)
  : option (Z * option Z) :=
  match indices with
  | [] => Some (i, None)
  | i' :: rest =>
      v <- Py.get smoothed_window i' ;;
      if fge (Fin v) smoothed_baseline
      then Some (i', Some i')
      else recovery_scan smoothed_window smoothed_baseline rest i'
  end.

(** The smoothed value at index [k] has regained the baseline. *)
Definition regains (smoothed_window : list Q) (smoothed_baseline : npfloat)
           (k : Z) : bool :=
  fge (Fin (nth (Z.to_nat k) smoothed_window 0%Q)) smoothed_baseline.

(** The element of an array at a non-negative index. *)
Definition at_index (l : list Q) (k : Z) : Q := nth (Z.to_nat k) l 0%Q.

(** The window of switch [j], its smoothed version and its baseline, as
    [analyse_window] below computes them. *)
Definition window_of (iters : Z) (performances_task : list Q) (j : Z)
  : list Q :=
  Py.slice performances_task (iters * (j + 1)) (iters * (j + 1) + iters).

Definition smoothed_of (iters : Z) (performances_task : list Q) (j : Z)
  : list Q :=
  Scipy.uniform_filter1d (window_of iters performances_task j) 5.

Definition baseline_of (iters : Z) (performances_task : list Q) (j : Z)
  : npfloat :=
  mean (map Fin (Py.slice performances_task (iters * (j + 1) - 1 - 4)
                          (iters * (j + 1) - 1 + 1))).

Definition analyse_window (iters : Z) (performances_task : list Q)
           (j : Z) (i : Z) : option window_result :=
  let baseline_index := iters * (j + 1) - 1 in
  let start_index := iters * (j + 1) in
  let end_index_exclusive := start_index + iters in
  let window := Py.slice performances_task start_index end_index_exclusive in
  let smoothed_window := Scipy.uniform_filter1d window 5 in
  min_window_index <- argmin smoothed_window ;;
  let smoothed_baseline :=
    mean (map Fin (Py.slice performances_task (baseline_index - 4)
                            (baseline_index + 1))) in
  let window_baseline_index := -1 in
  scanned <- recovery_scan smoothed_window smoothed_baseline
                           (Py.range min_window_index iters) i ;;
  let i := fst scanned in
  let recovery_window_index :=
    match snd scanned with
    | Some r => r
    | None => iters - 1
    end in
  let distance_to_minimum_in_window :=
    min_window_index - window_baseline_index in
  at_min <- Py.get smoothed_window min_window_index ;;
  let slope_down :=
    if 0 <=? min_window_index
    then fdiv (fsub (Fin at_min) smoothed_baseline)
              (of_int distance_to_minimum_in_window)
    else NaN in
  at_recovery <- Py.get smoothed_window recovery_window_index ;;
  let slope_up :=
    fdiv (Fin (at_recovery - at_min))
         (of_int (recovery_window_index - min_window_index)) in
  raw_min <- Py.get window min_window_index ;;
  let new_recovery_index :=
    Z.min (2 * distance_to_minimum_in_window)
          (Z.of_nat (length window) - 1) in
  at_new <- Py.get smoothed_window new_recovery_index ;;
  let sr_fixed :=
    if new_recovery_index <=? recovery_window_index
    then fdiv (Fin (at_new - at_min)) (of_int distance_to_minimum_in_window)
    else fdiv (Fin (at_recovery - at_min))
              (of_int (recovery_window_index - min_window_index)) in
  Some {| min_window_index := min_window_index;
          recovery_window_index := recovery_window_index;
          tbp := i;
          slope_down := slope_down;
          slope_up := slope_up;
          gap_depth := fsub smoothed_baseline (Fin raw_min);
          new_recovery_index := new_recovery_index;
          sr_fixed := sr_fixed |}.

(** The five lists of a task and the five means taken of them, in the
    order of the script: TBP, SD, SR, GD, SR fixed. *)
Record five (A : Type) : Type := {
  f_tbp : A;
  f_sd : A;
  f_sr : A;
  f_gd : A;
  f_sr_fixed : A
}.
Arguments f_tbp {A}.
Arguments f_sd {A}.
Arguments f_sr {A}.
Arguments f_gd {A}.
Arguments f_sr_fixed {A}.

Definition five_map {A B} (f : A -> B) (x : five A) : five B :=
  {| f_tbp := f (f_tbp x); f_sd := f (f_sd x); f_sr := f (f_sr x);
     f_gd := f (f_gd x); f_sr_fixed := f (f_sr_fixed x) |}.

Definition no_lists : five (list npfloat) :=
  {| f_tbp := []; f_sd := []; f_sr := []; f_gd := []; f_sr_fixed := [] |}.

Definition append_window (l : five (list npfloat)) (r : window_result)
  : five (list npfloat) :=
  {| f_tbp := f_tbp l ++ [of_int (tbp r)];
     f_sd := f_sd l ++ [slope_down r];
     f_sr := f_sr l ++ [slope_up r];
     f_gd := f_gd l ++ [gap_depth r];
     f_sr_fixed := f_sr_fixed l ++ [sr_fixed r] |}.

(** [for j in range(n_tasks - task_id - 1)], threading the lists and the
    loop variable [i]. *)
Fixpoint windows_loop (iters : Z) (performances_task : list Q)
         (js : list Z) (lists : five (list npfloat)) (i : Z)
  : option (five (list npfloat) * Z) :=
  match js with
  | [] => Some (lists, i)
  | j :: rest =>
      r <- analyse_window iters performances_task j i ;;
      windows_loop iters performances_task rest (append_window lists r)
                   (tbp r)
  end.

(** One round of [for task_id in range(n_tasks - 1)]: the list appended
    to [tbp_sd_sr_gd_experiment_i]. *)
Definition analyse_task (iters n_tasks : Z) (accuracies : list (list Q))
           (task_id : Z) (i : Z) : option (five npfloat * Z) :=
  performances_task <- Py.get accuracies task_id ;;
  looped <- windows_loop iters performances_task
                         (Py.range 0 (n_tasks - task_id - 1)) no_lists i ;;
  Some (five_map nanmean (fst looped), snd looped).

Fixpoint tasks_loop (iters n_tasks : Z) (accuracies : list (list Q))
         (task_ids : list Z) (rows : list (five npfloat)) (i : Z)
  : option (list (five npfloat) * Z) :=
  match task_ids with
  | [] => Some (rows, i)
  | task_id :: rest =>
      r <- analyse_task iters n_tasks accuracies task_id i ;;
      tasks_loop iters n_tasks accuracies rest (rows ++ [fst r]) (snd r)
  end.

(** [np.mean(rows, axis=0)] of a non-empty list of five-element rows. *)
Definition mean_axis0 (rows : list (five npfloat)) : five npfloat :=
  {| f_tbp := mean (map f_tbp rows);
     f_sd := mean (map f_sd rows);
     f_sr := mean (map f_sr rows);
     f_gd := mean (map f_gd rows);
     f_sr_fixed := mean (map f_sr_fixed rows) |}.

(** The per-task rows of experiment [i] and what is appended to
    [tbp_sd_sr_gd] for it. *)
Definition tbp_sd_sr_gd_experiment_i (iters n_tasks : Z)
           (accuracies : list (list Q)) (i : Z)
  : option (list (five npfloat)) :=
  looped <- tasks_loop iters n_tasks accuracies
                       (Py.range 0 (n_tasks - 1)) [] i ;;
  Some (fst looped).

Definition analyse_experiment (iters n_tasks : Z)
           (accuracies : list (list Q)) (i : Z) : option (five npfloat) :=
  rows <- tbp_sd_sr_gd_experiment_i iters n_tasks accuracies i ;;
  Some (mean_axis0 rows).

End Analysis.

(** ** The sliding-window scan (WF10, WF100, WP10, WP100) *)

Module Sliding.

Local Open Scope Q_scope.

(** [sys.maxsize] of a 64-bit build. *)
Definition sys_maxsize : Z := (2 ^ 63 - 1)%Z.

(** [max(a, b)] of Python: [a] unless [b] is greater. *)
Definition pymax (a b : Q) : Q := if Qlt_le_dec a b then b else a.

(** [max(...)] of a generator; ValueError ([None]) when it is empty. *)
Definition max_of (l : list Q) : option Q :=
  match l with
  | [] => None
  | x :: rest => Some (fold_left pymax rest x)
  end.

Record scan_state : Type := {
  wf_max_10 : Q;
  wf_max_100 : Q;
  wp_max_10 : Q;
  wp_max_100 : Q;
  array_to_compare_with_wf_10 : list Q;
  array_to_compare_with_wf_100 : list Q
}.

(** [if len(a) == limit: a = a[1:]]. *)
Definition evict (limit : nat) (a : list Q) : list Q :=
  if Nat.eqb (length a) limit then Py.slice_from a 1 else a.

Definition init_state (first : Q) : scan_state :=
  {| wf_max_10 := inject_Z (- sys_maxsize - 1);
     wf_max_100 := inject_Z (- sys_maxsize - 1);
     wp_max_10 := inject_Z (- sys_maxsize - 1);
     wp_max_100 := inject_Z (- sys_maxsize - 1);
     array_to_compare_with_wf_10 := [first];
     array_to_compare_with_wf_100 := [first] |}.

(** The body of [for current_accuracy in accuracies_experiment_i[j][501:]]. *)
Definition scan_step (st : scan_state) (current_accuracy : Q)
  : option scan_state :=
  let a10 := array_to_compare_with_wf_10 st in
  let a100 := array_to_compare_with_wf_100 st in
  f10 <- max_of (map (fun x => x - current_accuracy) a10) ;;
  f100 <- max_of (map (fun x => x - current_accuracy) a100) ;;
  p10 <- max_of (map (fun x => current_accuracy - x) a10) ;;
  p100 <- max_of (map (fun x => current_accuracy - x) a100) ;;
  Some {| wf_max_10 := pymax (wf_max_10 st) f10;
          wf_max_100 := pymax (wf_max_100 st) f100;
          wp_max_10 := pymax (wp_max_10 st) p10;
          wp_max_100 := pymax (wp_max_100 st) p100;
          array_to_compare_with_wf_10 :=
            evict 11 (a10 ++ [current_accuracy]);
          array_to_compare_with_wf_100 :=
            evict 101 (a100 ++ [current_accuracy]) |}.

Fixpoint scan_loop (st : scan_state) (samples : list Q)
  : option scan_state :=
  match samples with
  | [] => Some st
  | current_accuracy :: rest =>
      st' <- scan_step st current_accuracy ;;
      scan_loop st' rest
  end.

(** One round of the loop [for j in range(n_tasks-1)] on the row of task
    [j]; the state after the inner loop holds the four values appended to
    [wf10_wf100_wp10_wp100_experiment_i]. *)
Definition sliding_scan (row : list Q) : option scan_state :=
  first <- Py.get row 500 ;;
  scan_loop (init_state first) (Py.slice_from row 501).

End Sliding.

(** ** The accuracy log written while training *)

Module Training.

Section Log.

(** [100*test_acc(model, testsets[index], ...)] as measured while task
    [current_task] (1-based) is trained, at iteration [iteration], on
    the test set [index]: the model and its training are outside this
    development. *)
Variable accuracy : Z -> Z -> Z -> Q.

(** [performances[index].append(v)]. *)
Fixpoint append_at (performances : list (list Q)) (index : nat) (v : Q)
  : option (list (list Q)) :=
  match performances, index with
  | [], _ => None
  | row :: rest, O => Some ((row ++ [v]) :: rest)
  | row :: rest, S k =>
      rest' <- append_at rest k v ;;
      Some (row :: rest')
  end.

(** [for index in range(task_id): ... performances[index].append(accuracy)]. *)
Fixpoint evaluate (task_id iteration : Z) (indices : list Z)
         (performances : list (list Q)) : option (list (list Q)) :=
  match indices with
  | [] => Some performances
  | index :: rest =>
      p <- append_at performances (Z.to_nat index)
                     (accuracy task_id iteration index) ;;
      evaluate task_id iteration rest p
  end.

Fixpoint iterations (task_id : Z) (its : list Z)
         (performances : list (list Q)) : option (list (list Q)) :=
  match its with
  | [] => Some performances
  | iteration :: rest =>
      p <- evaluate task_id iteration (Py.range 0 task_id) performances ;;
      iterations task_id rest p
  end.

(** [train_and_evaluate(..., iters, ..., performances, task_id)], as far
    as [performances] is concerned. *)
Definition train_and_evaluate (iters : Z) (performances : list (list Q))
           (task_id : Z) : option (list (list Q)) :=
  iterations task_id (Py.range 1 (iters + 1)) performances.

Fixpoint tasks (iters : Z) (task_ids : list Z)
         (performances : list (list Q)) : option (list (list Q)) :=
  match task_ids with
  | [] => Some performances
  | task_id :: rest =>
      let current_task := task_id + 1 in
      p <- train_and_evaluate iters performances current_task ;;
      tasks iters rest p
  end.

(** One round of [for experiment_id in range(n_experiments)]: the value
    appended to [all_performances_experiments]. *)
Definition current_experiment_performances (n_tasks iters : Z)
  : option (list (list Q)) :=
  tasks iters (Py.range 0 n_tasks)
        (map (fun _ => []) (Py.range 0 n_tasks)).

End Log.

End Training.

(** ** float64 arithmetic

    A scalar operation of numpy on float64 values returns the exact
    result rounded to the nearest float64.  The rounding is left open as
    the function [fl] (for the float64 format itself see [Binary64] below);
    results beyond the float64 range are not modelled, the values of the
    script being percentages and their differences. *)

Module Float64.

Import Np.

Section Rounding.

Variable fl : Q -> Q.

Definition rounded (x : npfloat) : npfloat :=
  match x with
  | Fin q => Fin (fl q)
  | _ => x
  end.

Definition add (x y : npfloat) : npfloat := rounded (fadd x y).
Definition sub (x y : npfloat) : npfloat := rounded (fsub x y).
Definition div (x y : npfloat) : npfloat := rounded (fdiv x y).

End Rounding.

End Float64.

(** ** Mean and standard error across experiments *)

Module Aggregate.

Import Np.
Local Open Scope Q_scope.

(** Rounding to the nearest integer, halves to the even one. *)
Definition rint (q : Q) : Z :=
  let f := Qfloor q in
  match Qcompare (q - inject_Z f) (1 # 2) with
  | Lt => f
  | Gt => (f + 1)%Z
  | Eq => if Z.even f then f else (f + 1)%Z
  end.


Section Numpy.

(** Rounding to float64, and [np.sqrt] on the float64 values that are not
    negative. *)
Variable fl : Q -> Q.
Variable np_sqrt : Q -> Q.


(** The sum of a contiguous float64 array as numpy's [add.reduce] takes
    it, by pairwise summation: fewer than 8 elements are added one after
    the other; up to 128 elements go through eight running sums
    [r[0..7]], combined as [((r0+r1)+(r2+r3))+((r4+r5)+(r6+r7))], the
    elements left over being added one after the other; a longer array is
    split in two halves, the first a multiple of 8 long. *)
Fixpoint add_blocks (fuel : nat) (r rest : list npfloat)
  : list npfloat * list npfloat :=
  match fuel with
  | O => (r, rest)
  | S fuel' =>
      if (8 <=? length rest)%nat
      then add_blocks fuel'
                      (map (fun p => Float64.add fl (fst p) (snd p))
                           (combine r (firstn 8 rest)))
                      (skipn 8 rest)
      else (r, rest)
  end.

Definition unrolled_sum (a : list npfloat) : npfloat :=
  let looped := add_blocks (length a) (firstn 8 a) (skipn 8 a) in
  let add := Float64.add fl in
  let res :=
    match fst looped with
    | [r0; r1; r2; r3; r4; r5; r6; r7] =>
        add (add (add r0 r1) (add r2 r3)) (add (add r4 r5) (add r6 r7))
    | _ => Fin 0
    end in
  fold_left add (snd looped) res.

Fixpoint pairwise_sum (fuel : nat) (a : list npfloat) : npfloat :=
  let n := length a in
  if (n <? 8)%nat then fold_left (Float64.add fl) a (Fin 0)
  else if (n <=? 128)%nat then unrolled_sum a
  else match fuel with
       | O => Fin 0
       | S fuel' =>
           let n2 := (n / 2 - (n / 2) mod 8)%nat in
           Float64.add fl (pairwise_sum fuel' (firstn n2 a))
                       (pairwise_sum fuel' (skipn n2 a))
       end.

(** [np.sum] of a one-dimensional array: the reduction starts from the
    identity 0. *)
Definition np_sum (values : list npfloat) : npfloat :=
  Float64.add fl (Fin 0) (pairwise_sum (length values) values).


Section Reduction.

(** The sum that the reduction takes: [np_sum] for the lists of scalars
    (FORG, ACC, min-ACC, WC-ACC), [np_sum_axis0] for the columns of the
    lists of rows (WF/WP and TBP, SD, SR, GD, SR_fixed). *)
Variable sum : list npfloat -> npfloat.

(** [np.mean]. *)
Definition mean (values : list npfloat) : npfloat :=
  Float64.div fl (sum values) (of_len values).






End Reduction.

(** [np.mean] of a one-dimensional array. *)
Definition np_mean (values : list npfloat) : npfloat :=
  mean np_sum values.

End Numpy.

End Aggregate.

(** ** The behaviour the specification describes, where it is compared
       with the script's *)

Module Spec.

Local Open Scope Q_scope.

(** The smoothing filter in the specification's words: the mean of the
    element and of up to [radius] neighbours on each side, over the real
    samples only. *)
Definition truncated_mean_filter (input : list Q) (radius : Z) : list Q :=
  let n := Z.of_nat (length input) in
  map (fun i =>
         let lo := Z.max 0 (i - radius) in
         let hi := Z.min (n - 1) (i + radius) in
         Scipy.Qsum (Py.slice input lo (hi + 1)) / inject_Z (hi - lo + 1))
      (Py.range 0 n).

(** TBP in the specification's words: the distance from the trough to
    the recovery index. *)
Definition tbp (r : Analysis.window_result) : Z :=
  (Analysis.recovery_window_index r - Analysis.min_window_index r)%Z.

(** The last [w] elements of a sequence, all of it when it is shorter. *)
Definition lastn {A} (w : nat) (l : list A) : list A :=
  skipn (length l - w) l.

(** The largest element of a non-empty sequence. *)
Definition largest (l : list Q) : Q :=
  match l with
  | [] => 0
  | x :: rest => fold_left Sliding.pymax rest x
  end.

(** For the sample at position [k] of the scanned samples [s]: the
    largest drop from one of the [w] samples before it, and the largest
    rise from one of them. *)
Definition drop_at (w : nat) (s : list Q) (k : nat) : Q :=
  largest (map (fun x => x - nth k s 0) (lastn w (firstn k s))).

Definition rise_at (w : nat) (s : list Q) (k : nat) : Q :=
  largest (map (fun x => nth k s 0 - x) (lastn w (firstn k s))).

(** A running maximum over the positions [1 ..] of the scanned samples,
    from a given initial value. *)
Definition running_max (init : Q) (f : nat -> Q) (s : list Q) : Q :=
  fold_left Sliding.pymax (map f (seq 1 (length s - 1))) init.

(** What the state of the scan is after the samples [p], for running
    maxima that start from [init]. *)
Definition scanned (init : Q) (p : list Q) (st : Sliding.scan_state) : Prop :=
  Sliding.array_to_compare_with_wf_10 st = lastn 10 p /\
  Sliding.array_to_compare_with_wf_100 st = lastn 100 p /\
  Sliding.wf_max_10 st = running_max init (drop_at 10 p) p /\
  Sliding.wf_max_100 st = running_max init (drop_at 100 p) p /\
  Sliding.wp_max_10 st = running_max init (rise_at 10 p) p /\
  Sliding.wp_max_100 st = running_max init (rise_at 100 p) p.





End Spec.

(** ** Sample logs used in the examples below *)

Module Examples.

Local Open Scope Q_scope.

(** A row of task 0 for [iters = 6] and two tasks: flat at 70 during its
    own training, then a dip to 50 and a rise to 95 after the switch. *)
Definition dip_row : list Q :=
  [70; 70; 70; 70; 70; 70; 80; 70; 60; 50; 80; 95].

(** A log of one trial with [iters = 500] and four tasks.  Task 0 is at
    95 during its own training and falls to 85 for 100 iterations after
    each later switch; tasks 1 to 3 never fall: their accuracy rises by
    0.05 every 250 iterations from 90. *)
Definition dipping (k : nat) : Q :=
  if (k <? 500)%nat then 95
  else if (k mod 500 <? 100)%nat then 85 else 95.

Definition rising (k : nat) : Q :=
  inject_Z (Z.of_nat (1800 + k / 250)) / 20.

Definition no_dip_log : list (list Q) :=
  [map dipping (seq 0 2000); map rising (seq 0 1500);
   map rising (seq 0 1000); map rising (seq 0 500)].

(** A row of 510 samples that alternates between 90 and 95. *)
Definition zigzag_row : list Q :=
  map (fun k => if Nat.even k then 90 else 95) (seq 0 510).

End Examples.

(** ** FORG, ACC, min-ACC and WC-ACC of one experiment *)

Module Reducer.

Import Np.
Local Open Scope Q_scope.

(** [min(a, b)] of Python: [a] unless [b] is smaller. *)
Definition pymin (a b : Q) : Q := if Qlt_le_dec b a then b else a.

(** [min(...)] of a sequence; ValueError ([None]) when it is empty. *)
Definition min_of (l : list Q) : option Q :=
  match l with
  | [] => None
  | x :: rest => Some (fold_left pymin rest x)
  end.

(** The three lists filled by the loop over the tasks but the last. *)
Record value_lists : Type := {
  final_FORG_values_experiment_i : list Q;
  final_ACC_values_experiment_i : list Q;
  min_ACC_values_experiment_i : list Q
}.

Definition no_values : value_lists :=
  {| final_FORG_values_experiment_i := [];
     final_ACC_values_experiment_i := [];
     min_ACC_values_experiment_i := [] |}.

(** The three values appended for task [j]:
    [row[iters - 1] - row[-1]], [row[-1]] and [min(row[iters:])]. *)
Definition task_values (iters : Z) (accuracies_experiment_i : list (list Q))
           (j : Z) : option (Q * Q * Q) :=
  row <- Py.get accuracies_experiment_i j ;;
  after_training <- Py.get row (iters - 1)%Z ;;
  final <- Py.get row (-1)%Z ;;
  lowest <- min_of (Py.slice_from row iters) ;;
  Some (after_training - final, final, lowest).

Definition append_values (lists : value_lists) (v : Q * Q * Q)
  : value_lists :=
  {| final_FORG_values_experiment_i :=
       final_FORG_values_experiment_i lists ++ [fst (fst v)];
     final_ACC_values_experiment_i :=
       final_ACC_values_experiment_i lists ++ [snd (fst v)];
     min_ACC_values_experiment_i :=
       min_ACC_values_experiment_i lists ++ [snd v] |}.

(** [for j in range(n_tasks-1)]. *)
Fixpoint values_loop (iters : Z) (accuracies_experiment_i : list (list Q))
         (js : list Z) (lists : value_lists) : option value_lists :=
  match js with
  | [] => Some lists
  | j :: rest =>
      v <- task_values iters accuracies_experiment_i j ;;
      values_loop iters accuracies_experiment_i rest (append_values lists v)
  end.

(** [1 / n_tasks] of Python integers: ZeroDivisionError for 0. *)
Definition one_over (n_tasks : Z) : option Q :=
  if (n_tasks =? 0)%Z then None else Some (1 / inject_Z n_tasks).

(** What one experiment appends to [FORG_values_experiments],
    [ACC_values_experiments], [min_accuracy_values_experiments] and
    [wc_acc_performances_experiments]. *)
Record scalars : Type := {
  FORG : npfloat;
  ACC : npfloat;
  min_ACC : npfloat;
  WC_ACC : npfloat
}.

Definition scalar_metrics (iters n_tasks : Z)
           (accuracies_experiment_i : list (list Q)) : option scalars :=
  lists <- values_loop iters accuracies_experiment_i
                       (Py.range 0 (n_tasks - 1)) no_values ;;
  last_row <- Py.get accuracies_experiment_i (n_tasks - 1)%Z ;;
  last_final <- Py.get last_row (-1)%Z ;;
  share <- one_over n_tasks ;;
  let mins := map Fin (min_ACC_values_experiment_i lists) in
  Some {| FORG := mean (map Fin (final_FORG_values_experiment_i lists));
          ACC := mean (map Fin (final_ACC_values_experiment_i lists
                                ++ [last_final]));
          min_ACC := mean mins;
          WC_ACC := fadd (fmul (mean mins) (Fin (1 - share)))
                         (Fin (last_final * share)) |}.

End Reducer.

(** ** The batches drawn by [train_and_evaluate] *)

Module Loader.

(** [iters_left], and of the current [data_loader] which one it is (the
    number of loaders created so far, 0 while the name is unbound) and how
    many batches have been taken from it. *)
Record loader_state : Type := {
  iters_left : Z;
  created : Z;
  taken : Z
}.

Definition init_state : loader_state :=
  {| iters_left := 1; created := 0; taken := 0 |}.

(** One pass over the lines from [iters_left -= 1] to
    [x, y = next(data_loader)], for a loader of [len_loader] batches: the
    new state and the batch drawn, named by its loader and its position
    in it; [next] on an exhausted loader raises StopIteration. *)
Definition draw (len_loader : Z) (st : loader_state)
  : option (loader_state * (Z * Z)) :=
  let left := iters_left st - 1 in
  let st1 :=
    if left =? 0
    then {| iters_left := len_loader; created := created st + 1; taken := 0 |}
    else {| iters_left := left; created := created st; taken := taken st |} in
  if created st1 =? 0 then None
  else if taken st1 <? len_loader
       then Some ({| iters_left := iters_left st1;
                     created := created st1;
                     taken := taken st1 + 1 |},
                  (created st1, taken st1))
       else None.

(** [for iteration in range(1, iters+1)], as far as the batches go. *)
Fixpoint draws (len_loader : Z) (its : list Z) (st : loader_state)
         (batches : list (Z * Z)) : option (loader_state * list (Z * Z)) :=
  match its with
  | [] => Some (st, batches)
  | _ :: rest =>
      d <- draw len_loader st ;;
      draws len_loader rest (fst d) (batches ++ [snd d])
  end.

Definition batches_of (len_loader iters : Z) : option (list (Z * Z)) :=
  r <- draws len_loader (Py.range 1 (iters + 1)) init_state [] ;;
  Some (snd r).

End Loader.

(** ** The curves padded for the plot of all tasks *)

Module Plot.

(** [np.full(n, v)]; ValueError for a negative [n]. *)
Definition np_full (n : Z) (v : npfloat) : option (list npfloat) :=
  if n <? 0 then None else Some (repeat v (Z.to_nat n)).

(** [dst[a:] = src] on one-dimensional arrays: [src] must have the length
    of the slice, or length 1 (it is then broadcast); ValueError
    otherwise. *)
Definition assign_from (dst : list npfloat) (a : Z) (src : list npfloat)
  : option (list npfloat) :=
  let n := Z.of_nat (length dst) in
  let start := Z.to_nat (Py.clip n a) in
  let k := (length dst - start)%nat in
  if Nat.eqb (length src) k then Some (firstn start dst ++ src)
  else match src with
       | [x] => Some (firstn start dst ++ repeat x k)
       | _ => None
       end.

(** [padded_avg] of the task [task_id] for its mean curve. *)
Definition padded_avg (iters n_tasks task_id : Z)
           (average_performance : list npfloat) : option (list npfloat) :=
  let total_iters := iters * n_tasks in
  padded <- np_full total_iters NaN ;;
  assign_from padded (iters * task_id) average_performance.

End Plot.

(** ** The content of the log, position by position *)

Module LogContent.

(** The samples appended to the row of test set [k] while the task
    numbered [task] (from 1) is trained: one for each iteration when the
    test set is among the first [task], none otherwise. *)
Definition block (accuracy : Z -> Z -> Z -> Q) (iters task : Z) (k : nat)
  : list Q :=
  if Z.of_nat k <? task
  then map (fun iteration => accuracy task iteration (Z.of_nat k))
           (Py.range 1 (iters + 1))
  else [].

(** The samples appended to the row of test set [k] over the tasks of
    [task_ids] (numbered from 0). *)
Definition blocks (accuracy : Z -> Z -> Z -> Q) (iters : Z)
           (task_ids : list Z) (k : nat) : list Q :=
  flat_map (fun task_id => block accuracy iters (task_id + 1) k) task_ids.

End LogContent.

(** ** The window analysis on what the libraries return

    The analysis of one window as in [Analysis.analyse_window], with the
    numerical libraries left open: [uniform_filter1d_5 window] is the array
    that [uniform_filter1d(window, size=5)] returns, [np_mean] is
    [np.mean] on a slice of the row, and the scalar subtractions and
    divisions round with [fl].  Comparisons of float64 values are
    comparisons of the numbers they stand for. *)

Module Rounded.

Import Np Analysis.

Section Libraries.

Variable uniform_filter1d_5 : list Q -> list Q.
Variable np_mean : list Q -> npfloat.
Variable fl : Q -> Q.

Definition smoothed_of (iters : Z) (performances_task : list Q) (j : Z)
  : list Q :=
  uniform_filter1d_5 (window_of iters performances_task j).

Definition baseline_of (iters : Z) (performances_task : list Q) (j : Z)
  : npfloat :=
  np_mean (Py.slice performances_task (iters * (j + 1) - 1 - 4)
                    (iters * (j + 1) - 1 + 1)).

Definition analyse_window (iters : Z) (performances_task : list Q)
           (j : Z) (i : Z) : option window_result :=
  let baseline_index := iters * (j + 1) - 1 in
  let start_index := iters * (j + 1) in
  let end_index_exclusive := start_index + iters in
  let window := Py.slice performances_task start_index end_index_exclusive in
  let smoothed_window := uniform_filter1d_5 window in
  min_window_index <- argmin smoothed_window ;;
  let smoothed_baseline :=
    np_mean (Py.slice performances_task (baseline_index - 4)
                      (baseline_index + 1)) in
  let window_baseline_index := -1 in
  scanned <- recovery_scan smoothed_window smoothed_baseline
                           (Py.range min_window_index iters) i ;;
  let i := fst scanned in
  let recovery_window_index :=
    match snd scanned with
    | Some r => r
    | None => iters - 1
    end in
  let distance_to_minimum_in_window :=
    min_window_index - window_baseline_index in
  at_min <- Py.get smoothed_window min_window_index ;;
  let slope_down :=
    if 0 <=? min_window_index
    then Float64.div fl (Float64.sub fl (Fin at_min) smoothed_baseline)
                     (of_int distance_to_minimum_in_window)
    else NaN in
  at_recovery <- Py.get smoothed_window recovery_window_index ;;
  let slope_up :=
    Float64.div fl (Float64.sub fl (Fin at_recovery) (Fin at_min))
                (of_int (recovery_window_index - min_window_index)) in
  raw_min <- Py.get window min_window_index ;;
  let new_recovery_index :=
    Z.min (2 * distance_to_minimum_in_window)
          (Z.of_nat (length window) - 1) in
  at_new <- Py.get smoothed_window new_recovery_index ;;
  let sr_fixed :=
    if new_recovery_index <=? recovery_window_index
    then Float64.div fl (Float64.sub fl (Fin at_new) (Fin at_min))
                     (of_int distance_to_minimum_in_window)
    else Float64.div fl (Float64.sub fl (Fin at_recovery) (Fin at_min))
                     (of_int (recovery_window_index - min_window_index)) in
  Some {| min_window_index := min_window_index;
          recovery_window_index := recovery_window_index;
          tbp := i;
          slope_down := slope_down;
          slope_up := slope_up;
          gap_depth := Float64.sub fl smoothed_baseline (Fin raw_min);
          new_recovery_index := new_recovery_index;
          sr_fixed := sr_fixed |}.

End Libraries.

End Rounded.

(** ** The float64 format and the libraries on it

    [rnd] rounds a rational to the nearest float64 (binary64: 53
    significant bits, halves to the even mantissa, gradual underflow below
    2^-1022; no overflow).  The filter and the mean below are the
    libraries' computations with every intermediate result rounded. *)

Module Binary64.

Import Np.

(** [q * 2^k]. *)
Definition scale (q : Q) (k : Z) : Q :=
  if 0 <=? k then (q * inject_Z (2 ^ k))%Q
  else (q / inject_Z (2 ^ (- k)))%Q.

(** The exponent of the leading bit of a rational that is not 0. *)
Definition exponent (q : Q) : Z :=
  let e := Z.log2 (Z.abs (Qnum q)) - Z.log2 (Z.pos (Qden q)) in
  if Qle_bool 1 (scale (Qabs q) (- e)) then e else e - 1.

Definition rnd (q : Q) : Q :=
  let q := Qred q in
  if Qeq_bool q 0 then 0%Q
  else
    let e := Z.max (exponent q) (- 1022) in
    Qred (scale (inject_Z (Aggregate.rint (scale q (52 - e)))) (e - 52)).

(** [uniform_filter1d(input, size=5)] as scipy computes it, with
    [mode='reflect']: a running sum over the extended line, started with
    the five samples around position 0, moved on by adding the difference
    of the sample that enters and the sample that leaves, and divided by 5
    for each output. *)
Fixpoint running (ext : Z -> Q) (tmp : Q) (i : Z) (n : nat) : list Q :=
  match n with
  | O => []
  | S n' =>
      let tmp' := rnd (tmp + rnd (ext (i + 2) - ext (i - 3))) in
      rnd (tmp' / 5) :: running ext tmp' (i + 1) n'
  end.

Definition uniform_filter1d_5 (input : list Q) : list Q :=
  match input with
  | [] => []
  | _ :: rest =>
      let ext := Scipy.extended input in
      let tmp :=
        fold_left (fun acc k => rnd (acc + ext (k - 2))) (Py.range 0 5) 0%Q in
      rnd (tmp / 5) :: running ext tmp 1 (length rest)
  end.

(** [np.mean] of a slice of the row. *)
Definition np_mean (values : list Q) : npfloat :=
  Aggregate.np_mean rnd (map Fin values).


(** The window analysis of the script in float64. *)
Definition analyse_window : Z -> list Q -> Z -> Z
                            -> option Analysis.window_result :=
  Rounded.analyse_window uniform_filter1d_5 np_mean rnd.

(** The float64 value of a decimal literal. *)
Definition literal (numerator : Z) (decimals : Z) : Q :=
  rnd (inject_Z numerator / inject_Z (10 ^ decimals)).

End Binary64.

(** ** Sample rows for the float64 analysis *)

Module Runs.

(** A row of task 0 for [iters = 6] and two tasks that never regains its
    baseline of 70 after the switch. *)
Definition slow_row : list Q :=
  [70; 70; 70; 70; 70; 70; 50; 52; 54; 56; 58; 60]%Q.

(** A row on the grid of 0.05 on which the smoothed value at the trough
    equals the baseline in exact arithmetic and lies below it in
    float64. *)
Definition tie_row : list Q :=
  map (fun n => Binary64.literal n 2)
      [9000; 9000; 9015; 9015; 9000; 9005;
       9000; 9020; 9015; 9000; 9020; 9000].

(** A row whose window, [90.0, 90.1, 90.05, 90.1, 90.1, 90.0], has three
    equal smoothed minima in exact arithmetic, at the indices 0, 1 and 4;
    the baseline is 90.06. *)
Definition flat_row : list Q :=
  map (fun n => Binary64.literal n 2)
      [9000; 9005; 9005; 9005; 9005; 9010;
       9000; 9010; 9005; 9010; 9010; 9000].


End Runs.

(** * Properties *)

(** ** Python sequences *)

Section Sequences.

Context {A : Type}.

Lemma range_length (a b : Z) :
  length (Py.range a b) = Z.to_nat (b - a).
Proof.
  unfold Py.range. now rewrite length_map, length_seq.
Qed.

Lemma range_empty (a b : Z) : b <= a -> Py.range a b = [].
Proof.
  intros H. unfold Py.range.
  replace (Z.to_nat (b - a)) with O by lia. reflexivity.
Qed.

Lemma range_cons (a b : Z) :
  a < b -> Py.range a b = a :: Py.range (a + 1) b.
Proof.
  intros H. unfold Py.range.
  replace (Z.to_nat (b - a)) with (S (Z.to_nat (b - (a + 1)))) by lia.
  cbn [seq map]. f_equal; [lia|].
  rewrite <- seq_shift, map_map.
  apply map_ext. intros k. lia.
Qed.

Lemma nth_map_range (f : Z -> A) (n k : nat) (d : A) :
  (k < n)%nat ->
  nth k (map f (Py.range 0 (Z.of_nat n))) d = f (Z.of_nat k).
Proof.
  intros H. unfold Py.range. rewrite map_map.
  rewrite nth_indep with (d' := f (0 + Z.of_nat 0)).
  - rewrite (map_nth (fun x => f (0 + Z.of_nat x))).
    rewrite seq_nth by lia. f_equal.
  - rewrite length_map, length_seq. lia.
Qed.

Lemma get_nth (l : list A) (i : Z) (d : A) :
  0 <= i < Z.of_nat (length l) ->
  Py.get l i = Some (nth (Z.to_nat i) l d).
Proof.
  intros H. unfold Py.get.
  destruct (Z.ltb_spec i 0) as [?|_]; [lia|].
  apply nth_error_nth'. lia.
Qed.

Lemma get_in_bounds (l : list A) (i : Z) (x : A) :
  0 <= i -> Py.get l i = Some x -> i < Z.of_nat (length l).
Proof.
  intros H. unfold Py.get.
  destruct (Z.ltb_spec i 0) as [?|_]; [lia|].
  intros E.
  assert (Z.to_nat i < length l)%nat
    by (apply nth_error_Some; congruence).
  lia.
Qed.

Lemma slice_length (l : list A) (a b : Z) :
  0 <= a <= b -> b <= Z.of_nat (length l) ->
  length (Py.slice l a b) = Z.to_nat (b - a).
Proof.
  intros H1 H2. unfold Py.slice, Py.clip.
  destruct (Z.ltb_spec a 0) as [?|_]; [lia|].
  destruct (Z.ltb_spec b 0) as [?|_]; [lia|].
  rewrite length_firstn, length_skipn. lia.
Qed.

Lemma slice_nth (l : list A) (a b : Z) (k : nat) (d : A) :
  0 <= a <= b -> b <= Z.of_nat (length l) ->
  (k < Z.to_nat (b - a))%nat ->
  nth k (Py.slice l a b) d = nth (Z.to_nat a + k) l d.
Proof.
  intros H1 H2 Hk. unfold Py.slice, Py.clip.
  destruct (Z.ltb_spec a 0) as [?|_]; [lia|].
  destruct (Z.ltb_spec b 0) as [?|_]; [lia|].
  rewrite nth_firstn.
  replace (Z.min a (Z.of_nat (length l))) with a by lia.
  replace (Z.min b (Z.of_nat (length l))) with b by lia.
  destruct (Nat.ltb_spec k (Z.to_nat (b - a))) as [_|?]; [|lia].
  now rewrite nth_skipn.
Qed.

End Sequences.

(** ** The smoothing filter *)

Section Smoothing.

Import Scipy.

Lemma uniform_filter1d_length (input : list Q) (size : Z) :
  length (uniform_filter1d input size) = length input.
Proof.
  unfold uniform_filter1d. rewrite length_map, range_length. lia.
Qed.

Lemma reflect_index_mirror (n k : Z) :
  - n <= k < 2 * n -> reflect_index n k = mirror n k.
Proof.
  intros H. unfold reflect_index, mirror.
  destruct (Z.ltb_spec k 0) as [Hneg|Hpos].
  - assert (E : k mod (2 * n) = k + 2 * n).
    { symmetry. apply Z.mod_unique with (q := -1); lia. }
    rewrite E.
    destruct (Z.ltb_spec (k + 2 * n) n); lia.
  - rewrite Z.mod_small by lia. reflexivity.
Qed.

End Smoothing.

(** C2, as amended: the smoothing filter keeps the length of its input and
    each output element is the mean of the five positions [i-2 .. i+2] of
    the input extended by its mirror image: a position beyond an end of the
    sequence is not dropped from the mean but read from the reflected
    sequence, the edge sample first (position [-1] is sample 0, position
    [-2] is sample 1, position [n] is sample [n-1]); for a single sample
    every position is that sample. *)
Theorem uniform_filter1d_reflects (input : list Q) (i : Z) :
  let n := Z.of_nat (length input) in
  let x := Scipy.extended input in
  1 <= n -> 0 <= i < n ->
  length (Scipy.uniform_filter1d input 5) = length input /\
  (nth (Z.to_nat i) (Scipy.uniform_filter1d input 5) 0
   == (x (i - 2)%Z + x (i - 1)%Z + x i + x (i + 1)%Z + x (i + 2)%Z) / 5)%Q /\
  (forall k, - n <= k < 2 * n ->
             x k = nth (Z.to_nat (Scipy.mirror n k)) input 0%Q) /\
  (n = 1 -> forall k, x k = nth 0 input 0%Q).
Proof.
  intros n x Hn Hi. split; [apply uniform_filter1d_length|].
  split; [|split].
  - unfold Scipy.uniform_filter1d. fold n.
    replace n with (Z.of_nat (Z.to_nat n)) at 1 by lia.
    rewrite nth_map_range by lia.
    rewrite Z2Nat.id by lia.
    change (5 / 2) with 2.
    change (Py.range 0 5) with [0; 1; 2; 3; 4].
    cbn [map Scipy.Qsum fold_right]. fold x.
    replace (i - 2 + 0) with (i - 2) by lia.
    replace (i - 2 + 1) with (i - 1) by lia.
    replace (i - 2 + 2) with i by lia.
    replace (i - 2 + 3) with (i + 1) by lia.
    replace (i - 2 + 4) with (i + 2) by lia.
    change (inject_Z 5) with 5%Q. field.
  - intros k Hk. unfold x, Scipy.extended. fold n.
    now rewrite reflect_index_mirror.
  - intros E k. unfold x, Scipy.extended. fold n. rewrite E.
    unfold Scipy.reflect_index.
    assert (Hmod : 0 <= k mod (2 * 1) < 2 * 1) by (apply Z.mod_pos_bound; lia).
    destruct (Z.ltb_spec (k mod (2 * 1)) 1);
      f_equal; lia.
Qed.

Lemma uniform_filter1d_reflects_witness :
  1 <= 6 /\ 0 <= 0 < 6 /\
  (nth 0 (Scipy.uniform_filter1d [0; 10; 20; 30; 40; 50]%Q 5) 0 == 8)%Q.
Proof.
  split; [lia|]. split; [lia|].
  destruct (uniform_filter1d_reflects [0; 10; 20; 30; 40; 50]%Q 0)
    as (_ & H & _); [cbn; lia | cbn; lia |].
  rewrite H. vm_compute. reflexivity.
Defined.

(** C2, as stated, fails: at the first position of a ramp the filter
    returns 8, the mean with the reflected samples, where the mean over the
    three real samples is 10. *)
Lemma smoothing_truncation_counterexample :
  let w := [0; 10; 20; 30; 40; 50]%Q in
  w <> [] /\
  ~ Forall2 Qeq (Scipy.uniform_filter1d w 5) (Spec.truncated_mean_filter w 2).
Proof.
  split; [discriminate|].
  intros H. vm_compute in H. inversion H as [|? ? ? ? E _]; subst.
  discriminate E.
Qed.

(** ** The trough and the recovery index *)

Section Trough.

Import Np Analysis.
Local Open Scope Q_scope.

Lemma argmin_from_spec (l : list Q) :
  forall (pre : list Q) (best : Q) (b : nat),
    (b < length pre)%nat ->
    nth b pre 0 = best ->
    (forall k, (k < b)%nat -> best < nth k pre 0) ->
    (forall k, (k < length pre)%nat -> best <= nth k pre 0) ->
    exists m : nat,
      argmin_from best (Z.of_nat b) (Z.of_nat (length pre)) l = Z.of_nat m /\
      (m < length (pre ++ l))%nat /\
      (forall k, (k < m)%nat ->
                 nth m (pre ++ l) 0 < nth k (pre ++ l) 0) /\
      (forall k, (k < length (pre ++ l))%nat ->
                 nth m (pre ++ l) 0 <= nth k (pre ++ l) 0).
Proof.
  induction l as [|x rest IH]; intros pre best b Hb Hbest Hlt Hle.
  - exists b. rewrite app_nil_r, Hbest. cbn. auto.
  - cbn [argmin_from].
    replace (Z.of_nat (length pre) + 1)%Z
      with (Z.of_nat (length (pre ++ [x])))
      by (rewrite length_app; cbn; lia).
    replace (pre ++ x :: rest) with ((pre ++ [x]) ++ rest)
      by (rewrite <- app_assoc; reflexivity).
    destruct (Qlt_le_dec x best) as [Hx|Hx].
    + apply IH.
      * rewrite length_app. cbn. lia.
      * rewrite app_nth2 by lia. now rewrite Nat.sub_diag.
      * intros k Hk. rewrite app_nth1 by lia.
        apply Qlt_le_trans with best; auto.
      * intros k Hk. rewrite length_app in Hk. cbn in Hk.
        destruct (Nat.eq_dec k (length pre)) as [->|Hne].
        -- rewrite app_nth2 by lia. rewrite Nat.sub_diag. cbn. apply Qle_refl.
        -- rewrite app_nth1 by lia. apply Qlt_le_weak.
           apply Qlt_le_trans with best; auto. apply Hle. lia.
    + apply IH.
      * rewrite length_app. cbn. lia.
      * rewrite app_nth1 by lia. exact Hbest.
      * intros k Hk. rewrite app_nth1 by lia. auto.
      * intros k Hk. rewrite length_app in Hk. cbn in Hk.
        destruct (Nat.eq_dec k (length pre)) as [->|Hne].
        -- rewrite app_nth2 by lia. rewrite Nat.sub_diag. exact Hx.
        -- rewrite app_nth1 by lia. apply Hle. lia.
Qed.

(** [np.argmin] returns an index of the array, the first one that holds
    the minimum. *)
Lemma argmin_spec (l : list Q) :
  l <> [] ->
  exists m : nat,
    argmin l = Some (Z.of_nat m) /\
    (m < length l)%nat /\
    (forall k, (k < m)%nat -> nth m l 0 < nth k l 0) /\
    (forall k, (k < length l)%nat -> nth m l 0 <= nth k l 0).
Proof.
  destruct l as [|x rest]; [congruence|]. intros _.
  destruct (argmin_from_spec rest [x] x 0) as (m & E & H);
    cbn; try lia; try reflexivity.
  - intros k Hk. replace k with O by lia. apply Qle_refl.
  - exists m. cbn [argmin]. cbn in E. rewrite E. auto.
Qed.

Lemma recovery_scan_spec (sm : list Q) (base : npfloat) (n : nat) :
  forall (m i0 : Z),
    (0 <= m)%Z -> (m + Z.of_nat n <= Z.of_nat (length sm))%Z ->
    exists c found,
      recovery_scan sm base (Py.range m (m + Z.of_nat n)) i0
      = Some (c, found) /\
      match found with
      | Some r =>
          c = r /\ (m <= r < m + Z.of_nat n)%Z /\
          regains sm base r = true /\
          (forall k, (m <= k < r)%Z -> regains sm base k = false)
      | None =>
          c = (if Nat.eqb n 0 then i0 else m + Z.of_nat n - 1)%Z /\
          (forall k, (m <= k < m + Z.of_nat n)%Z ->
                     regains sm base k = false)
      end.
Proof.
  induction n as [|n IH]; intros m i0 Hm Hlen.
  - rewrite range_empty by lia. exists i0, None.
    cbn [recovery_scan Nat.eqb].
    split. { reflexivity. }
    split. { reflexivity. }
    intros k Hk. lia.
  - rewrite range_cons by lia. cbn [recovery_scan].
    rewrite (get_nth sm m 0) by lia. cbn [Py.bind].
    fold (regains sm base m).
    destruct (regains sm base m) eqn:E.
    + exists m, (Some m). split; [reflexivity|].
      repeat split; try lia; auto; intros k Hk; lia.
    + destruct (IH (m + 1)%Z m) as (c & found & Es & Hf); try lia.
      replace (m + 1 + Z.of_nat n)%Z with (m + Z.of_nat (S n))%Z in Es by lia.
      exists c, found. split; [exact Es|].
      destruct found as [r|].
      * destruct Hf as (Hc & Hr & Hreg & Hbefore).
        repeat split; try lia; auto.
        intros k Hk. destruct (Z.eq_dec k m) as [->|Hne]; [exact E|].
        apply Hbefore. lia.
      * destruct Hf as (Hc & Hnone). split.
        -- cbn [Nat.eqb]. rewrite Hc. destruct (Nat.eqb n 0) eqn:En.
           ++ apply Nat.eqb_eq in En. lia.
           ++ lia.
        -- intros k Hk. destruct (Z.eq_dec k m) as [->|Hne]; [exact E|].
           apply Hnone. lia.
Qed.

Lemma analyse_window_run (iters : Z) (row : list Q) (j i : Z) :
  (0 < iters)%Z -> (0 <= j)%Z ->
  (iters * (j + 2) <= Z.of_nat (length row))%Z ->
  let window := window_of iters row j in
  let sm := smoothed_of iters row j in
  let base := baseline_of iters row j in
  exists m r : Z,
    length window = Z.to_nat iters /\
    length sm = Z.to_nat iters /\
    argmin sm = Some m /\
    (0 <= m < iters)%Z /\
    (forall k, (0 <= k < m)%Z -> at_index sm m < at_index sm k) /\
    (forall k, (0 <= k < iters)%Z -> at_index sm m <= at_index sm k) /\
    (m <= r <= iters - 1)%Z /\
    ((regains sm base r = true /\
      forall k, (m <= k < r)%Z -> regains sm base k = false) \/
     (r = (iters - 1)%Z /\
      forall k, (m <= k < iters)%Z -> regains sm base k = false)) /\
    analyse_window iters row j i =
    Some {| min_window_index := m;
            recovery_window_index := r;
            tbp := r;
            slope_down :=
              fdiv (fsub (Fin (at_index sm m)) base) (of_int (m + 1));
            slope_up :=
              fdiv (Fin (at_index sm r - at_index sm m)) (of_int (r - m));
            gap_depth := fsub base (Fin (at_index window m));
            new_recovery_index := Z.min (2 * (m + 1)) (iters - 1);
            sr_fixed :=
              if (Z.min (2 * (m + 1)) (iters - 1) <=? r)%Z
              then fdiv (Fin (at_index sm (Z.min (2 * (m + 1)) (iters - 1))
                              - at_index sm m))
                        (of_int (m + 1))
              else fdiv (Fin (at_index sm r - at_index sm m))
                        (of_int (r - m)) |}.
Proof.
  intros Hit Hj Hlen window sm base.
  assert (Hw : length window = Z.to_nat iters).
  { unfold window, window_of. rewrite slice_length by nia.
    f_equal. lia. }
  assert (Hsm : length sm = Z.to_nat iters).
  { unfold sm, smoothed_of. rewrite uniform_filter1d_length. exact Hw. }
  destruct (argmin_spec sm) as (m & Em & Hm & Hfirst & Hmin).
  { intros E. rewrite E in Hsm. cbn in Hsm. lia. }
  destruct (recovery_scan_spec sm base (Z.to_nat (iters - Z.of_nat m))
                               (Z.of_nat m) i)
    as (c & found & Escan & Hfound); try lia.
  replace (Z.of_nat m + Z.of_nat (Z.to_nat (iters - Z.of_nat m)))%Z
    with iters in * by lia.
  set (r := match found with Some r => r | None => (iters - 1)%Z end).
  assert (Hc : c = r /\ (Z.of_nat m <= r <= iters - 1)%Z /\
               ((regains sm base r = true /\
                 forall k, (Z.of_nat m <= k < r)%Z ->
                           regains sm base k = false) \/
                (r = (iters - 1)%Z /\
                 forall k, (Z.of_nat m <= k < iters)%Z ->
                           regains sm base k = false))).
  { unfold r. destruct found as [r'|].
    - destruct Hfound as (-> & Hr & Hreg & Hbefore).
      split; [reflexivity|]. split; [lia|]. left. auto.
    - destruct Hfound as (Hcur & Hnone).
      destruct (Nat.eqb_spec (Z.to_nat (iters - Z.of_nat m)) 0) as [E|E];
        [lia|].
      split; [lia|]. split; [lia|]. right. auto. }
  destruct Hc as (Hc & Hr & Hrec).
  exists (Z.of_nat m), r.
  split; [exact Hw|]. split; [exact Hsm|]. split; [exact Em|].
  split; [lia|].
  split.
  { intros k Hk. unfold at_index. rewrite Nat2Z.id.
    apply Hfirst. lia. }
  split.
  { intros k Hk. unfold at_index. rewrite Nat2Z.id.
    apply Hmin. lia. }
  split; [exact Hr|]. split; [exact Hrec|].
  unfold analyse_window.
  change (Py.slice row (iters * (j + 1)) (iters * (j + 1) + iters))
    with window.
  change (Scipy.uniform_filter1d window 5) with sm.
  change (mean (map Fin (Py.slice row (iters * (j + 1) - 1 - 4)
                                  (iters * (j + 1) - 1 + 1))))
    with base.
  rewrite Em. cbn [Py.bind].
  rewrite Escan. cbn [Py.bind fst snd]. fold r.
  rewrite (get_nth sm (Z.of_nat m) 0) by lia. cbn [Py.bind].
  rewrite (get_nth sm r 0) by lia. cbn [Py.bind].
  rewrite (get_nth window (Z.of_nat m) 0) by lia. cbn [Py.bind].
  rewrite Hw.
  replace (Z.of_nat m - -1)%Z with (Z.of_nat m + 1)%Z by lia.
  replace (Z.of_nat (Z.to_nat iters) - 1)%Z with (iters - 1)%Z by lia.
  rewrite (get_nth sm (Z.min (2 * (Z.of_nat m + 1)) (iters - 1)) 0) by lia.
  cbn [Py.bind].
  destruct (Z.leb_spec 0 (Z.of_nat m)) as [_|?]; [|lia].
  rewrite Hc. reflexivity.
Qed.

End Trough.

Section Windows.

Import Np Analysis.
Local Open Scope Q_scope.

Lemma sgn_sub_diag (a : Q) : sgn (a - a) = 0%Z.
Proof.
  unfold sgn. destruct a as [n d]. cbn. replace (n * _ + _)%Z with 0%Z by lia.
  reflexivity.
Qed.

Lemma fdiv_by_int (a : Q) (z : Z) :
  z <> 0%Z -> fdiv (Fin a) (of_int z) = Fin (a / inject_Z z).
Proof.
  intros Hz. unfold fdiv, of_int.
  destruct (Qeq_bool (inject_Z z) 0) eqn:E; [|reflexivity].
  apply Qeq_bool_eq in E. unfold Qeq in E. cbn in E. lia.
Qed.

Lemma fdiv_zero_by_zero (a : Q) : fdiv (Fin (a - a)) (of_int 0) = NaN.
Proof.
  unfold fdiv, of_int. cbn [inject_Z].
  change (Qeq_bool (0 # 1) 0) with true. cbv iota.
  now rewrite sgn_sub_diag.
Qed.

End Windows.

(** ** The window analysis on what the libraries return *)

Section RoundedWindow.

Import Np Analysis.
Local Open Scope Q_scope.

Variable uniform_filter1d_5 : list Q -> list Q.
Variable np_mean : list Q -> npfloat.
Variable fl : Q -> Q.

Hypothesis filter_length :
  forall w, length (uniform_filter1d_5 w) = length w.

Lemma rounded_sub_fin (a b : Q) :
  Float64.sub fl (Fin a) (Fin b) = Fin (fl (a - b)).
Proof.
  reflexivity.
Qed.

Lemma rounded_div_by_int (a : Q) (z : Z) :
  z <> 0%Z -> Float64.div fl (Fin a) (of_int z) = Fin (fl (a / inject_Z z)).
Proof.
  intros Hz. unfold Float64.div. rewrite fdiv_by_int by exact Hz.
  reflexivity.
Qed.

Lemma rounded_zero_by_zero (a : Q) :
  a == 0 -> Float64.div fl (Fin a) (of_int 0) = NaN.
Proof.
  intros Ha.
  assert (E : Qnum a = 0%Z) by (unfold Qeq in Ha; cbn in Ha; lia).
  unfold Float64.div, fdiv, of_int. cbn [inject_Z].
  change (Qeq_bool (0 # 1) 0) with true. cbv iota.
  unfold sgn. rewrite E. reflexivity.
Qed.

(** One window that lies within its row: the trough is the first index of
    the minimum of the array the filter returns, the recovery index the
    first index from the trough on whose smoothed value is at least the
    baseline, or [iters - 1] when there is none; the values are computed
    from these. *)
Lemma rounded_window_run (iters : Z) (row : list Q) (j i : Z) :
  (0 < iters)%Z -> (0 <= j)%Z ->
  (iters * (j + 2) <= Z.of_nat (length row))%Z ->
  let window := window_of iters row j in
  let sm := Rounded.smoothed_of uniform_filter1d_5 iters row j in
  let base := Rounded.baseline_of np_mean iters row j in
  exists m r : Z,
    length sm = Z.to_nat iters /\
    argmin sm = Some m /\
    (0 <= m < iters)%Z /\
    (forall k, (0 <= k < m)%Z -> at_index sm m < at_index sm k) /\
    (forall k, (0 <= k < iters)%Z -> at_index sm m <= at_index sm k) /\
    (m <= r <= iters - 1)%Z /\
    ((regains sm base r = true /\
      forall k, (m <= k < r)%Z -> regains sm base k = false) \/
     (r = (iters - 1)%Z /\
      forall k, (m <= k < iters)%Z -> regains sm base k = false)) /\
    Rounded.analyse_window uniform_filter1d_5 np_mean fl iters row j i =
    Some {| min_window_index := m;
            recovery_window_index := r;
            tbp := r;
            slope_down :=
              Float64.div fl (Float64.sub fl (Fin (at_index sm m)) base)
                          (of_int (m + 1));
            slope_up :=
              Float64.div fl
                          (Float64.sub fl (Fin (at_index sm r))
                                       (Fin (at_index sm m)))
                          (of_int (r - m));
            gap_depth := Float64.sub fl base (Fin (at_index window m));
            new_recovery_index := Z.min (2 * (m + 1)) (iters - 1);
            sr_fixed :=
              if (Z.min (2 * (m + 1)) (iters - 1) <=? r)%Z
              then Float64.div fl
                     (Float64.sub fl
                        (Fin (at_index sm (Z.min (2 * (m + 1)) (iters - 1))))
                        (Fin (at_index sm m)))
                     (of_int (m + 1))
              else Float64.div fl
                     (Float64.sub fl (Fin (at_index sm r))
                                  (Fin (at_index sm m)))
                     (of_int (r - m)) |}.
Proof.
  intros Hit Hj Hlen window sm base.
  assert (Hw : length window = Z.to_nat iters).
  { unfold window, window_of. rewrite slice_length by nia.
    f_equal. lia. }
  assert (Hsm : length sm = Z.to_nat iters).
  { unfold sm, Rounded.smoothed_of. rewrite filter_length. exact Hw. }
  destruct (argmin_spec sm) as (m & Em & Hm & Hfirst & Hmin).
  { intros E. rewrite E in Hsm. cbn in Hsm. lia. }
  destruct (recovery_scan_spec sm base (Z.to_nat (iters - Z.of_nat m))
                               (Z.of_nat m) i)
    as (c & found & Escan & Hfound); try lia.
  replace (Z.of_nat m + Z.of_nat (Z.to_nat (iters - Z.of_nat m)))%Z
    with iters in * by lia.
  set (r := match found with Some r => r | None => (iters - 1)%Z end).
  assert (Hc : c = r /\ (Z.of_nat m <= r <= iters - 1)%Z /\
               ((regains sm base r = true /\
                 forall k, (Z.of_nat m <= k < r)%Z ->
                           regains sm base k = false) \/
                (r = (iters - 1)%Z /\
                 forall k, (Z.of_nat m <= k < iters)%Z ->
                           regains sm base k = false))).
  { unfold r. destruct found as [r'|].
    - destruct Hfound as (-> & Hr & Hreg & Hbefore).
      split; [reflexivity|]. split; [lia|]. left. auto.
    - destruct Hfound as (Hcur & Hnone).
      destruct (Nat.eqb_spec (Z.to_nat (iters - Z.of_nat m)) 0) as [E|E];
        [lia|].
      split; [lia|]. split; [lia|]. right. auto. }
  destruct Hc as (Hc & Hr & Hrec).
  exists (Z.of_nat m), r.
  split; [exact Hsm|]. split; [exact Em|].
  split; [lia|].
  split.
  { intros k Hk. unfold at_index. rewrite Nat2Z.id.
    apply Hfirst. lia. }
  split.
  { intros k Hk. unfold at_index. rewrite Nat2Z.id.
    apply Hmin. lia. }
  split; [exact Hr|]. split; [exact Hrec|].
  unfold Rounded.analyse_window.
  change (Py.slice row (iters * (j + 1)) (iters * (j + 1) + iters))
    with window.
  change (uniform_filter1d_5 window) with sm.
  change (np_mean (Py.slice row (iters * (j + 1) - 1 - 4)
                            (iters * (j + 1) - 1 + 1)))
    with base.
  rewrite Em. cbn [Py.bind].
  rewrite Escan. cbn [Py.bind fst snd]. fold r.
  rewrite (get_nth sm (Z.of_nat m) 0) by lia. cbn [Py.bind].
  rewrite (get_nth sm r 0) by lia. cbn [Py.bind].
  rewrite (get_nth window (Z.of_nat m) 0) by lia. cbn [Py.bind].
  rewrite Hw.
  replace (Z.of_nat m - -1)%Z with (Z.of_nat m + 1)%Z by lia.
  replace (Z.of_nat (Z.to_nat iters) - 1)%Z with (iters - 1)%Z by lia.
  rewrite (get_nth sm (Z.min (2 * (Z.of_nat m + 1)) (iters - 1)) 0) by lia.
  cbn [Py.bind].
  destruct (Z.leb_spec 0 (Z.of_nat m)) as [_|?]; [|lia].
  rewrite Hc. reflexivity.
Qed.

End RoundedWindow.

(** *** The float64 instance *)

Section Binary64Facts.

Local Open Scope Q_scope.

Lemma running_length (ext : Z -> Q) (n : nat) :
  forall tmp i, length (Binary64.running ext tmp i n) = n.
Proof.
  induction n as [|n IH]; intros tmp i; [reflexivity|].
  cbn [Binary64.running length]. now rewrite IH.
Qed.

Lemma binary64_filter_length (w : list Q) :
  length (Binary64.uniform_filter1d_5 w) = length w.
Proof.
  destruct w as [|x rest]; [reflexivity|].
  unfold Binary64.uniform_filter1d_5. cbn [length].
  now rewrite running_length.
Qed.

Lemma rnd_zero (q : Q) : q == 0 -> Binary64.rnd q == 0.
Proof.
  intros H. unfold Binary64.rnd. cbv zeta.
  rewrite (Qeq_eq_bool (Qred q) 0); [reflexivity|].
  rewrite Qred_correct. exact H.
Qed.


(** With no rounding and the exact filter and mean, the analysis is that
    of [Analysis.analyse_window]. *)
Lemma rounded_id (x : npfloat) : Float64.rounded (fun q => q) x = x.
Proof.
  now destruct x.
Qed.

Lemma exact_instance (iters : Z) (row : list Q) (j i : Z) :
  Rounded.analyse_window (fun w => Scipy.uniform_filter1d w 5)
                         (fun l => Np.mean (map Fin l)) (fun q => q)
                         iters row j i
  = Analysis.analyse_window iters row j i.
Proof.
  unfold Rounded.analyse_window, Analysis.analyse_window.
  unfold Float64.div, Float64.sub.
  repeat match goal with
         | |- context [Py.bind ?x _] =>
             destruct x; cbn [Py.bind]; [|reflexivity]
         end.
  now rewrite !rounded_id.
Qed.

End Binary64Facts.

(** C8: for a window that lies within the row, with [sm] the array that
    [uniform_filter1d(window, size=5)] returns: the trough index is an
    index of the window, [0 <= trough < iters]; it is [np.argmin sm], the
    first index that holds the minimum of [sm]; and the recovery index
    lies between the trough and the last index of the window, being the
    first index from the trough on at which [sm] is at least the baseline
    when the scan finds one and [iters - 1] when it does not. *)
Theorem trough_recovery_bounds
        (uniform_filter1d_5 : list Q -> list Q) (np_mean : list Q -> npfloat)
        (fl : Q -> Q) (iters : Z) (row : list Q) (j i : Z) :
  (forall w, length (uniform_filter1d_5 w) = length w) ->
  0 < iters -> 0 <= j -> iters * (j + 2) <= Z.of_nat (length row) ->
  let sm := Rounded.smoothed_of uniform_filter1d_5 iters row j in
  let base := Rounded.baseline_of np_mean iters row j in
  exists res,
    Rounded.analyse_window uniform_filter1d_5 np_mean fl iters row j i
    = Some res /\
    let m := Analysis.min_window_index res in
    let r := Analysis.recovery_window_index res in
    0 <= m < iters /\ m <= r /\ r <= iters - 1 /\
    Np.argmin sm = Some m /\
    (forall k, 0 <= k < m ->
               (Analysis.at_index sm m < Analysis.at_index sm k)%Q) /\
    (forall k, 0 <= k < iters ->
               (Analysis.at_index sm m <= Analysis.at_index sm k)%Q) /\
    ((Analysis.regains sm base r = true /\
      forall k, m <= k < r -> Analysis.regains sm base k = false) \/
     (r = iters - 1 /\
      forall k, m <= k < iters -> Analysis.regains sm base k = false)).
Proof.
  intros Hf Hit Hj Hlen sm base.
  destruct (rounded_window_run uniform_filter1d_5 np_mean fl Hf
                               iters row j i Hit Hj Hlen)
    as (m & r & _ & Em & Hm & Hfirst & Hmin & Hr & Hrec & E).
  eexists. split; [exact E|].
  cbn [Analysis.min_window_index Analysis.recovery_window_index].
  split; [lia|]. split; [lia|]. split; [lia|]. split; [exact Em|].
  split; [exact Hfirst|]. split; [exact Hmin|]. exact Hrec.
Qed.

Lemma trough_recovery_bounds_witness :
  0 < 6 /\ 0 <= 0 /\ 6 * (0 + 2) <= Z.of_nat (length Runs.flat_row) /\
  exists res,
    Binary64.analyse_window 6 Runs.flat_row 0 0 = Some res /\
    Analysis.min_window_index res = 4 /\
    Np.argmin (Binary64.uniform_filter1d_5
                 (Analysis.window_of 6 Runs.flat_row 0)) = Some 4 /\
    Analysis.recovery_window_index res = 5 /\
    (exists exact,
        Analysis.analyse_window 6 Runs.flat_row 0 0 = Some exact /\
        Analysis.min_window_index exact = 0 /\
        Analysis.recovery_window_index exact = 2).
Proof.
  assert (H1 : 0 < 6) by lia.
  assert (H2 : 0 <= 0) by lia.
  assert (H3 : 6 * (0 + 2) <= Z.of_nat (length Runs.flat_row))
    by (cbn; lia).
  repeat (split; [assumption|]).
  destruct (trough_recovery_bounds
              Binary64.uniform_filter1d_5 Binary64.np_mean Binary64.rnd
              6 Runs.flat_row 0 0 binary64_filter_length H1 H2 H3)
    as (res & E & _ & _ & _ & Em & _).
  exists res. split; [exact E|].
  vm_compute in E. injection E as <-.
  split; [reflexivity|]. split; [exact Em|]. split; [reflexivity|].
  eexists. split; [vm_compute; reflexivity|]. split; reflexivity.
Defined.

(** C7: for a window that lies within the row, with the trough [m] and
    the recovery index [r] as the script finds them on the array [sm] the
    filter returns ([m] the first minimum of [sm], [r] the first index from
    [m] on that regains the baseline, [iters - 1] when none does): the
    recovery slope is [(sm[r] - sm[m]) / (r - m)], in float64, when the
    recovery index lies after the trough, and not-a-number, with nothing
    raised, when the two coincide; no other case exists. *)
Theorem slope_recovery_value
        (uniform_filter1d_5 : list Q -> list Q) (np_mean : list Q -> npfloat)
        (fl : Q -> Q) (iters : Z) (row : list Q) (j i : Z) :
  (forall w, length (uniform_filter1d_5 w) = length w) ->
  (forall q, (q == 0)%Q -> (fl q == 0)%Q) ->
  0 < iters -> 0 <= j -> iters * (j + 2) <= Z.of_nat (length row) ->
  let sm := Rounded.smoothed_of uniform_filter1d_5 iters row j in
  let base := Rounded.baseline_of np_mean iters row j in
  exists res,
    Rounded.analyse_window uniform_filter1d_5 np_mean fl iters row j i
    = Some res /\
    let m := Analysis.min_window_index res in
    let r := Analysis.recovery_window_index res in
    Np.argmin sm = Some m /\
    m <= r <= iters - 1 /\
    ((Analysis.regains sm base r = true /\
      forall k, m <= k < r -> Analysis.regains sm base k = false) \/
     (r = iters - 1 /\
      forall k, m <= k < iters -> Analysis.regains sm base k = false)) /\
    (m < r ->
     Analysis.slope_up res =
     Fin (fl (fl (Analysis.at_index sm r - Analysis.at_index sm m)
              / inject_Z (r - m)))%Q) /\
    (r = m -> Analysis.slope_up res = NaN).
Proof.
  intros Hf Hzero Hit Hj Hlen sm base.
  destruct (rounded_window_run uniform_filter1d_5 np_mean fl Hf
                               iters row j i Hit Hj Hlen)
    as (m & r & _ & Em & Hm & _ & _ & Hr & Hrec & E).
  eexists. split; [exact E|].
  cbn [Analysis.min_window_index Analysis.recovery_window_index
       Analysis.slope_up].
  split; [exact Em|]. split; [exact Hr|]. split; [exact Hrec|].
  rewrite rounded_sub_fin. split.
  - intros Hlt. apply rounded_div_by_int. lia.
  - intros ->. rewrite Z.sub_diag. apply rounded_zero_by_zero.
    apply Hzero. ring.
Qed.

Lemma slope_recovery_value_witness :
  0 < 6 /\ 0 <= 0 /\ 6 * (0 + 2) <= Z.of_nat (length Runs.tie_row) /\
  exists res,
    Binary64.analyse_window 6 Runs.tie_row 0 0 = Some res /\
    Analysis.min_window_index res = 1 /\
    Analysis.recovery_window_index res = 2 /\
    Analysis.slope_up res = Fin (1407374883553 # 35184372088832).
Proof.
  assert (H1 : 0 < 6) by lia.
  assert (H2 : 0 <= 0) by lia.
  assert (H3 : 6 * (0 + 2) <= Z.of_nat (length Runs.tie_row))
    by (cbn; lia).
  repeat (split; [assumption|]).
  destruct (slope_recovery_value
              Binary64.uniform_filter1d_5 Binary64.np_mean Binary64.rnd
              6 Runs.tie_row 0 0 binary64_filter_length rnd_zero H1 H2 H3)
    as (res & E & _).
  exists res. split; [exact E|].
  vm_compute in E. injection E as <-.
  split; [reflexivity|]. split; reflexivity.
Defined.

(** C6: the capped recovery slope of a window that lies within the row,
    with the trough [m] and the recovery index [r] as the script finds
    them on the array [sm] the filter returns.  With
    [distance_to_trough = m + 1] and
    [fixed_recovery_index = min(2*distance_to_trough, iters - 1)], it is
    [(sm[fixed_recovery_index] - sm[m]) / distance_to_trough] when the
    fixed index does not lie after the recovery index, and otherwise
    [(sm[r] - sm[m]) / (r - m)], the recovery slope, which is
    not-a-number when [r = m]; all in float64. *)
Theorem slope_recovery_fixed_value
        (uniform_filter1d_5 : list Q -> list Q) (np_mean : list Q -> npfloat)
        (fl : Q -> Q) (iters : Z) (row : list Q) (j i : Z) :
  (forall w, length (uniform_filter1d_5 w) = length w) ->
  (forall q, (q == 0)%Q -> (fl q == 0)%Q) ->
  0 < iters -> 0 <= j -> iters * (j + 2) <= Z.of_nat (length row) ->
  let sm := Rounded.smoothed_of uniform_filter1d_5 iters row j in
  let base := Rounded.baseline_of np_mean iters row j in
  exists res,
    Rounded.analyse_window uniform_filter1d_5 np_mean fl iters row j i
    = Some res /\
    let m := Analysis.min_window_index res in
    let r := Analysis.recovery_window_index res in
    let distance_to_trough := m + 1 in
    let fixed_recovery_index := Z.min (2 * distance_to_trough) (iters - 1) in
    Np.argmin sm = Some m /\
    m <= r <= iters - 1 /\
    ((Analysis.regains sm base r = true /\
      forall k, m <= k < r -> Analysis.regains sm base k = false) \/
     (r = iters - 1 /\
      forall k, m <= k < iters -> Analysis.regains sm base k = false)) /\
    Analysis.new_recovery_index res = fixed_recovery_index /\
    (fixed_recovery_index <= r ->
     Analysis.sr_fixed res =
     Fin (fl (fl (Analysis.at_index sm fixed_recovery_index
                  - Analysis.at_index sm m)
              / inject_Z distance_to_trough))%Q) /\
    (r < fixed_recovery_index ->
     Analysis.sr_fixed res = Analysis.slope_up res /\
     (m < r ->
      Analysis.sr_fixed res =
      Fin (fl (fl (Analysis.at_index sm r - Analysis.at_index sm m)
               / inject_Z (r - m)))%Q) /\
     (r = m -> Analysis.sr_fixed res = NaN)).
Proof.
  intros Hf Hzero Hit Hj Hlen sm base.
  destruct (rounded_window_run uniform_filter1d_5 np_mean fl Hf
                               iters row j i Hit Hj Hlen)
    as (m & r & _ & Em & Hm & _ & _ & Hr & Hrec & E).
  eexists. split; [exact E|].
  cbn [Analysis.min_window_index Analysis.recovery_window_index
       Analysis.slope_up Analysis.sr_fixed Analysis.new_recovery_index].
  split; [exact Em|]. split; [exact Hr|]. split; [exact Hrec|].
  split; [reflexivity|].
  rewrite !rounded_sub_fin. split.
  - intros Hle. apply Z.leb_le in Hle. rewrite Hle.
    apply rounded_div_by_int. lia.
  - intros Hlt. apply Z.leb_gt in Hlt. rewrite Hlt.
    split; [reflexivity|]. split.
    + intros Hmr. apply rounded_div_by_int. lia.
    + intros ->. rewrite Z.sub_diag. apply rounded_zero_by_zero.
      apply Hzero. ring.
Qed.

Lemma slope_recovery_fixed_value_witness :
  0 < 6 /\ 0 <= 0 /\ 6 * (0 + 2) <= Z.of_nat (length Runs.slow_row) /\
  6 * (0 + 2) <= Z.of_nat (length Examples.dip_row) /\
  (exists res,
      Binary64.analyse_window 6 Runs.slow_row 0 0 = Some res /\
      Analysis.min_window_index res = 0 /\
      Analysis.recovery_window_index res = 5 /\
      Analysis.new_recovery_index res = 2 /\
      Analysis.sr_fixed res = Fin (337769972052787 # 140737488355328)) /\
  (exists res,
      Binary64.analyse_window 6 Examples.dip_row 0 0 = Some res /\
      Analysis.min_window_index res = 1 /\
      Analysis.recovery_window_index res = 3 /\
      Analysis.new_recovery_index res = 4 /\
      Analysis.sr_fixed res = Fin (3 # 2)).
Proof.
  assert (H1 : 0 < 6) by lia.
  assert (H2 : 0 <= 0) by lia.
  assert (H3 : 6 * (0 + 2) <= Z.of_nat (length Runs.slow_row))
    by (cbn; lia).
  assert (H4 : 6 * (0 + 2) <= Z.of_nat (length Examples.dip_row))
    by (cbn; lia).
  repeat (split; [assumption|]).
  split.
  - destruct (slope_recovery_fixed_value
                Binary64.uniform_filter1d_5 Binary64.np_mean Binary64.rnd
                6 Runs.slow_row 0 0 binary64_filter_length rnd_zero
                H1 H2 H3)
      as (res & E & _).
    exists res. split; [exact E|].
    vm_compute in E. injection E as <-. repeat split; reflexivity.
  - destruct (slope_recovery_fixed_value
                Binary64.uniform_filter1d_5 Binary64.np_mean Binary64.rnd
                6 Examples.dip_row 0 0 binary64_filter_length rnd_zero
                H1 H2 H4)
      as (res & E & _).
    exists res. split; [exact E|].
    vm_compute in E. injection E as <-. repeat split; reflexivity.
Defined.

(** C1, as amended: the value appended to the TBP list for a window is the
    recovery index itself, counted from the start of the window: with the
    trough the first minimum of the array [sm] the filter returns, it is
    the first index at or after the trough at which [sm] regains the
    baseline, or [iters - 1] when there is none.  The trough index is not
    subtracted. *)
Theorem tbp_is_recovery_index
        (uniform_filter1d_5 : list Q -> list Q) (np_mean : list Q -> npfloat)
        (fl : Q -> Q) (iters : Z) (row : list Q) (j i : Z) :
  (forall w, length (uniform_filter1d_5 w) = length w) ->
  0 < iters -> 0 <= j -> iters * (j + 2) <= Z.of_nat (length row) ->
  let sm := Rounded.smoothed_of uniform_filter1d_5 iters row j in
  let base := Rounded.baseline_of np_mean iters row j in
  exists res,
    Rounded.analyse_window uniform_filter1d_5 np_mean fl iters row j i
    = Some res /\
    let m := Analysis.min_window_index res in
    let r := Analysis.recovery_window_index res in
    Np.argmin sm = Some m /\
    (forall k, 0 <= k < m ->
               (Analysis.at_index sm m < Analysis.at_index sm k)%Q) /\
    (forall k, 0 <= k < iters ->
               (Analysis.at_index sm m <= Analysis.at_index sm k)%Q) /\
    0 <= m <= r /\ r <= iters - 1 /\
    ((Analysis.regains sm base r = true /\
      forall k, m <= k < r -> Analysis.regains sm base k = false) \/
     (r = iters - 1 /\
      forall k, m <= k < iters -> Analysis.regains sm base k = false)) /\
    Analysis.tbp res = r.
Proof.
  intros Hf Hit Hj Hlen sm base.
  destruct (rounded_window_run uniform_filter1d_5 np_mean fl Hf
                               iters row j i Hit Hj Hlen)
    as (m & r & _ & Em & Hm & Hfirst & Hmin & Hr & Hrec & E).
  eexists. split; [exact E|].
  cbn [Analysis.min_window_index Analysis.recovery_window_index
       Analysis.tbp].
  split; [exact Em|]. split; [exact Hfirst|]. split; [exact Hmin|].
  split; [lia|]. split; [lia|]. split; [exact Hrec|reflexivity].
Qed.

Lemma tbp_is_recovery_index_witness :
  0 < 6 /\ 0 <= 0 /\ 6 * (0 + 2) <= Z.of_nat (length Runs.tie_row) /\
  exists res,
    Binary64.analyse_window 6 Runs.tie_row 0 0 = Some res /\
    Analysis.min_window_index res = 1 /\
    Analysis.recovery_window_index res = 2 /\
    Analysis.tbp res = 2.
Proof.
  assert (H1 : 0 < 6) by lia.
  assert (H2 : 0 <= 0) by lia.
  assert (H3 : 6 * (0 + 2) <= Z.of_nat (length Runs.tie_row))
    by (cbn; lia).
  repeat (split; [assumption|]).
  destruct (tbp_is_recovery_index
              Binary64.uniform_filter1d_5 Binary64.np_mean Binary64.rnd
              6 Runs.tie_row 0 0 binary64_filter_length H1 H2 H3)
    as (res & E & _).
  exists res. split; [exact E|].
  vm_compute in E. injection E as <-. repeat split; reflexivity.
Defined.

(** C1, as stated, fails: on the sample row the trough is at index 1 and
    baseline is regained at index 3; the script appends 3 to the TBP list,
    where the distance from the trough to the recovery index is 2.  The
    float64 analysis and the analysis without rounding agree on it. *)
Lemma tbp_counterexample :
  (exists res,
      Binary64.analyse_window 6 Examples.dip_row 0 0 = Some res /\
      Analysis.min_window_index res = 1 /\
      Analysis.recovery_window_index res = 3 /\
      Analysis.tbp res = 3 /\
      Spec.tbp res = 2 /\
      Analysis.tbp res <> Spec.tbp res) /\
  (exists res,
      Analysis.analyse_window 6 Examples.dip_row 0 0 = Some res /\
      Analysis.min_window_index res = 1 /\
      Analysis.recovery_window_index res = 3 /\
      Analysis.tbp res = 3 /\
      Spec.tbp res = 2 /\
      Analysis.tbp res <> Spec.tbp res).
Proof.
  split.
  - eexists. split; [vm_compute; reflexivity|]. cbn.
    repeat split; try reflexivity. discriminate.
  - eexists. split; [vm_compute; reflexivity|]. cbn.
    repeat split; try reflexivity. discriminate.
Qed.

(** ** The accuracy log *)

Section LogLengths.

Import Training.

Variable accuracy : Z -> Z -> Z -> Q.

(** The number of samples in row [k] of a log. *)
Local Notation "'row_len' p k" := (Z.of_nat (length (nth k p [])))
  (at level 10, p at level 9, k at level 9, only parsing).

Lemma append_at_spec (performances : list (list Q)) :
  forall (index : nat) (v : Q),
    (index < length performances)%nat ->
    exists p',
      append_at performances index v = Some p' /\
      length p' = length performances /\
      forall k, row_len p' k
                = row_len performances k + (if Nat.eqb k index then 1 else 0).
Proof.
  induction performances as [|row rest IH]; intros index v Hlt;
    [cbn in Hlt; lia|].
  destruct index as [|index]; cbn [append_at].
  - eexists. split; [reflexivity|]. split; [reflexivity|].
    intros [|k]; cbn [nth Nat.eqb].
    + rewrite length_app. cbn. lia.
    + lia.
  - destruct (IH index v) as (p' & E & Hl & Hk); [cbn in Hlt; lia|].
    rewrite E. cbn [Py.bind].
    eexists. split; [reflexivity|]. split; [cbn; lia|].
    intros [|k]; cbn [nth Nat.eqb]; [lia|apply Hk].
Qed.

Lemma evaluate_spec (task_id iteration : Z) (n : nat) :
  forall (a : Z) (performances : list (list Q)),
    0 <= a -> a + Z.of_nat n <= Z.of_nat (length performances) ->
    exists p',
      evaluate accuracy task_id iteration (Py.range a (a + Z.of_nat n))
               performances = Some p' /\
      length p' = length performances /\
      forall k, row_len p' k
                = row_len performances k
                  + (if (a <=? Z.of_nat k) && (Z.of_nat k <? a + Z.of_nat n)
                     then 1 else 0).
Proof.
  induction n as [|n IH]; intros a performances Ha Hlen.
  - rewrite range_empty by lia. cbn [evaluate].
    eexists. split; [reflexivity|]. split; [reflexivity|].
    intros k.
    destruct (Z.leb_spec a (Z.of_nat k)), (Z.ltb_spec (Z.of_nat k) (a + Z.of_nat 0));
      cbn [andb]; lia.
  - rewrite range_cons by lia. cbn [evaluate].
    destruct (append_at_spec performances (Z.to_nat a)
                             (accuracy task_id iteration a))
      as (p1 & E1 & Hl1 & Hk1); [lia|].
    rewrite E1. cbn [Py.bind].
    destruct (IH (a + 1) p1) as (p2 & E2 & Hl2 & Hk2); try lia.
    replace (a + 1 + Z.of_nat n) with (a + Z.of_nat (S n)) in E2, Hk2 by lia.
    exists p2. split; [exact E2|]. split; [lia|].
    intros k. rewrite Hk2, Hk1.
    destruct (Nat.eqb_spec k (Z.to_nat a));
      destruct (Z.leb_spec (a + 1) (Z.of_nat k));
      destruct (Z.leb_spec a (Z.of_nat k));
      destruct (Z.ltb_spec (Z.of_nat k) (a + Z.of_nat (S n)));
      cbn [andb]; lia.
Qed.

Lemma iterations_spec (task_id : Z) (its : list Z) :
  forall (performances : list (list Q)),
    0 <= task_id <= Z.of_nat (length performances) ->
    exists p',
      iterations accuracy task_id its performances = Some p' /\
      length p' = length performances /\
      forall k, row_len p' k
                = row_len performances k
                  + (if Z.of_nat k <? task_id
                     then Z.of_nat (length its) else 0).
Proof.
  induction its as [|iteration rest IH]; intros performances Hid.
  - cbn [iterations]. eexists. split; [reflexivity|].
    split; [reflexivity|]. intros k.
    destruct (Z.ltb_spec (Z.of_nat k) task_id); cbn; lia.
  - cbn [iterations].
    destruct (evaluate_spec task_id iteration (Z.to_nat task_id) 0
                            performances)
      as (p1 & E1 & Hl1 & Hk1); try lia.
    replace (0 + Z.of_nat (Z.to_nat task_id)) with task_id in E1, Hk1 by lia.
    rewrite E1. cbn [Py.bind].
    destruct (IH p1) as (p2 & E2 & Hl2 & Hk2); [lia|].
    exists p2. split; [exact E2|]. split; [lia|].
    intros k. rewrite Hk2, Hk1. cbn [length].
    destruct (Z.leb_spec 0 (Z.of_nat k));
      destruct (Z.ltb_spec (Z.of_nat k) task_id);
      cbn [andb]; lia.
Qed.

(** Training task [task_id] (1-based) for [iters] iterations appends
    [iters] samples to each of the rows [0 .. task_id - 1], the row of the
    task in training included. *)
Lemma train_and_evaluate_spec (iters task_id : Z)
      (performances : list (list Q)) :
  0 <= iters -> 0 <= task_id <= Z.of_nat (length performances) ->
  exists p',
    train_and_evaluate accuracy iters performances task_id = Some p' /\
    length p' = length performances /\
    forall k, row_len p' k
              = row_len performances k
                + (if Z.of_nat k <? task_id then iters else 0).
Proof.
  intros Hit Hid. unfold train_and_evaluate.
  destruct (iterations_spec task_id (Py.range 1 (iters + 1)) performances
                            Hid)
    as (p' & E & Hl & Hk).
  exists p'. split; [exact E|]. split; [exact Hl|].
  intros k. rewrite Hk, range_length.
  destruct (Z.ltb_spec (Z.of_nat k) task_id); lia.
Qed.

Lemma tasks_spec (iters : Z) (n : nat) :
  forall (a : Z) (performances : list (list Q)),
    0 <= iters -> 0 <= a ->
    a + Z.of_nat n <= Z.of_nat (length performances) ->
    exists p',
      tasks accuracy iters (Py.range a (a + Z.of_nat n)) performances
      = Some p' /\
      length p' = length performances /\
      forall k, row_len p' k
                = row_len performances k
                  + iters * Z.max 0 (a + Z.of_nat n
                                     - Z.max a (Z.of_nat k)).
Proof.
  induction n as [|n IH]; intros a performances Hit Ha Hlen.
  - rewrite range_empty by lia. cbn [tasks].
    eexists. split; [reflexivity|]. split; [reflexivity|].
    intros k. replace (Z.max 0 _) with 0 by lia. lia.
  - rewrite range_cons by lia. cbn [tasks].
    destruct (train_and_evaluate_spec iters (a + 1) performances)
      as (p1 & E1 & Hl1 & Hk1); try lia.
    rewrite E1. cbn [Py.bind].
    destruct (IH (a + 1) p1) as (p2 & E2 & Hl2 & Hk2); try lia.
    replace (a + 1 + Z.of_nat n) with (a + Z.of_nat (S n)) in E2, Hk2 by lia.
    exists p2. split; [exact E2|]. split; [lia|].
    intros k. rewrite Hk2, Hk1.
    destruct (Z.ltb_spec (Z.of_nat k) (a + 1)).
    + replace (Z.max 0 (a + Z.of_nat (S n) - Z.max (a + 1) (Z.of_nat k)))
        with (Z.of_nat n) by lia.
      replace (Z.max 0 (a + Z.of_nat (S n) - Z.max a (Z.of_nat k)))
        with (Z.of_nat n + 1) by lia.
      lia.
    + replace (Z.max (a + 1) (Z.of_nat k)) with (Z.of_nat k) by lia.
      replace (Z.max a (Z.of_nat k)) with (Z.of_nat k) by lia.
      lia.
Qed.

End LogLengths.

(** C5, as amended: the row of task [j] holds [iters * (n_tasks - j)]
    samples when a trial is over.  Training task [c] (1-based) appends one
    sample per iteration to each of the rows [0 .. c-1], so task [j] is
    recorded from its own training phase on, and the last task has a row
    of [iters] samples. *)
Theorem log_row_length (accuracy : Z -> Z -> Z -> Q) (n_tasks iters : Z) :
  0 <= n_tasks -> 0 <= iters ->
  (exists p,
      Training.current_experiment_performances accuracy n_tasks iters
      = Some p /\
      Z.of_nat (length p) = n_tasks /\
      forall j, 0 <= j < n_tasks ->
                Z.of_nat (length (nth (Z.to_nat j) p []))
                = iters * (n_tasks - j)) /\
  (forall performances c,
      0 <= c <= Z.of_nat (length performances) ->
      exists p',
        Training.train_and_evaluate accuracy iters performances c = Some p' /\
        forall k,
          Z.of_nat (length (nth k p' []))
          = Z.of_nat (length (nth k performances []))
            + (if Z.of_nat k <? c then iters else 0)).
Proof.
  intros Hn Hit. split.
  - unfold Training.current_experiment_performances.
    set (init := map (fun _ : Z => @nil Q) (Py.range 0 n_tasks)).
    assert (Hinit : length init = Z.to_nat n_tasks).
    { unfold init. rewrite length_map, range_length. f_equal. lia. }
    destruct (tasks_spec accuracy iters (Z.to_nat n_tasks) 0 init)
      as (p & E & Hl & Hk); try lia.
    replace (0 + Z.of_nat (Z.to_nat n_tasks)) with n_tasks in E, Hk by lia.
    exists p. split; [exact E|]. split; [lia|].
    intros j Hj. rewrite Hk.
    assert (Hrow : nth (Z.to_nat j) init [] = []).
    { unfold init.
      replace n_tasks with (Z.of_nat (Z.to_nat n_tasks)) by lia.
      rewrite nth_map_range by lia. reflexivity. }
    rewrite Hrow. cbn [length].
    replace (Z.max 0 (n_tasks - Z.max 0 (Z.of_nat (Z.to_nat j))))
      with (n_tasks - j) by lia.
    lia.
  - intros performances c Hc.
    destruct (train_and_evaluate_spec accuracy iters c performances Hit Hc)
      as (p' & E & _ & Hk).
    exists p'. split; [exact E|exact Hk].
Qed.

Lemma log_row_length_witness :
  0 <= 4 /\ 0 <= 500 /\
  exists p,
    Training.current_experiment_performances (fun _ _ _ => 95%Q) 4 500
    = Some p /\
    Z.of_nat (length (nth 0 p [])) = 2000 /\
    Z.of_nat (length (nth 3 p [])) = 500.
Proof.
  assert (H1 : 0 <= 4) by lia.
  assert (H2 : 0 <= 500) by lia.
  repeat (split; [assumption|]).
  destruct (log_row_length (fun _ _ _ => 95%Q) 4 500 H1 H2)
    as ((p & E & _ & Hrows) & _).
  exists p. split; [exact E|]. split.
  - apply (Hrows 0). lia.
  - apply (Hrows 3). lia.
Defined.

(** C5, as stated, fails: with two tasks and one iteration per task the
    row of task 0 holds two samples, one of them taken during its own
    training, and the row of the last task holds one; the claim gives one
    and none. *)
Lemma log_row_length_counterexample :
  exists p,
    Training.current_experiment_performances (fun _ _ _ => 95%Q) 2 1
    = Some p /\
    Z.of_nat (length (nth 0 p [])) = 2 /\
    Z.of_nat (length (nth 0 p [])) <> 1 * (2 - 0 - 1) /\
    Z.of_nat (length (nth 1 p [])) = 1 /\
    Z.of_nat (length (nth 1 p [])) <> 1 * (2 - 1 - 1).
Proof.
  eexists. split; [vm_compute; reflexivity|].
  cbn. repeat split; lia.
Qed.

(** ** The sliding-window scan *)

Section Scan.

Import Sliding Spec.
Local Open Scope Q_scope.

Lemma pymax_l (a b : Q) : a <= pymax a b.
Proof.
  unfold pymax. destruct (Qlt_le_dec a b); [now apply Qlt_le_weak|apply Qle_refl].
Qed.

Lemma pymax_r (a b : Q) : b <= pymax a b.
Proof.
  unfold pymax. destruct (Qlt_le_dec a b); [apply Qle_refl|assumption].
Qed.

Lemma pymax_lub (a b c : Q) : a <= c -> b <= c -> pymax a b <= c.
Proof.
  intros Ha Hb. unfold pymax. destruct (Qlt_le_dec a b); assumption.
Qed.

Lemma fold_pymax_ge_init (l : list Q) : forall x, x <= fold_left pymax l x.
Proof.
  induction l as [|y l IH]; intros x; cbn [fold_left]; [apply Qle_refl|].
  apply Qle_trans with (pymax x y); [apply pymax_l|apply IH].
Qed.

Lemma fold_pymax_ge_in (l : list Q) :
  forall x y, In y l -> y <= fold_left pymax l x.
Proof.
  induction l as [|z l IH]; intros x y Hin; [destruct Hin|].
  cbn [fold_left]. destruct Hin as [->|Hin].
  - apply Qle_trans with (pymax x y); [apply pymax_r|apply fold_pymax_ge_init].
  - now apply IH.
Qed.

Lemma fold_pymax_lub (l : list Q) :
  forall x c, x <= c -> (forall y, In y l -> y <= c) ->
              fold_left pymax l x <= c.
Proof.
  induction l as [|z l IH]; intros x c Hx Hl; cbn [fold_left]; [exact Hx|].
  apply IH.
  - apply pymax_lub; [exact Hx|]. apply Hl. now left.
  - intros y Hy. apply Hl. now right.
Qed.

Lemma largest_ge (l : list Q) (y : Q) : In y l -> y <= largest l.
Proof.
  destruct l as [|x rest]; [intros []|]. cbn [largest].
  intros [->|Hin]; [apply fold_pymax_ge_init|now apply fold_pymax_ge_in].
Qed.

Lemma largest_lub (l : list Q) (c : Q) :
  l <> [] -> (forall y, In y l -> y <= c) -> largest l <= c.
Proof.
  destruct l as [|x rest]; [congruence|]. intros _ H. cbn [largest].
  apply fold_pymax_lub.
  - apply H. now left.
  - intros y Hy. apply H. now right.
Qed.

Lemma max_of_largest (l : list Q) : l <> [] -> max_of l = Some (largest l).
Proof.
  destruct l; [congruence|reflexivity].
Qed.

Lemma fold_pymax_mono (l l' : list Q) :
  Forall2 Qle l l' ->
  forall x x', x <= x' -> fold_left pymax l x <= fold_left pymax l' x'.
Proof.
  induction 1 as [|y y' l l' Hy _ IH]; intros x x' Hx; cbn [fold_left];
    [exact Hx|].
  apply IH. apply pymax_lub.
  - apply Qle_trans with x'; [exact Hx|apply pymax_l].
  - apply Qle_trans with y'; [exact Hy|apply pymax_r].
Qed.

(** *** Trailing windows *)

Lemma lastn_length {A} (w : nat) (l : list A) :
  length (lastn w l) = Nat.min w (length l).
Proof.
  unfold lastn. rewrite length_skipn. lia.
Qed.

Lemma lastn_nonempty {A} (w : nat) (l : list A) :
  (0 < w)%nat -> l <> [] -> lastn w l <> [].
Proof.
  intros Hw Hl E. apply (f_equal (@length A)) in E.
  rewrite lastn_length in E. cbn in E.
  destruct l; [congruence|]. cbn in E. lia.
Qed.

(** The shorter trailing window is the end of the longer one. *)
Lemma lastn_suffix {A} (w w' : nat) (l : list A) :
  (w <= w')%nat -> exists pre, lastn w' l = pre ++ lastn w l.
Proof.
  intros Hw. unfold lastn.
  exists (firstn ((length l - w) - (length l - w')) (skipn (length l - w') l)).
  rewrite <- (firstn_skipn ((length l - w) - (length l - w'))
                           (skipn (length l - w') l)) at 1.
  f_equal. rewrite skipn_skipn. f_equal. lia.
Qed.

Lemma evict_lastn (w : nat) (p : list Q) (c : Q) :
  (0 < w)%nat ->
  evict (S w) (lastn w p ++ [c]) = lastn w (p ++ [c]).
Proof.
  intros Hw. unfold evict. rewrite length_app, lastn_length. cbn [length].
  unfold lastn. rewrite length_app. cbn [length].
  destruct (Nat.eqb_spec (Nat.min w (length p) + 1) (S w)) as [E|E].
  - unfold Py.slice_from, Py.clip. rewrite length_app, length_skipn.
    cbn [length].
    replace (Z.to_nat _) with 1%nat
      by (destruct (Z.ltb_spec 1 0); lia).
    rewrite skipn_app, length_skipn.
    replace (1 - (length p - (length p - w)))%nat with O by lia.
    rewrite skipn_skipn. cbn [skipn].
    rewrite skipn_app.
    replace (length p + 1 - w - length p)%nat with O by lia.
    cbn [skipn]. f_equal. f_equal. lia.
  - rewrite skipn_app.
    replace (length p - w)%nat with O by lia.
    replace (length p + 1 - w)%nat with O by lia.
    reflexivity.
Qed.

Lemma drop_at_app (w : nat) (p rest : list Q) (k : nat) :
  (k < length p)%nat -> drop_at w (p ++ rest) k = drop_at w p k.
Proof.
  intros Hk. unfold drop_at.
  rewrite app_nth1 by lia. rewrite firstn_app.
  replace (k - length p)%nat with O by lia.
  cbn [firstn]. now rewrite app_nil_r.
Qed.

Lemma rise_at_app (w : nat) (p rest : list Q) (k : nat) :
  (k < length p)%nat -> rise_at w (p ++ rest) k = rise_at w p k.
Proof.
  intros Hk. unfold rise_at.
  rewrite app_nth1 by lia. rewrite firstn_app.
  replace (k - length p)%nat with O by lia.
  cbn [firstn]. now rewrite app_nil_r.
Qed.

Lemma drop_at_last (w : nat) (p : list Q) (c : Q) :
  drop_at w (p ++ [c]) (length p)
  = largest (map (fun x => x - c) (lastn w p)).
Proof.
  unfold drop_at. rewrite app_nth2 by lia. rewrite Nat.sub_diag.
  cbn [nth]. rewrite firstn_app, Nat.sub_diag, firstn_all.
  cbn [firstn]. now rewrite app_nil_r.
Qed.

Lemma rise_at_last (w : nat) (p : list Q) (c : Q) :
  rise_at w (p ++ [c]) (length p)
  = largest (map (fun x => c - x) (lastn w p)).
Proof.
  unfold rise_at. rewrite app_nth2 by lia. rewrite Nat.sub_diag.
  cbn [nth]. rewrite firstn_app, Nat.sub_diag, firstn_all.
  cbn [firstn]. now rewrite app_nil_r.
Qed.

Lemma running_max_snoc (init : Q) (f g : nat -> Q) (p : list Q) (c : Q) :
  p <> [] ->
  (forall k, (k < length p)%nat -> g k = f k) ->
  running_max init g (p ++ [c])
  = pymax (running_max init f p) (g (length p)).
Proof.
  intros Hp Hfg. unfold running_max. rewrite length_app. cbn [length].
  assert (Hlen : (0 < length p)%nat) by (destruct p; [congruence|cbn; lia]).
  replace (length p + 1 - 1)%nat with (S (length p - 1)) by lia.
  rewrite seq_S, map_app, fold_left_app. cbn [map fold_left].
  replace (1 + (length p - 1))%nat with (length p) by lia.
  f_equal. f_equal. apply map_ext_in.
  intros k Hk. apply in_seq in Hk. apply Hfg. lia.
Qed.

Lemma scan_step_spec (init : Q) (p : list Q) (st : scan_state) (c : Q) :
  p <> [] -> scanned init p st ->
  exists st', scan_step st c = Some st' /\ scanned init (p ++ [c]) st'.
Proof.
  intros Hp (H10 & H100 & Hf10 & Hf100 & Hp10 & Hp100).
  unfold scan_step. rewrite H10, H100.
  assert (N10 : lastn 10 p <> []) by (apply lastn_nonempty; [lia|exact Hp]).
  assert (N100 : lastn 100 p <> []) by (apply lastn_nonempty; [lia|exact Hp]).
  assert (M : forall (f : Q -> Q) (l : list Q), l <> [] -> map f l <> []).
  { intros f l Hl E. apply map_eq_nil in E. contradiction. }
  rewrite !max_of_largest by (apply M; assumption).
  cbn [Py.bind]. eexists. split; [reflexivity|].
  unfold scanned; cbn.
  rewrite !evict_lastn by lia.
  rewrite Hf10, Hf100, Hp10, Hp100.
  rewrite <- !drop_at_last, <- !rise_at_last.
  repeat split;
    symmetry; apply running_max_snoc; try assumption;
    intros k Hk; (apply drop_at_app || apply rise_at_app); exact Hk.
Qed.

Lemma scan_loop_spec (init : Q) (rest : list Q) :
  forall (p : list Q) (st : scan_state),
    p <> [] -> scanned init p st ->
    exists st', scan_loop st rest = Some st' /\ scanned init (p ++ rest) st'.
Proof.
  induction rest as [|c rest IH]; intros p st Hp Hst.
  - exists st. rewrite app_nil_r. split; [reflexivity|exact Hst].
  - cbn [scan_loop].
    destruct (scan_step_spec init p st c Hp Hst) as (st1 & E1 & H1).
    rewrite E1. cbn [Py.bind].
    destruct (IH (p ++ [c]) st1) as (st2 & E2 & H2).
    + intros E. apply app_eq_nil in E. destruct E; discriminate.
    + exact H1.
    + exists st2. rewrite <- app_assoc in H2. split; [exact E2|exact H2].
Qed.

Lemma skipn_nth_error {A} (l : list A) :
  forall (n : nat) (x : A),
    nth_error l n = Some x -> skipn n l = x :: skipn (S n) l.
Proof.
  induction l as [|y l IH]; intros [|n] x E; cbn in E; try discriminate.
  - now injection E as ->.
  - cbn [skipn]. rewrite (IH n x E). reflexivity.
Qed.

(** The scan of a row that reaches beyond index 500, in terms of the
    samples [s = row[500:]] it reads. *)
Lemma sliding_scan_run (row : list Q) :
  (500 < Z.of_nat (length row))%Z ->
  exists st,
    sliding_scan row = Some st /\
    scanned (inject_Z (- sys_maxsize - 1)) (Py.slice_from row 500) st.
Proof.
  intros Hlen. unfold sliding_scan.
  rewrite (get_nth row 500 0) by lia. cbn [Py.bind].
  assert (E : Py.slice_from row 500
              = nth (Z.to_nat 500) row 0 :: Py.slice_from row 501).
  { unfold Py.slice_from, Py.clip.
    destruct (Z.ltb_spec 500 0) as [?|_]; [lia|].
    destruct (Z.ltb_spec 501 0) as [?|_]; [lia|].
    replace (Z.to_nat (Z.min 500 (Z.of_nat (length row)))) with 500%nat by lia.
    replace (Z.to_nat (Z.min 501 (Z.of_nat (length row)))) with 501%nat by lia.
    apply skipn_nth_error. apply nth_error_nth'. lia. }
  rewrite E.
  apply (scan_loop_spec _ (Py.slice_from row 501) [nth (Z.to_nat 500) row 0]).
  - discriminate.
  - unfold scanned, init_state; cbn. repeat split; reflexivity.
Qed.

End Scan.

Section ScanOrder.

Import Sliding Spec.
Local Open Scope Q_scope.

Lemma Forall2_map_le (f g : nat -> Q) (l : list nat) :
  (forall k, In k l -> f k <= g k) -> Forall2 Qle (map f l) (map g l).
Proof.
  induction l as [|k l IH]; intros H; cbn [map]; constructor.
  - apply H. now left.
  - apply IH. intros k' Hk'. apply H. now right.
Qed.

Lemma running_max_mono (init : Q) (f g : nat -> Q) (s : list Q) :
  (forall k, (1 <= k < length s)%nat -> f k <= g k) ->
  running_max init f s <= running_max init g s.
Proof.
  intros H. unfold running_max. apply fold_pymax_mono; [|apply Qle_refl].
  apply Forall2_map_le. intros k Hk. apply in_seq in Hk. apply H. lia.
Qed.

Lemma largest_window_mono (f : Q -> Q) (w w' : nat) (q : list Q) :
  (0 < w <= w')%nat -> q <> [] ->
  largest (map f (lastn w q)) <= largest (map f (lastn w' q)).
Proof.
  intros Hw Hq.
  destruct (lastn_suffix w w' q) as (pre & E); [lia|].
  apply largest_lub.
  - intros E'. apply map_eq_nil in E'. revert E'.
    apply lastn_nonempty; [lia|exact Hq].
  - intros y Hy. apply largest_ge. rewrite E, map_app.
    apply in_or_app. now right.
Qed.

Lemma firstn_nonempty (s : list Q) (k : nat) :
  (1 <= k < length s)%nat -> firstn k s <> [].
Proof.
  intros Hk E. apply (f_equal (@length Q)) in E.
  rewrite length_firstn in E. cbn in E. lia.
Qed.

End ScanOrder.

(** ** The sliding scan as a maximum over pairs of samples *)

Section ScanPairs.

Import Sliding Spec.
Local Open Scope Q_scope.

Lemma get_beyond {A} (l : list A) (i : Z) :
  (Z.of_nat (length l) <= i)%Z -> Py.get l i = None.
Proof.
  intros H. unfold Py.get.
  destruct (Z.ltb_spec i 0) as [?|_]; [lia|].
  apply nth_error_None. lia.
Qed.

Lemma fold_pymax_attained (l : list Q) :
  forall x, fold_left pymax l x = x \/ In (fold_left pymax l x) l.
Proof.
  induction l as [|y l IH]; intros x; cbn [fold_left]; [now left|].
  destruct (IH (pymax x y)) as [E|Hin].
  - rewrite E. unfold pymax. destruct (Qlt_le_dec x y).
    + right. now left.
    + now left.
  - right. now right.
Qed.

Lemma largest_attained (l : list Q) : l <> [] -> In (largest l) l.
Proof.
  destruct l as [|x rest]; [congruence|]. intros _. cbn [largest].
  destruct (fold_pymax_attained rest x) as [E|Hin].
  - rewrite E. now left.
  - now right.
Qed.

(** The samples compared with the sample at position [k]: those at the
    up to [w] positions before it. *)
Lemma lastn_firstn_nth (w : nat) (s : list Q) (a k : nat) :
  (a < k <= length s)%nat -> (k <= a + w)%nat ->
  In (nth a s 0) (lastn w (firstn k s)).
Proof.
  intros Hak Hw. unfold lastn. rewrite length_firstn.
  replace (Nat.min k (length s)) with k by lia.
  replace (nth a s 0) with (nth (a - (k - w)) (skipn (k - w) (firstn k s)) 0).
  - apply nth_In. rewrite length_skipn, length_firstn. lia.
  - rewrite nth_skipn.
    replace (k - w + (a - (k - w)))%nat with a by lia.
    rewrite nth_firstn.
    destruct (Nat.ltb_spec a k); [reflexivity|lia].
Qed.

Lemma lastn_firstn_in (w : nat) (s : list Q) (k : nat) (x : Q) :
  (k <= length s)%nat ->
  In x (lastn w (firstn k s)) ->
  exists a, (a < k)%nat /\ (k <= a + w)%nat /\ x = nth a s 0.
Proof.
  intros Hk Hin. unfold lastn in Hin. rewrite length_firstn in Hin.
  replace (Nat.min k (length s)) with k in Hin by lia.
  destruct (In_nth _ _ 0 Hin) as (n & Hn & E).
  rewrite length_skipn, length_firstn in Hn.
  rewrite nth_skipn, nth_firstn in E.
  destruct (Nat.ltb_spec (k - w + n) k); [|lia].
  exists (k - w + n)%nat. repeat split; [lia|lia|now symmetry].
Qed.

Lemma window_largest_ge (f : Q -> Q) (w : nat) (s : list Q) (a k : nat) :
  (a < k <= length s)%nat -> (k <= a + w)%nat ->
  f (nth a s 0) <= largest (map f (lastn w (firstn k s))).
Proof.
  intros Hak Hw. apply largest_ge. apply in_map.
  now apply lastn_firstn_nth.
Qed.

Lemma window_largest_attained (f : Q -> Q) (w : nat) (s : list Q) (k : nat) :
  (0 < w)%nat -> (1 <= k <= length s)%nat ->
  exists a, (a < k)%nat /\ (k <= a + w)%nat /\
            largest (map f (lastn w (firstn k s))) = f (nth a s 0).
Proof.
  intros Hw Hk.
  assert (Hne : map f (lastn w (firstn k s)) <> []).
  { intros E. apply map_eq_nil in E. revert E.
    apply lastn_nonempty; [exact Hw|].
    intros E. apply (f_equal (@length Q)) in E.
    rewrite length_firstn in E. cbn in E. lia. }
  pose proof (largest_attained _ Hne) as Hin.
  apply in_map_iff in Hin. destruct Hin as (x & Ex & Hx).
  destruct (lastn_firstn_in w s k x) as (a & Ha & Haw & ->); [lia|exact Hx|].
  exists a. repeat split; [exact Ha|exact Haw|now symmetry].
Qed.

Lemma running_max_ge (init : Q) (f : nat -> Q) (s : list Q) (k : nat) :
  (1 <= k < length s)%nat -> f k <= running_max init f s.
Proof.
  intros Hk. unfold running_max. apply fold_pymax_ge_in.
  apply in_map. apply in_seq. lia.
Qed.

Lemma running_max_attained (init : Q) (f : nat -> Q) (s : list Q) :
  running_max init f s = init \/
  exists k, (1 <= k < length s)%nat /\ running_max init f s = f k.
Proof.
  unfold running_max.
  destruct (fold_pymax_attained (map f (seq 1 (length s - 1))) init)
    as [E|Hin]; [now left|right].
  apply in_map_iff in Hin. destruct Hin as (k & Ek & Hk).
  apply in_seq in Hk. exists k. split; [lia|now symmetry].
Qed.

(** A running maximum of windowed differences bounds the difference of
    every pair of samples at most [w] positions apart, and is the initial
    value or the difference of such a pair. *)
Lemma running_drop_pairs (init : Q) (w : nat) (s : list Q) :
  (0 < w)%nat ->
  (forall a b, (a < b < length s)%nat -> (b <= a + w)%nat ->
               nth a s 0 - nth b s 0 <= running_max init (drop_at w s) s) /\
  (running_max init (drop_at w s) s = init \/
   exists a b, (a < b < length s)%nat /\ (b <= a + w)%nat /\
               running_max init (drop_at w s) s = nth a s 0 - nth b s 0).
Proof.
  intros Hw. split.
  - intros a b Hab Hbw.
    apply Qle_trans with (drop_at w s b); [|apply running_max_ge; lia].
    unfold drop_at.
    apply (window_largest_ge (fun x => x - nth b s 0)); lia.
  - destruct (running_max_attained init (drop_at w s) s)
      as [E|(k & Hk & E)]; [now left|right].
    destruct (window_largest_attained (fun x => x - nth k s 0) w s k)
      as (a & Ha & Haw & Ea); [exact Hw|lia|].
    exists a, k. repeat split; try lia.
    rewrite E. exact Ea.
Qed.

Lemma running_rise_pairs (init : Q) (w : nat) (s : list Q) :
  (0 < w)%nat ->
  (forall a b, (a < b < length s)%nat -> (b <= a + w)%nat ->
               nth b s 0 - nth a s 0 <= running_max init (rise_at w s) s) /\
  (running_max init (rise_at w s) s = init \/
   exists a b, (a < b < length s)%nat /\ (b <= a + w)%nat /\
               running_max init (rise_at w s) s = nth b s 0 - nth a s 0).
Proof.
  intros Hw. split.
  - intros a b Hab Hbw.
    apply Qle_trans with (rise_at w s b); [|apply running_max_ge; lia].
    unfold rise_at.
    apply (window_largest_ge (fun x => nth b s 0 - x)); lia.
  - destruct (running_max_attained init (rise_at w s) s)
      as [E|(k & Hk & E)]; [now left|right].
    destruct (window_largest_attained (fun x => nth k s 0 - x) w s k)
      as (a & Ha & Haw & Ea); [exact Hw|lia|].
    exists a, k. repeat split; try lia.
    rewrite E. exact Ea.
Qed.

End ScanPairs.

(** ** The scan of a row of percentages *)

Section ScanFromNegInf.

Import Sliding Spec.
Local Open Scope Q_scope.






End ScanFromNegInf.



(** C10: for a row that reaches beyond index 500 the scan returns, and
    WF10 <= WF100 and WP10 <= WP100: the 10-sample comparison array is the
    end of the 100-sample one, so the largest drop (and rise) over the
    shorter window never exceeds the one over the longer. *)
Theorem window_10_below_window_100 (row : list Q) :
  500 < Z.of_nat (length row) ->
  exists st,
    Sliding.sliding_scan row = Some st /\
    (Sliding.wf_max_10 st <= Sliding.wf_max_100 st)%Q /\
    (Sliding.wp_max_10 st <= Sliding.wp_max_100 st)%Q /\
    exists older,
      Sliding.array_to_compare_with_wf_100 st
      = older ++ Sliding.array_to_compare_with_wf_10 st.
Proof.
  intros Hlen.
  destruct (sliding_scan_run row Hlen)
    as (st & E & H10 & H100 & Hf10 & Hf100 & Hp10 & Hp100).
  exists st. split; [exact E|].
  rewrite Hf10, Hf100, Hp10, Hp100, H10, H100.
  split; [|split].
  - apply running_max_mono. intros k Hk. unfold Spec.drop_at.
    apply largest_window_mono; [lia|now apply firstn_nonempty].
  - apply running_max_mono. intros k Hk. unfold Spec.rise_at.
    apply largest_window_mono; [lia|now apply firstn_nonempty].
  - apply lastn_suffix. lia.
Qed.

Lemma window_10_below_window_100_witness :
  500 < Z.of_nat (length Examples.zigzag_row) /\
  exists st,
    Sliding.sliding_scan Examples.zigzag_row = Some st /\
    (Sliding.wf_max_10 st <= Sliding.wf_max_100 st)%Q /\
    (Sliding.wp_max_10 st <= Sliding.wp_max_100 st)%Q.
Proof.
  assert (H : 500 < Z.of_nat (length Examples.zigzag_row))
    by (vm_compute; reflexivity).
  split; [exact H|].
  destruct (window_10_below_window_100 Examples.zigzag_row H)
    as (st & E & Hf & Hp & _).
  exists st. auto.
Defined.

(** ** Mean and standard error of identical trials *)

Section IdenticalTrials.

Import Np Aggregate.
Local Open Scope Q_scope.

Variable fl : Q -> Q.
Variable np_sqrt : Q -> Q.

Hypothesis fl_comp : forall p q, p == q -> fl p == fl q.
Hypothesis fl_zero : fl 0 == 0.
Hypothesis sqrt_zero : forall q, q == 0 -> np_sqrt q == 0.








(** *** Sums of zeros *)










(** *** Sums of one and of two equal values *)





(** *** Rounding to digits *)





(** *** The report for one way of summing *)

Section OneReduction.

Variable sum : list npfloat -> npfloat.

Hypothesis sum_zero :
  forall l, Forall (fun x => feq x (Fin 0)) l -> feq (sum l) (Fin 0).
Hypothesis sum_one :
  forall a, fl a == a -> feq (sum [Fin a]) (Fin a).
Hypothesis sum_two :
  forall a, fl a == a -> fl (a + a) == a + a ->
            feq (sum [Fin a; Fin a]) (Fin (a + a)).

Variable v : Q.
Hypothesis v_float : fl v == v.








End OneReduction.

End IdenticalTrials.





(** ** Not-a-number in the per-trial aggregate *)

(** C3: the per-task value is [np.nanmean] over the windows, but the
    per-trial value is the plain [np.mean] over the tasks.  On the sample
    log the recovery slope of task 0 is real, 10/102, and that of tasks 1
    and 2, whose accuracy never falls below the baseline, is not-a-number
    in every window; the per-trial recovery slope is then not-a-number,
    where a mean that leaves not-a-number out is 10/102. *)
Lemma nan_reaches_trial_mean :
  exists rows v,
    Analysis.tbp_sd_sr_gd_experiment_i 500 4 Examples.no_dip_log 0
    = Some rows /\
    Forall2 Np.feq (map Analysis.f_sr rows) [Fin (10 # 102); NaN; NaN] /\
    Analysis.analyse_experiment 500 4 Examples.no_dip_log 0 = Some v /\
    Analysis.f_sr v = NaN /\
    Np.feq (Np.nanmean (map Analysis.f_sr rows)) (Fin (10 # 102)).
Proof.
  eexists. eexists.
  split; [vm_compute; reflexivity|].
  split; [repeat constructor; vm_compute; reflexivity|].
  split; [vm_compute; reflexivity|].
  split; [reflexivity|].
  vm_compute. reflexivity.
Qed.

(** * Further properties of the script *)

(** ** Degenerate and finite values of a window *)

Section WindowValues.

Import Np Analysis.
Local Open Scope Q_scope.

Lemma Qdiv_nonneg (a : Q) (z : Z) :
  0 <= a -> (0 < z)%Z -> 0 <= a / inject_Z z.
Proof.
  intros Ha Hz. apply Qle_shift_div_l.
  - unfold Qlt. cbn. lia.
  - now rewrite Qmult_0_l.
Qed.

Lemma sum_fin_from_zero (qs : list Q) :
  sum (map Fin qs) = Fin (fold_left Qplus qs 0).
Proof.
  unfold sum. generalize 0. induction qs as [|q qs IH]; intros a;
    [reflexivity|].
  cbn [map fold_left fadd]. apply IH.
Qed.

(** The mean of a non-empty list of finite values is finite. *)
Lemma mean_finite (qs : list Q) :
  qs <> [] ->
  mean (map Fin qs)
  = Fin (fold_left Qplus qs 0 / inject_Z (Z.of_nat (length qs))).
Proof.
  intros Hne. unfold mean, of_len, of_int.
  rewrite sum_fin_from_zero, length_map. cbn [fdiv].
  destruct (Qeq_bool (inject_Z (Z.of_nat (length qs))) 0) eqn:E;
    [|reflexivity].
  apply Qeq_bool_eq in E. unfold Qeq in E. cbn in E.
  destruct qs; [congruence|cbn in E; lia].
Qed.

End WindowValues.

(** X2: the recovery slope of a window is not-a-number exactly when the
    smoothed minimum, as the filter returns it, has already regained the
    baseline, as [np.mean] returns it, or the trough is the last index of
    the window; the value appended to the TBP list is then the trough
    index. *)
Theorem slope_recovery_nan_iff
        (uniform_filter1d_5 : list Q -> list Q) (np_mean : list Q -> npfloat)
        (fl : Q -> Q) (iters : Z) (row : list Q) (j i : Z) :
  (forall w, length (uniform_filter1d_5 w) = length w) ->
  (forall q, (q == 0)%Q -> (fl q == 0)%Q) ->
  0 < iters -> 0 <= j -> iters * (j + 2) <= Z.of_nat (length row) ->
  let sm := Rounded.smoothed_of uniform_filter1d_5 iters row j in
  let base := Rounded.baseline_of np_mean iters row j in
  exists res,
    Rounded.analyse_window uniform_filter1d_5 np_mean fl iters row j i
    = Some res /\
    let m := Analysis.min_window_index res in
    Np.argmin sm = Some m /\
    (Analysis.slope_up res = NaN <->
     Analysis.regains sm base m = true \/ m = iters - 1) /\
    (Analysis.slope_up res = NaN -> Analysis.tbp res = m).
Proof.
  intros Hf Hzero Hit Hj Hlen sm base.
  destruct (rounded_window_run uniform_filter1d_5 np_mean fl Hf
                               iters row j i Hit Hj Hlen)
    as (m & r & _ & Em & Hm & _ & _ & Hr & Hrec & E).
  subst sm base.
  set (sm := Rounded.smoothed_of uniform_filter1d_5 iters row j) in *.
  set (base := Rounded.baseline_of np_mean iters row j) in *.
  eexists. split; [exact E|].
  cbn [Analysis.slope_up Analysis.min_window_index Analysis.tbp].
  split; [exact Em|].
  rewrite rounded_sub_fin.
  assert (Hnan : Float64.div fl
                   (Fin (fl (Analysis.at_index sm r
                             - Analysis.at_index sm m)%Q))
                   (Np.of_int (r - m)) = NaN <-> r = m).
  { split.
    - intros H. destruct (Z.eq_dec r m) as [->|Hne]; [reflexivity|].
      rewrite rounded_div_by_int in H by lia. discriminate.
    - intros ->. rewrite Z.sub_diag. apply rounded_zero_by_zero.
      apply Hzero. ring. }
  split.
  - rewrite Hnan. split.
    + intros ->. destruct Hrec as [[Hreg _]|[-> _]]; [now left|now right].
    + intros [Hreg| ->]; [|lia].
      destruct Hrec as [[_ Hbefore]|[_ Hnone]].
      * destruct (Z.eq_dec r m) as [->|Hne]; [reflexivity|].
        rewrite Hbefore in Hreg by lia. discriminate.
      * rewrite Hnone in Hreg by lia. discriminate.
  - intros H. now apply Hnan.
Qed.

Lemma slope_recovery_nan_iff_witness :
  0 < 6 /\ 0 <= 0 /\ 6 * (0 + 2) <= Z.of_nat (length Runs.tie_row) /\
  exists res,
    Binary64.analyse_window 6 Runs.tie_row 0 0 = Some res /\
    Analysis.min_window_index res = 1 /\
    Analysis.slope_up res <> NaN /\
    Analysis.regains
      (Rounded.smoothed_of Binary64.uniform_filter1d_5 6 Runs.tie_row 0)
      (Rounded.baseline_of Binary64.np_mean 6 Runs.tie_row 0) 1 = false.
Proof.
  assert (H1 : 0 < 6) by lia.
  assert (H2 : 0 <= 0) by lia.
  assert (H3 : 6 * (0 + 2) <= Z.of_nat (length Runs.tie_row))
    by (cbn; lia).
  repeat (split; [assumption|]).
  destruct (slope_recovery_nan_iff
              Binary64.uniform_filter1d_5 Binary64.np_mean Binary64.rnd
              6 Runs.tie_row 0 0 binary64_filter_length rnd_zero H1 H2 H3)
    as (res & E & _ & Hiff & _).
  exists res. split; [exact E|].
  vm_compute in E. injection E as <-.
  split; [reflexivity|].
  assert (Hnot : Analysis.slope_up
                   {| Analysis.min_window_index := 1;
                      Analysis.recovery_window_index := 2;
                      Analysis.tbp := 2;
                      Analysis.slope_down := Fin (-1 # 140737488355328);
                      Analysis.slope_up :=
                        Fin (1407374883553 # 35184372088832);
                      Analysis.gap_depth :=
                        Fin (-1143492092887 # 8796093022208);
                      Analysis.new_recovery_index := 4;
                      Analysis.sr_fixed :=
                        Fin (1407374883553 # 35184372088832) |} <> NaN)
    by discriminate.
  split; [exact Hnot|].
  cbn [Analysis.min_window_index Analysis.slope_up] in Hiff.
  destruct (Analysis.regains _ _ 1) eqn:Ereg; [|reflexivity].
  exfalso. apply Hnot. apply Hiff. now left.
Defined.

(** X3: a recovery slope is never negative: the slope to the recovery
    index and the capped slope are each not-a-number or a finite number
    that is at least 0, because both start from the smoothed minimum. *)
Theorem recovery_slopes_nonnegative (iters : Z) (row : list Q) (j i : Z) :
  0 < iters -> 0 <= j -> iters * (j + 2) <= Z.of_nat (length row) ->
  exists res,
    Analysis.analyse_window iters row j i = Some res /\
    (Analysis.slope_up res = NaN \/
     exists q, Analysis.slope_up res = Fin q /\ (0 <= q)%Q) /\
    (Analysis.sr_fixed res = NaN \/
     exists q, Analysis.sr_fixed res = Fin q /\ (0 <= q)%Q).
Proof.
  intros Hit Hj Hlen.
  destruct (analyse_window_run iters row j i Hit Hj Hlen)
    as (m & r & _ & _ & _ & Hm & _ & Hmin & Hr & _ & E).
  eexists. split; [exact E|]. cbn [Analysis.slope_up Analysis.sr_fixed].
  assert (Hup : Np.fdiv (Fin (Analysis.at_index
                                (Analysis.smoothed_of iters row j) r
                              - Analysis.at_index
                                  (Analysis.smoothed_of iters row j) m))
                        (Np.of_int (r - m)) = NaN \/
                exists q,
                  Np.fdiv (Fin (Analysis.at_index
                                  (Analysis.smoothed_of iters row j) r
                                - Analysis.at_index
                                    (Analysis.smoothed_of iters row j) m))
                          (Np.of_int (r - m)) = Fin q /\ (0 <= q)%Q).
  { destruct (Z.eq_dec r m) as [->|Hne].
    - left. rewrite Z.sub_diag. apply fdiv_zero_by_zero.
    - right. rewrite fdiv_by_int by lia. eexists. split; [reflexivity|].
      apply Qdiv_nonneg; [|lia].
      pose proof (Hmin r ltac:(lia)). lra. }
  split; [exact Hup|].
  destruct (Z.leb_spec (Z.min (2 * (m + 1)) (iters - 1)) r); [|exact Hup].
  right. rewrite fdiv_by_int by lia. eexists. split; [reflexivity|].
  apply Qdiv_nonneg; [|lia].
  pose proof (Hmin (Z.min (2 * (m + 1)) (iters - 1)) ltac:(lia)). lra.
Qed.

Lemma recovery_slopes_nonnegative_witness :
  0 < 6 /\ 0 <= 0 /\ 6 * (0 + 2) <= Z.of_nat (length Examples.dip_row) /\
  exists res,
    Analysis.analyse_window 6 Examples.dip_row 0 0 = Some res /\
    (Analysis.slope_up res = NaN \/
     exists q, Analysis.slope_up res = Fin q /\ (0 <= q)%Q).
Proof.
  assert (H1 : 0 < 6) by lia.
  assert (H2 : 0 <= 0) by lia.
  assert (H3 : 6 * (0 + 2) <= Z.of_nat (length Examples.dip_row))
    by (cbn; lia).
  repeat (split; [assumption|]).
  destruct (recovery_slopes_nonnegative 6 Examples.dip_row 0 0 H1 H2 H3)
    as (res & E & Hup & _).
  exists res. auto.
Defined.

(** X4: with at least five iterations per task the baseline of a window is
    the mean of the five samples before it, and the downward slope and the
    gap depth are finite numbers: only the two recovery slopes of a window
    can be not-a-number. *)
Theorem slope_down_and_gap_finite (iters : Z) (row : list Q) (j i : Z) :
  5 <= iters -> 0 <= j -> iters * (j + 2) <= Z.of_nat (length row) ->
  let s := iters * (j + 1) in
  let sm := Analysis.smoothed_of iters row j in
  let window := Analysis.window_of iters row j in
  let r := Analysis.at_index row in
  exists res b,
    Analysis.analyse_window iters row j i = Some res /\
    Analysis.baseline_of iters row j = Fin b /\
    (b == (r (s - 5)%Z + r (s - 4)%Z + r (s - 3)%Z + r (s - 2)%Z
           + r (s - 1)%Z) / 5)%Q /\
    let m := Analysis.min_window_index res in
    Analysis.slope_down res
    = Fin ((Analysis.at_index sm m + - b) / inject_Z (m + 1))%Q /\
    Analysis.gap_depth res = Fin (b + - Analysis.at_index window m)%Q.
Proof.
  intros Hit Hj Hlen s sm window r.
  assert (Hit' : 0 < iters) by lia.
  destruct (analyse_window_run iters row j i Hit' Hj Hlen)
    as (m & rec & _ & _ & _ & Hm & _ & _ & _ & _ & E).
  assert (Hs : 5 <= s) by (unfold s; nia).
  assert (Hs' : s <= Z.of_nat (length row)) by (unfold s; nia).
  set (slice := Py.slice row (iters * (j + 1) - 1 - 4)
                         (iters * (j + 1) - 1 + 1)).
  assert (Hsl : length slice = 5%nat).
  { unfold slice. rewrite slice_length by (fold s; lia). fold s. lia. }
  assert (Hnth : forall k, (k < 5)%nat ->
                           nth k slice 0%Q = r (s - 5 + Z.of_nat k)).
  { intros k Hk. unfold slice. rewrite slice_nth by (fold s; lia).
    unfold r, Analysis.at_index. fold s. f_equal. lia. }
  assert (Hbase : Analysis.baseline_of iters row j
                  = Fin (fold_left Qplus slice 0
                         / inject_Z (Z.of_nat (length slice)))%Q).
  { unfold Analysis.baseline_of. fold slice. apply mean_finite.
    intros E'. rewrite E' in Hsl. discriminate. }
  eexists. eexists. split; [exact E|]. split; [exact Hbase|].
  split.
  - rewrite Hsl.
    destruct slice as [|x0 [|x1 [|x2 [|x3 [|x4 [|? ?]]]]]]; try discriminate.
    pose proof (Hnth 0%nat ltac:(lia)) as H0.
    pose proof (Hnth 1%nat ltac:(lia)) as H1.
    pose proof (Hnth 2%nat ltac:(lia)) as H2.
    pose proof (Hnth 3%nat ltac:(lia)) as H3.
    pose proof (Hnth 4%nat ltac:(lia)) as H4.
    cbn [nth] in H0, H1, H2, H3, H4.
    replace (s - 5 + Z.of_nat 0) with (s - 5) in H0 by lia.
    replace (s - 5 + Z.of_nat 1) with (s - 4) in H1 by lia.
    replace (s - 5 + Z.of_nat 2) with (s - 3) in H2 by lia.
    replace (s - 5 + Z.of_nat 3) with (s - 2) in H3 by lia.
    replace (s - 5 + Z.of_nat 4) with (s - 1) in H4 by lia.
    rewrite <- H0, <- H1, <- H2, <- H3, <- H4.
    cbn [fold_left]. change (inject_Z (Z.of_nat 5)) with 5%Q. field.
  - cbn [Analysis.slope_down Analysis.gap_depth Analysis.min_window_index].
    fold sm window. rewrite Hbase. cbn [Np.fsub Np.fopp Np.fadd].
    split; [|reflexivity].
    apply fdiv_by_int. lia.
Qed.

Lemma slope_down_and_gap_finite_witness :
  5 <= 6 /\ 0 <= 0 /\ 6 * (0 + 2) <= Z.of_nat (length Examples.dip_row) /\
  exists res b,
    Analysis.analyse_window 6 Examples.dip_row 0 0 = Some res /\
    Analysis.baseline_of 6 Examples.dip_row 0 = Fin b /\ (b == 70)%Q.
Proof.
  assert (H1 : 5 <= 6) by lia.
  assert (H2 : 0 <= 0) by lia.
  assert (H3 : 6 * (0 + 2) <= Z.of_nat (length Examples.dip_row))
    by (cbn; lia).
  repeat (split; [assumption|]).
  destruct (slope_down_and_gap_finite 6 Examples.dip_row 0 0 H1 H2 H3)
    as (res & b & E & Hb & Hval & _).
  exists res, b. split; [exact E|]. split; [exact Hb|].
  rewrite Hval. vm_compute. reflexivity.
Defined.

(** X5: a window that starts at or beyond the end of the row is empty, and
    its analysis raises (the minimum of an empty array) instead of
    returning a value. *)
Theorem window_beyond_row_raises (iters : Z) (row : list Q) (j i : Z) :
  0 < iters -> 0 <= j -> Z.of_nat (length row) <= iters * (j + 1) ->
  Analysis.window_of iters row j = [] /\
  Analysis.analyse_window iters row j i = None.
Proof.
  intros Hit Hj Hlen.
  assert (Hs : 0 <= iters * (j + 1)) by nia.
  assert (Hw : Analysis.window_of iters row j = []).
  { unfold Analysis.window_of, Py.slice, Py.clip.
    destruct (Z.ltb_spec (iters * (j + 1)) 0) as [?|_]; [lia|].
    destruct (Z.ltb_spec (iters * (j + 1) + iters) 0) as [?|_]; [lia|].
    replace (Z.to_nat (Z.min (iters * (j + 1) + iters) (Z.of_nat (length row))
                       - Z.min (iters * (j + 1)) (Z.of_nat (length row))))
      with O by lia.
    reflexivity. }
  split; [exact Hw|].
  unfold Analysis.analyse_window.
  change (Py.slice row (iters * (j + 1)) (iters * (j + 1) + iters))
    with (Analysis.window_of iters row j).
  rewrite Hw. reflexivity.
Qed.

Lemma window_beyond_row_raises_witness :
  0 < 6 /\ 0 <= 1 /\ Z.of_nat (length Examples.dip_row) <= 6 * (1 + 1) /\
  Analysis.analyse_window 6 Examples.dip_row 1 0 = None.
Proof.
  assert (H1 : 0 < 6) by lia.
  assert (H2 : 0 <= 1) by lia.
  assert (H3 : Z.of_nat (length Examples.dip_row) <= 6 * (1 + 1))
    by (cbn; lia).
  repeat (split; [assumption|]).
  apply (window_beyond_row_raises 6 Examples.dip_row 1 0 H1 H2 H3).
Defined.

(** ** The loops over windows and tasks *)

Section Loops.

Import Np Analysis.

(** A scan over a range that is not empty forgets the value [i] had. *)
Lemma recovery_scan_fresh (sm : list Q) (base : npfloat) (x : Z)
      (rest : list Z) (i i' : Z) :
  recovery_scan sm base (x :: rest) i = recovery_scan sm base (x :: rest) i'.
Proof.
  reflexivity.
Qed.

Lemma analyse_window_fresh (iters : Z) (row : list Q) (j i i' : Z) :
  0 < iters -> 0 <= j -> iters * (j + 2) <= Z.of_nat (length row) ->
  analyse_window iters row j i = analyse_window iters row j i'.
Proof.
  intros Hit Hj Hlen.
  destruct (analyse_window_run iters row j i Hit Hj Hlen)
    as (m & r & _ & _ & Em & Hm & _).
  unfold analyse_window.
  change (Py.slice row (iters * (j + 1)) (iters * (j + 1) + iters))
    with (window_of iters row j).
  change (Scipy.uniform_filter1d (window_of iters row j) 5)
    with (smoothed_of iters row j).
  rewrite Em. cbn [Py.bind].
  rewrite (range_cons m iters) by lia.
  rewrite (recovery_scan_fresh _ _ m _ i i'). reflexivity.
Qed.

Lemma windows_loop_spec (iters : Z) (row : list Q) (js : list Z) :
  0 < iters ->
  (forall j, In j js -> 0 <= j /\ iters * (j + 2) <= Z.of_nat (length row)) ->
  forall (lists : five (list npfloat)) (i : Z),
  exists results i',
    windows_loop iters row js lists i
    = Some (fold_left append_window results lists, i') /\
    Forall2 (fun j res => analyse_window iters row j 0 = Some res) js results.
Proof.
  intros Hit. induction js as [|j js IH]; intros Hjs lists i.
  - exists [], i. split; [reflexivity|constructor].
  - destruct (Hjs j (or_introl eq_refl)) as (Hj & Hlen).
    destruct (analyse_window_run iters row j i Hit Hj Hlen)
      as (m & r & _ & _ & _ & _ & _ & _ & _ & _ & E).
    cbn [windows_loop]. rewrite E. cbn [Py.bind].
    match type of E with _ = Some ?res => set (res0 := res) in * end.
    destruct (IH (fun j' H => Hjs j' (or_intror H))
                 (append_window lists res0) (tbp res0))
      as (results & i' & Eloop & Hall).
    exists (res0 :: results), i'. split; [exact Eloop|].
    constructor; [|exact Hall].
    rewrite (analyse_window_fresh iters row j 0 i Hit Hj Hlen). exact E.
Qed.

Lemma appended_lists (results : list window_result) :
  forall lists,
    f_tbp (fold_left append_window results lists)
    = f_tbp lists ++ map (fun r => of_int (tbp r)) results /\
    f_sd (fold_left append_window results lists)
    = f_sd lists ++ map slope_down results /\
    f_sr (fold_left append_window results lists)
    = f_sr lists ++ map slope_up results /\
    f_gd (fold_left append_window results lists)
    = f_gd lists ++ map gap_depth results /\
    f_sr_fixed (fold_left append_window results lists)
    = f_sr_fixed lists ++ map sr_fixed results.
Proof.
  induction results as [|r results IH]; intros lists.
  - cbn. now rewrite !app_nil_r.
  - cbn [fold_left map].
    destruct (IH (append_window lists r)) as (H1 & H2 & H3 & H4 & H5).
    rewrite H1, H2, H3, H4, H5. cbn. now rewrite <- !app_assoc.
Qed.

Lemma range_in (a b x : Z) : In x (Py.range a b) -> a <= x < b.
Proof.
  unfold Py.range. intros H. apply in_map_iff in H.
  destruct H as (k & <- & Hk). apply in_seq in Hk. lia.
Qed.

(** The analysis of one task whose row holds all the windows it reads. *)
Lemma analyse_task_spec (iters n_tasks : Z) (accuracies : list (list Q))
      (task_id i : Z) (row : list Q) :
  0 < iters ->
  Py.get accuracies task_id = Some row ->
  iters * (n_tasks - task_id) <= Z.of_nat (length row) ->
  exists results i',
    analyse_task iters n_tasks accuracies task_id i
    = Some (five_map nanmean (fold_left append_window results no_lists), i')
    /\
    Forall2 (fun j res => analyse_window iters row j 0 = Some res)
            (Py.range 0 (n_tasks - task_id - 1)) results.
Proof.
  intros Hit Hrow Hlen. unfold analyse_task. rewrite Hrow. cbn [Py.bind].
  destruct (windows_loop_spec iters row (Py.range 0 (n_tasks - task_id - 1))
                              Hit) with (lists := no_lists) (i := i)
    as (results & i' & E & Hall).
  { intros j Hj. apply range_in in Hj. split; [lia|]. nia. }
  rewrite E. cbn [Py.bind fst snd]. exists results, i'.
  split; [reflexivity|exact Hall].
Qed.

Lemma tasks_loop_total (iters n_tasks : Z) (accuracies : list (list Q))
      (task_ids : list Z) :
  0 < iters ->
  (forall t, In t task_ids ->
             exists row, Py.get accuracies t = Some row /\
                         iters * (n_tasks - t) <= Z.of_nat (length row)) ->
  forall (rows : list (five npfloat)) (i : Z),
  exists rows' i',
    tasks_loop iters n_tasks accuracies task_ids rows i = Some (rows', i') /\
    length rows' = (length rows + length task_ids)%nat.
Proof.
  intros Hit. induction task_ids as [|t ts IH]; intros Hts rows i.
  - exists rows, i. split; [reflexivity|cbn; lia].
  - destruct (Hts t (or_introl eq_refl)) as (row & Hrow & Hlen).
    destruct (analyse_task_spec iters n_tasks accuracies t i row Hit Hrow Hlen)
      as (results & i1 & E & _).
    cbn [tasks_loop]. rewrite E. cbn [Py.bind fst snd].
    destruct (IH (fun t' H => Hts t' (or_intror H))
                 (rows ++ [five_map nanmean
                                    (fold_left append_window results no_lists)])
                 i1)
      as (rows' & i' & Eloop & Hl).
    exists rows', i'. split; [exact Eloop|].
    rewrite Hl, length_app. cbn. lia.
Qed.

End Loops.

Section TrainingShape.

(** The log of a trial: one row per task, [iters * (n_tasks - j)] samples
    in row [j]. *)
Lemma training_log_shape (accuracy : Z -> Z -> Z -> Q) (n_tasks iters : Z) :
  0 <= n_tasks -> 0 <= iters ->
  exists log,
    Training.current_experiment_performances accuracy n_tasks iters
    = Some log /\
    Z.of_nat (length log) = n_tasks /\
    forall j, 0 <= j < n_tasks ->
              exists row,
                Py.get log j = Some row /\
                Z.of_nat (length row) = iters * (n_tasks - j).
Proof.
  intros Hn Hit. unfold Training.current_experiment_performances.
  set (init := map (fun _ : Z => @nil Q) (Py.range 0 n_tasks)).
  assert (Hinit : length init = Z.to_nat n_tasks).
  { unfold init. rewrite length_map, range_length. f_equal. lia. }
  destruct (tasks_spec accuracy iters (Z.to_nat n_tasks) 0 init)
    as (p & E & Hl & Hk); try lia.
  replace (0 + Z.of_nat (Z.to_nat n_tasks)) with n_tasks in E, Hk by lia.
  exists p. split; [exact E|]. split; [lia|].
  intros j Hj. exists (nth (Z.to_nat j) p []).
  split; [apply get_nth; lia|].
  rewrite Hk.
  assert (Hrow : nth (Z.to_nat j) init [] = []).
  { unfold init.
    replace n_tasks with (Z.of_nat (Z.to_nat n_tasks)) by lia.
    rewrite nth_map_range by lia. reflexivity. }
  rewrite Hrow. cbn [length].
  replace (Z.max 0 (n_tasks - Z.max 0 (Z.of_nat (Z.to_nat j))))
    with (n_tasks - j) by lia.
  lia.
Qed.

End TrainingShape.

(** X6: the loop variable [i], which the recovery scan shares with the
    loop over experiments, does not leak into the result: for a window
    inside its row the scan range is never empty, so the analysis gives the
    same result whatever value [i] had before. *)
Theorem window_result_ignores_cursor (iters : Z) (row : list Q) (j i i' : Z) :
  0 < iters -> 0 <= j -> iters * (j + 2) <= Z.of_nat (length row) ->
  Analysis.analyse_window iters row j i = Analysis.analyse_window iters row j i'
  /\ exists res, Analysis.analyse_window iters row j i = Some res.
Proof.
  intros Hit Hj Hlen. split.
  - now apply analyse_window_fresh.
  - destruct (analyse_window_run iters row j i Hit Hj Hlen)
      as (m & r & _ & _ & _ & _ & _ & _ & _ & _ & E).
    eexists. exact E.
Qed.

Lemma window_result_ignores_cursor_witness :
  0 < 6 /\ 0 <= 0 /\ 6 * (0 + 2) <= Z.of_nat (length Examples.dip_row) /\
  Analysis.analyse_window 6 Examples.dip_row 0 0
  = Analysis.analyse_window 6 Examples.dip_row 0 9.
Proof.
  assert (H1 : 0 < 6) by lia.
  assert (H2 : 0 <= 0) by lia.
  assert (H3 : 6 * (0 + 2) <= Z.of_nat (length Examples.dip_row))
    by (cbn; lia).
  repeat (split; [assumption|]).
  apply (window_result_ignores_cursor 6 Examples.dip_row 0 0 9 H1 H2 H3).
Defined.

(** X7: the analysis accepts every log that training writes: for at least
    one task and one iteration per task, the trough/recovery section
    returns one row of five values for each task but the last, and the
    per-trial aggregate, without raising. *)
Theorem analysis_accepts_training_log (accuracy : Z -> Z -> Z -> Q)
        (n_tasks iters i : Z) :
  1 <= n_tasks -> 1 <= iters ->
  exists log rows v,
    Training.current_experiment_performances accuracy n_tasks iters
    = Some log /\
    Analysis.tbp_sd_sr_gd_experiment_i iters n_tasks log i = Some rows /\
    Z.of_nat (length rows) = n_tasks - 1 /\
    Analysis.analyse_experiment iters n_tasks log i = Some v.
Proof.
  intros Hn Hit.
  destruct (training_log_shape accuracy n_tasks iters) as (log & E & Hl & Hrows);
    try lia.
  destruct (tasks_loop_total iters n_tasks log (Py.range 0 (n_tasks - 1)))
    with (rows := @nil (Analysis.five npfloat)) (i := i)
    as (rows & i' & Eloop & Hlen); [lia| |].
  { intros t Ht. apply range_in in Ht.
    destruct (Hrows t) as (row & Hrow & Hrl); [lia|].
    exists row. split; [exact Hrow|lia]. }
  exists log, rows. eexists.
  split; [exact E|].
  unfold Analysis.analyse_experiment, Analysis.tbp_sd_sr_gd_experiment_i.
  rewrite Eloop. cbn [Py.bind fst].
  split; [reflexivity|]. split; [|reflexivity].
  rewrite Hlen, range_length. cbn [length]. lia.
Qed.

Lemma analysis_accepts_training_log_witness :
  1 <= 3 /\ 1 <= 6 /\
  exists log rows,
    Training.current_experiment_performances (fun _ _ _ => 95%Q) 3 6
    = Some log /\
    Analysis.tbp_sd_sr_gd_experiment_i 6 3 log 0 = Some rows /\
    Z.of_nat (length rows) = 3 - 1.
Proof.
  assert (H1 : 1 <= 3) by lia.
  assert (H2 : 1 <= 6) by lia.
  repeat (split; [assumption|]).
  destruct (analysis_accepts_training_log (fun _ _ _ => 95%Q) 3 6 0 H1 H2)
    as (log & rows & v & E & Erows & Hlen & _).
  exists log, rows. auto.
Defined.

(** ** Not-a-number in the per-task and per-trial means *)

Section NanMeans.

Import Np Analysis.
Local Open Scope Q_scope.

Lemma fadd_nan_l (x : npfloat) : fadd NaN x = NaN.
Proof.
  now destruct x.
Qed.

Lemma fold_fadd_nan (l : list npfloat) : fold_left fadd l NaN = NaN.
Proof.
  induction l as [|x l IH]; [reflexivity|].
  cbn [fold_left]. now rewrite fadd_nan_l.
Qed.

Lemma fold_fadd_in_nan (l : list npfloat) :
  forall a, In NaN l -> fold_left fadd l a = NaN.
Proof.
  induction l as [|x l IH]; intros a Hin; [destruct Hin|].
  cbn [fold_left]. destruct Hin as [->|Hin].
  - replace (fadd a NaN) with NaN by now destruct a.
    apply fold_fadd_nan.
  - now apply IH.
Qed.

(** One not-a-number makes [np.mean] not-a-number. *)
Lemma mean_in_nan (l : list npfloat) : In NaN l -> mean l = NaN.
Proof.
  intros Hin. unfold mean, sum. now rewrite fold_fadd_in_nan.
Qed.

Lemma mean_nil : mean [] = NaN.
Proof.
  reflexivity.
Qed.

(** What [np.nanmean] keeps of a list of finite and not-a-number values. *)
Lemma filter_not_nan (l : list npfloat) :
  Forall (fun x => x = NaN \/ exists q, x = Fin q) l ->
  exists qs,
    filter (fun x => negb (isnan x)) l = map Fin qs /\
    (qs = [] <-> Forall (fun x => x = NaN) l).
Proof.
  induction 1 as [|x l Hx _ (qs & E & Hqs)].
  - exists []. split; [reflexivity|]. split; constructor.
  - destruct Hx as [->|(q & ->)]; cbn [filter isnan negb].
    + exists qs. split; [exact E|]. rewrite Hqs. split.
      * now constructor.
      * intros H. now inversion H.
    + exists (q :: qs). cbn [map]. rewrite E. split; [reflexivity|].
      split; [discriminate|]. intros H. inversion H. discriminate.
Qed.

Lemma nanmean_nan_iff (l : list npfloat) :
  Forall (fun x => x = NaN \/ exists q, x = Fin q) l ->
  (nanmean l = NaN <-> Forall (fun x => x = NaN) l).
Proof.
  intros Hl. destruct (filter_not_nan l Hl) as (qs & E & Hqs).
  unfold nanmean. rewrite E. rewrite <- Hqs.
  destruct qs as [|q qs].
  - split; reflexivity.
  - rewrite mean_finite by discriminate. split; discriminate.
Qed.

(** The recovery slope of a window is a finite number or not-a-number. *)
Lemma slope_up_nan_or_fin (iters : Z) (row : list Q) (j i : Z)
      (res : window_result) :
  (0 < iters)%Z -> (0 <= j)%Z ->
  (iters * (j + 2) <= Z.of_nat (length row))%Z ->
  analyse_window iters row j i = Some res ->
  slope_up res = NaN \/ exists q, slope_up res = Fin q.
Proof.
  intros Hit Hj Hlen Eres.
  destruct (analyse_window_run iters row j i Hit Hj Hlen)
    as (m & r & _ & _ & _ & Hm & _ & _ & Hr & _ & E).
  rewrite E in Eres. injection Eres as <-. cbn [slope_up].
  destruct (Z.eq_dec r m) as [->|Hne].
  - left. rewrite Z.sub_diag. apply fdiv_zero_by_zero.
  - right. eexists. apply fdiv_by_int. lia.
Qed.

Lemma Forall2_in_r {A B} (P : A -> B -> Prop) (l : list A) (l' : list B)
      (y : B) :
  Forall2 P l l' -> In y l' -> exists x, In x l /\ P x y.
Proof.
  induction 1 as [|a b l l' Hab _ IH]; intros Hin; [destruct Hin|].
  destruct Hin as [->|Hin].
  - exists a. split; [now left|exact Hab].
  - destruct (IH Hin) as (x & Hx & HP). exists x. split; [now right|exact HP].
Qed.

End NanMeans.

(** X8: the recovery slope of a task, the [np.nanmean] over its windows,
    is not-a-number exactly when the recovery slope of every one of its
    windows is not-a-number (in particular when the task has no window):
    a single window with a slope gives the task a slope. *)
Theorem task_slope_nan_iff (iters n_tasks : Z) (accuracies : list (list Q))
        (task_id i : Z) (row : list Q) :
  0 < iters ->
  Py.get accuracies task_id = Some row ->
  iters * (n_tasks - task_id) <= Z.of_nat (length row) ->
  exists results v i',
    Forall2 (fun j res => Analysis.analyse_window iters row j 0 = Some res)
            (Py.range 0 (n_tasks - task_id - 1)) results /\
    Analysis.analyse_task iters n_tasks accuracies task_id i = Some (v, i') /\
    (Analysis.f_sr v = NaN <->
     Forall (fun res => Analysis.slope_up res = NaN) results).
Proof.
  intros Hit Hrow Hlen.
  destruct (analyse_task_spec iters n_tasks accuracies task_id i row
                              Hit Hrow Hlen)
    as (results & i' & E & Hall).
  exists results. eexists. exists i'.
  split; [exact Hall|]. split; [exact E|].
  cbn [Analysis.five_map Analysis.f_sr].
  destruct (appended_lists results Analysis.no_lists) as (_ & _ & -> & _).
  cbn [Analysis.no_lists Analysis.f_sr app].
  rewrite nanmean_nan_iff.
  - rewrite Forall_map. reflexivity.
  - rewrite Forall_map. apply Forall_forall. intros res Hres.
    destruct (Forall2_in_r _ _ _ res Hall Hres) as (j & Hj & Ej).
    apply range_in in Hj.
    apply (slope_up_nan_or_fin iters row j 0 res); try lia; [nia|exact Ej].
Qed.

Lemma task_slope_nan_iff_witness :
  0 < 6 /\
  Py.get [Examples.dip_row] 0 = Some Examples.dip_row /\
  6 * (2 - 0) <= Z.of_nat (length Examples.dip_row) /\
  exists v i',
    Analysis.analyse_task 6 2 [Examples.dip_row] 0 0 = Some (v, i') /\
    Analysis.f_sr v <> NaN.
Proof.
  assert (H1 : 0 < 6) by lia.
  assert (H2 : Py.get [Examples.dip_row] 0 = Some Examples.dip_row)
    by reflexivity.
  assert (H3 : 6 * (2 - 0) <= Z.of_nat (length Examples.dip_row))
    by (cbn; lia).
  repeat (split; [assumption|]).
  destruct (task_slope_nan_iff 6 2 [Examples.dip_row] 0 0 Examples.dip_row
                               H1 H2 H3)
    as (results & v & i' & Hall & E & Hiff).
  exists v, i'. split; [exact E|].
  intros Hnan. apply Hiff in Hnan.
  change (Py.range 0 (2 - 0 - 1)) with [0] in Hall.
  inversion Hall as [|j res js rs Eres Hrest]; subst.
  inversion Hnan as [|? ? Hres _]; subst.
  vm_compute in Eres. injection Eres as <-.
  vm_compute in Hres. discriminate Hres.
Defined.

(** X9: one task whose recovery slope (or capped recovery slope) is
    not-a-number makes that metric of the whole trial not-a-number,
    because the per-trial value is a plain [np.mean] over the tasks. *)
Theorem trial_mean_propagates_nan (iters n_tasks : Z)
        (accuracies : list (list Q)) (i : Z)
        (rows : list (Analysis.five npfloat)) (r : Analysis.five npfloat) :
  Analysis.tbp_sd_sr_gd_experiment_i iters n_tasks accuracies i = Some rows ->
  In r rows ->
  exists v,
    Analysis.analyse_experiment iters n_tasks accuracies i = Some v /\
    (Analysis.f_sr r = NaN -> Analysis.f_sr v = NaN) /\
    (Analysis.f_sr_fixed r = NaN -> Analysis.f_sr_fixed v = NaN).
Proof.
  intros E Hin. unfold Analysis.analyse_experiment. rewrite E.
  cbn [Py.bind]. eexists. split; [reflexivity|].
  cbn [Analysis.mean_axis0 Analysis.f_sr Analysis.f_sr_fixed].
  split; intros Hnan; apply mean_in_nan; rewrite <- Hnan;
    apply in_map; exact Hin.
Qed.

Lemma trial_mean_propagates_nan_witness :
  exists rows r v,
    Analysis.tbp_sd_sr_gd_experiment_i
      6 3 [repeat 95%Q 18; Examples.dip_row; repeat 95%Q 6] 0 = Some rows /\
    In r rows /\
    Analysis.analyse_experiment
      6 3 [repeat 95%Q 18; Examples.dip_row; repeat 95%Q 6] 0 = Some v /\
    Analysis.f_sr r = NaN /\ Analysis.f_sr v = NaN.
Proof.
  destruct (Analysis.tbp_sd_sr_gd_experiment_i
              6 3 [repeat 95%Q 18; Examples.dip_row; repeat 95%Q 6] 0)
    as [rows|] eqn:E.
  2: { vm_compute in E. discriminate E. }
  pose proof E as E'. vm_compute in E'. injection E' as <-.
  match type of E with
  | _ = Some (?r :: ?rest) =>
      destruct (trial_mean_propagates_nan _ _ _ _ (r :: rest) r E
                                          (or_introl eq_refl))
        as (v & Ev & Hsr & _);
      exists (r :: rest), r, v
  end.
  split; [reflexivity|]. split; [now left|]. split; [exact Ev|].
  split; [reflexivity|]. apply Hsr. reflexivity.
Defined.

(** X10: the scan reads index 500 of the row whatever [iters] is: it
    returns for exactly the rows with more than 500 samples and raises
    IndexError for every shorter one. *)
Theorem sliding_scan_defined_iff (row : list Q) :
  (exists st, Sliding.sliding_scan row = Some st) <->
  500 < Z.of_nat (length row).
Proof.
  split.
  - intros (st & E). unfold Sliding.sliding_scan in E.
    destruct (Z.ltb_spec 500 (Z.of_nat (length row))) as [H|H]; [exact H|].
    rewrite get_beyond in E by lia. discriminate E.
  - intros H. destruct (sliding_scan_run row H) as (st & E & _).
    now exists st.
Qed.

(** X11: WF10 and WF100 as maxima over pairs.  With [s = row[500:]] the
    scanned samples, WF[W] is at least [s[a] - s[b]] for every earlier
    position [a] and later position [b] at most [W] apart, and it is
    either such a difference or still the initial [-sys.maxsize - 1]. *)
Theorem forgetting_is_largest_drop (row : list Q) :
  500 < Z.of_nat (length row) ->
  exists st,
    Sliding.sliding_scan row = Some st /\
    let s := Py.slice_from row 500 in
    let init := inject_Z (- Sliding.sys_maxsize - 1) in
    (forall a b, (a < b < length s)%nat ->
       ((b <= a + 10)%nat ->
        (nth a s 0 - nth b s 0 <= Sliding.wf_max_10 st)%Q) /\
       ((b <= a + 100)%nat ->
        (nth a s 0 - nth b s 0 <= Sliding.wf_max_100 st)%Q)) /\
    (Sliding.wf_max_10 st = init \/
     exists a b, (a < b < length s)%nat /\ (b <= a + 10)%nat /\
                 Sliding.wf_max_10 st = (nth a s 0 - nth b s 0)%Q) /\
    (Sliding.wf_max_100 st = init \/
     exists a b, (a < b < length s)%nat /\ (b <= a + 100)%nat /\
                 Sliding.wf_max_100 st = (nth a s 0 - nth b s 0)%Q).
Proof.
  intros Hlen.
  destruct (sliding_scan_run row Hlen)
    as (st & E & _ & _ & Hf10 & Hf100 & _ & _).
  exists st. split; [exact E|]. intros s init.
  fold s in Hf10, Hf100. fold init in Hf10, Hf100.
  destruct (running_drop_pairs init 10 s) as (B10 & A10); [lia|].
  destruct (running_drop_pairs init 100 s) as (B100 & A100); [lia|].
  rewrite Hf10, Hf100. split; [|split; assumption].
  intros a b Hab. split; intros Hw; [now apply B10|now apply B100].
Qed.

Lemma forgetting_is_largest_drop_witness :
  500 < Z.of_nat (length Examples.zigzag_row) /\
  exists st,
    Sliding.sliding_scan Examples.zigzag_row = Some st /\
    (nth 1 (Py.slice_from Examples.zigzag_row 500) 0
     - nth 2 (Py.slice_from Examples.zigzag_row 500) 0
     <= Sliding.wf_max_10 st)%Q.
Proof.
  assert (H : 500 < Z.of_nat (length Examples.zigzag_row))
    by (vm_compute; reflexivity).
  split; [exact H|].
  destruct (forgetting_is_largest_drop Examples.zigzag_row H)
    as (st & E & Hb & _).
  exists st. split; [exact E|].
  apply (Hb 1%nat 2%nat); [vm_compute; lia|lia].
Defined.

(** X12: WP10 and WP100 as maxima over pairs: WP[W] is at least
    [s[b] - s[a]] for every earlier position [a] and later position [b] of
    the scanned samples at most [W] apart, and it is either such a
    difference or still the initial [-sys.maxsize - 1]. *)
Theorem plasticity_is_largest_rise (row : list Q) :
  500 < Z.of_nat (length row) ->
  exists st,
    Sliding.sliding_scan row = Some st /\
    let s := Py.slice_from row 500 in
    let init := inject_Z (- Sliding.sys_maxsize - 1) in
    (forall a b, (a < b < length s)%nat ->
       ((b <= a + 10)%nat ->
        (nth b s 0 - nth a s 0 <= Sliding.wp_max_10 st)%Q) /\
       ((b <= a + 100)%nat ->
        (nth b s 0 - nth a s 0 <= Sliding.wp_max_100 st)%Q)) /\
    (Sliding.wp_max_10 st = init \/
     exists a b, (a < b < length s)%nat /\ (b <= a + 10)%nat /\
                 Sliding.wp_max_10 st = (nth b s 0 - nth a s 0)%Q) /\
    (Sliding.wp_max_100 st = init \/
     exists a b, (a < b < length s)%nat /\ (b <= a + 100)%nat /\
                 Sliding.wp_max_100 st = (nth b s 0 - nth a s 0)%Q).
Proof.
  intros Hlen.
  destruct (sliding_scan_run row Hlen)
    as (st & E & _ & _ & _ & _ & Hp10 & Hp100).
  exists st. split; [exact E|]. intros s init.
  fold s in Hp10, Hp100. fold init in Hp10, Hp100.
  destruct (running_rise_pairs init 10 s) as (B10 & A10); [lia|].
  destruct (running_rise_pairs init 100 s) as (B100 & A100); [lia|].
  rewrite Hp10, Hp100. split; [|split; assumption].
  intros a b Hab. split; intros Hw; [now apply B10|now apply B100].
Qed.

Lemma plasticity_is_largest_rise_witness :
  500 < Z.of_nat (length Examples.zigzag_row) /\
  exists st,
    Sliding.sliding_scan Examples.zigzag_row = Some st /\
    (nth 2 (Py.slice_from Examples.zigzag_row 500) 0
     - nth 1 (Py.slice_from Examples.zigzag_row 500) 0
     <= Sliding.wp_max_10 st)%Q.
Proof.
  assert (H : 500 < Z.of_nat (length Examples.zigzag_row))
    by (vm_compute; reflexivity).
  split; [exact H|].
  destruct (plasticity_is_largest_rise Examples.zigzag_row H)
    as (st & E & Hb & _).
  exists st. split; [exact E|].
  apply (Hb 1%nat 2%nat); [vm_compute; lia|lia].
Defined.

(** ** What each sample of the log is *)

Section LogRows.

Import Training LogContent.

Variable accuracy : Z -> Z -> Z -> Q.

Lemma append_at_content (performances : list (list Q)) :
  forall (index : nat) (v : Q),
    (index < length performances)%nat ->
    exists p',
      append_at performances index v = Some p' /\
      length p' = length performances /\
      forall k, nth k p' []
                = nth k performances []
                  ++ (if Nat.eqb k index then [v] else []).
Proof.
  induction performances as [|row rest IH]; intros index v Hlt;
    [cbn in Hlt; lia|].
  destruct index as [|index]; cbn [append_at].
  - eexists. split; [reflexivity|]. split; [reflexivity|].
    intros [|k]; cbn [nth Nat.eqb]; [reflexivity|now rewrite app_nil_r].
  - destruct (IH index v) as (p' & E & Hl & Hk); [cbn in Hlt; lia|].
    rewrite E. cbn [Py.bind].
    eexists. split; [reflexivity|]. split; [cbn; lia|].
    intros [|k]; cbn [nth Nat.eqb]; [now rewrite app_nil_r|apply Hk].
Qed.

Lemma evaluate_content (task_id iteration : Z) (n : nat) :
  forall (a : Z) (performances : list (list Q)),
    0 <= a -> a + Z.of_nat n <= Z.of_nat (length performances) ->
    exists p',
      evaluate accuracy task_id iteration (Py.range a (a + Z.of_nat n))
               performances = Some p' /\
      length p' = length performances /\
      forall k, nth k p' []
                = nth k performances []
                  ++ (if (a <=? Z.of_nat k) && (Z.of_nat k <? a + Z.of_nat n)
                      then [accuracy task_id iteration (Z.of_nat k)]
                      else []).
Proof.
  induction n as [|n IH]; intros a performances Ha Hlen.
  - rewrite range_empty by lia. cbn [evaluate].
    eexists. split; [reflexivity|]. split; [reflexivity|].
    intros k.
    destruct (Z.leb_spec a (Z.of_nat k)),
             (Z.ltb_spec (Z.of_nat k) (a + Z.of_nat 0));
      cbn [andb]; try lia; now rewrite app_nil_r.
  - rewrite range_cons by lia. cbn [evaluate].
    destruct (append_at_content performances (Z.to_nat a)
                                (accuracy task_id iteration a))
      as (p1 & E1 & Hl1 & Hk1); [lia|].
    rewrite E1. cbn [Py.bind].
    destruct (IH (a + 1) p1) as (p2 & E2 & Hl2 & Hk2); try lia.
    replace (a + 1 + Z.of_nat n) with (a + Z.of_nat (S n)) in E2, Hk2 by lia.
    exists p2. split; [exact E2|]. split; [lia|].
    intros k. rewrite Hk2, Hk1, <- app_assoc. f_equal.
    destruct (Nat.eqb_spec k (Z.to_nat a)) as [Ek|Ek];
      destruct (Z.leb_spec (a + 1) (Z.of_nat k));
      destruct (Z.leb_spec a (Z.of_nat k));
      destruct (Z.ltb_spec (Z.of_nat k) (a + Z.of_nat (S n)));
      cbn [andb app]; try lia; try reflexivity.
    replace (Z.of_nat k) with a by lia. reflexivity.
Qed.

Lemma iterations_content (task_id : Z) (its : list Z) :
  forall (performances : list (list Q)),
    0 <= task_id <= Z.of_nat (length performances) ->
    exists p',
      iterations accuracy task_id its performances = Some p' /\
      length p' = length performances /\
      forall k, nth k p' []
                = nth k performances []
                  ++ (if Z.of_nat k <? task_id
                      then map (fun iteration =>
                                  accuracy task_id iteration (Z.of_nat k)) its
                      else []).
Proof.
  induction its as [|iteration rest IH]; intros performances Hid.
  - cbn [iterations]. eexists. split; [reflexivity|].
    split; [reflexivity|]. intros k.
    destruct (Z.ltb_spec (Z.of_nat k) task_id); cbn [map];
      now rewrite app_nil_r.
  - cbn [iterations].
    destruct (evaluate_content task_id iteration (Z.to_nat task_id) 0
                               performances)
      as (p1 & E1 & Hl1 & Hk1); try lia.
    replace (0 + Z.of_nat (Z.to_nat task_id)) with task_id in E1, Hk1 by lia.
    rewrite E1. cbn [Py.bind].
    destruct (IH p1) as (p2 & E2 & Hl2 & Hk2); [lia|].
    exists p2. split; [exact E2|]. split; [lia|].
    intros k. rewrite Hk2, Hk1, <- app_assoc. f_equal.
    destruct (Z.leb_spec 0 (Z.of_nat k)); [|lia].
    destruct (Z.ltb_spec (Z.of_nat k) task_id); cbn [andb app map];
      reflexivity.
Qed.

Lemma train_and_evaluate_content (iters task_id : Z)
      (performances : list (list Q)) :
  0 <= task_id <= Z.of_nat (length performances) ->
  exists p',
    train_and_evaluate accuracy iters performances task_id = Some p' /\
    length p' = length performances /\
    forall k, nth k p' []
              = nth k performances [] ++ block accuracy iters task_id k.
Proof.
  intros Hid. unfold train_and_evaluate.
  destruct (iterations_content task_id (Py.range 1 (iters + 1)) performances
                               Hid)
    as (p' & E & Hl & Hk).
  exists p'. split; [exact E|]. split; [exact Hl|].
  intros k. rewrite Hk. reflexivity.
Qed.

Lemma tasks_content (iters : Z) (n : nat) :
  forall (a : Z) (performances : list (list Q)),
    0 <= a ->
    a + Z.of_nat n <= Z.of_nat (length performances) ->
    exists p',
      tasks accuracy iters (Py.range a (a + Z.of_nat n)) performances
      = Some p' /\
      length p' = length performances /\
      forall k, nth k p' []
                = nth k performances []
                  ++ blocks accuracy iters (Py.range a (a + Z.of_nat n)) k.
Proof.
  induction n as [|n IH]; intros a performances Ha Hlen.
  - rewrite range_empty by lia. cbn [tasks].
    eexists. split; [reflexivity|]. split; [reflexivity|].
    intros k. unfold blocks. cbn [flat_map]. now rewrite app_nil_r.
  - rewrite range_cons by lia. cbn [tasks].
    destruct (train_and_evaluate_content iters (a + 1) performances)
      as (p1 & E1 & Hl1 & Hk1); try lia.
    rewrite E1. cbn [Py.bind].
    destruct (IH (a + 1) p1) as (p2 & E2 & Hl2 & Hk2); try lia.
    replace (a + 1 + Z.of_nat n) with (a + Z.of_nat (S n)) in E2, Hk2 by lia.
    exists p2. split; [exact E2|]. split; [lia|].
    intros k. rewrite Hk2, Hk1, <- app_assoc. reflexivity.
Qed.

Lemma nth_map_range_from (f : Z -> Q) (a b : Z) (i : nat) (d : Q) :
  (i < Z.to_nat (b - a))%nat ->
  nth i (map f (Py.range a b)) d = f (a + Z.of_nat i).
Proof.
  intros H. unfold Py.range. rewrite map_map.
  rewrite nth_indep with (d' := f (a + Z.of_nat 0)).
  - rewrite (map_nth (fun x => f (a + Z.of_nat x))).
    rewrite seq_nth by lia. f_equal.
  - rewrite length_map, length_seq. lia.
Qed.

Lemma block_length (iters task : Z) (k : nat) :
  Z.of_nat k < task ->
  length (block accuracy iters task k) = Z.to_nat iters.
Proof.
  intros H. unfold block.
  destruct (Z.ltb_spec (Z.of_nat k) task); [|lia].
  rewrite length_map, range_length. f_equal. lia.
Qed.

(** Position [iters * (c - max a k) + (it - 1)] of what the tasks
    [a .. a + n - 1] append to row [k] is the sample of iteration [it]
    of task [c]. *)
Lemma blocks_nth (iters : Z) (k : nat) (n : nat) :
  forall (a c it : Z),
    0 <= a -> Z.max a (Z.of_nat k) <= c < a + Z.of_nat n ->
    1 <= it <= iters ->
    nth (Z.to_nat (iters * (c - Z.max a (Z.of_nat k)) + (it - 1)))
        (blocks accuracy iters (Py.range a (a + Z.of_nat n)) k) 0%Q
    = accuracy (c + 1) it (Z.of_nat k).
Proof.
  induction n as [|n IH]; intros a c it Ha Hc Hit; [lia|].
  rewrite range_cons by lia. unfold blocks. cbn [flat_map].
  fold (blocks accuracy iters (Py.range (a + 1) (a + Z.of_nat (S n))) k).
  replace (a + Z.of_nat (S n)) with (a + 1 + Z.of_nat n) by lia.
  destruct (Z.ltb_spec (Z.of_nat k) (a + 1)) as [Hk|Hk].
  - replace (Z.max a (Z.of_nat k)) with a in * by lia.
    destruct (Z.eq_dec c a) as [->|Hne].
    + rewrite app_nth1 by (rewrite block_length by lia; nia).
      unfold block. destruct (Z.ltb_spec (Z.of_nat k) (a + 1)); [|lia].
      rewrite nth_map_range_from by nia.
      f_equal. nia.
    + rewrite app_nth2 by (rewrite block_length by lia; nia).
      rewrite block_length by lia.
      replace (Z.to_nat (iters * (c - a) + (it - 1)) - Z.to_nat iters)%nat
        with (Z.to_nat (iters * (c - Z.max (a + 1) (Z.of_nat k)) + (it - 1))).
      * apply IH; lia.
      * replace (Z.max (a + 1) (Z.of_nat k)) with (a + 1) by lia. nia.
  - unfold block at 1. destruct (Z.ltb_spec (Z.of_nat k) (a + 1)); [lia|].
    cbn [app].
    replace (Z.max a (Z.of_nat k)) with (Z.max (a + 1) (Z.of_nat k)) by lia.
    apply IH; lia.
Qed.

(** The log of a trial, row by row. *)
Lemma training_log_rows (n_tasks iters : Z) :
  0 <= n_tasks ->
  exists log,
    current_experiment_performances accuracy n_tasks iters = Some log /\
    Z.of_nat (length log) = n_tasks /\
    forall k, nth k log []
              = blocks accuracy iters (Py.range 0 n_tasks) k.
Proof.
  intros Hn. unfold current_experiment_performances.
  set (init := map (fun _ : Z => @nil Q) (Py.range 0 n_tasks)).
  assert (Hinit : length init = Z.to_nat n_tasks).
  { unfold init. rewrite length_map, range_length. f_equal. lia. }
  destruct (tasks_content iters (Z.to_nat n_tasks) 0 init)
    as (p & E & Hl & Hk); try lia.
  replace (0 + Z.of_nat (Z.to_nat n_tasks)) with n_tasks in E, Hk by lia.
  exists p. split; [exact E|]. split; [lia|].
  intros k. rewrite Hk.
  replace (nth k init []) with (@nil Q); [reflexivity|].
  destruct (Nat.ltb_spec k (Z.to_nat n_tasks)).
  - unfold init.
    replace n_tasks with (Z.of_nat (Z.to_nat n_tasks)) by lia.
    now rewrite nth_map_range by lia.
  - now rewrite nth_overflow by lia.
Qed.

End LogRows.

(** X13: what each sample of the log is.  In the row of task [j] (from
    0), position [iters * t + (it - 1)] holds the accuracy on test set [j]
    measured at iteration [it] while task [j + 1 + t] (from 1) is trained:
    the row starts with the task's own training phase, and every later
    task adds the next [iters] samples. *)
Theorem log_sample_provenance (accuracy : Z -> Z -> Z -> Q)
        (n_tasks iters j t it : Z) :
  0 <= j -> 0 <= t -> j + t < n_tasks -> 1 <= it <= iters ->
  exists log row,
    Training.current_experiment_performances accuracy n_tasks iters
    = Some log /\
    Py.get log j = Some row /\
    Py.get row (iters * t + (it - 1)) = Some (accuracy (j + 1 + t) it j).
Proof.
  intros Hj Ht Hjt Hit.
  destruct (training_log_shape accuracy n_tasks iters)
    as (log & E & Hl & Hrows); try lia.
  destruct (training_log_rows accuracy n_tasks iters) as (log' & E' & _ & Hk);
    [lia|].
  rewrite E in E'. injection E' as <-.
  destruct (Hrows j) as (row & Hrow & Hlen); [lia|].
  exists log, row. split; [exact E|]. split; [exact Hrow|].
  assert (Erow : row = nth (Z.to_nat j) log []).
  { rewrite (get_nth log j []) in Hrow by lia. congruence. }
  rewrite (get_nth row _ 0%Q) by nia. f_equal.
  rewrite Erow, Hk.
  pose proof (blocks_nth accuracy iters (Z.to_nat j) (Z.to_nat n_tasks)
                         0 (j + t) it) as H.
  replace (0 + Z.of_nat (Z.to_nat n_tasks)) with n_tasks in H by lia.
  replace (Z.max 0 (Z.of_nat (Z.to_nat j))) with j in H by lia.
  replace (j + t - j) with t in H by lia.
  replace (Z.of_nat (Z.to_nat j)) with j in H by lia.
  replace (j + t + 1) with (j + 1 + t) in H by lia.
  apply H; lia.
Qed.

Lemma log_sample_provenance_witness :
  0 <= 0 /\ 0 <= 1 /\ 0 + 1 < 3 /\ 1 <= 2 <= 6 /\
  exists log row,
    Training.current_experiment_performances
      (fun task iteration index =>
         inject_Z (100 * task + 10 * iteration + index)) 3 6 = Some log /\
    Py.get log 0 = Some row /\
    Py.get row (6 * 1 + (2 - 1)) = Some (inject_Z 220).
Proof.
  assert (H1 : 0 <= 0) by lia.
  assert (H2 : 0 <= 1) by lia.
  assert (H3 : 0 + 1 < 3) by lia.
  assert (H4 : 1 <= 2 <= 6) by lia.
  repeat (split; [assumption|]).
  apply (log_sample_provenance
           (fun task iteration index =>
              inject_Z (100 * task + 10 * iteration + index))
           3 6 0 1 2 H1 H2 H3 H4).
Defined.

(** ** FORG, ACC, min-ACC and WC-ACC *)

Section ReducerFacts.

Import Np Reducer.
Local Open Scope Q_scope.

Lemma pymin_l (a b : Q) : pymin a b <= a.
Proof.
  unfold pymin. destruct (Qlt_le_dec b a); [now apply Qlt_le_weak|apply Qle_refl].
Qed.

Lemma pymin_r (a b : Q) : pymin a b <= b.
Proof.
  unfold pymin. destruct (Qlt_le_dec b a); [apply Qle_refl|assumption].
Qed.

Lemma fold_pymin_le_init (l : list Q) : forall x, fold_left pymin l x <= x.
Proof.
  induction l as [|y l IH]; intros x; cbn [fold_left]; [apply Qle_refl|].
  apply Qle_trans with (pymin x y); [apply IH|apply pymin_l].
Qed.

Lemma fold_pymin_le_in (l : list Q) :
  forall x y, In y l -> fold_left pymin l x <= y.
Proof.
  induction l as [|z l IH]; intros x y Hin; [destruct Hin|].
  cbn [fold_left]. destruct Hin as [->|Hin].
  - apply Qle_trans with (pymin x y); [apply fold_pymin_le_init|apply pymin_r].
  - now apply IH.
Qed.

Lemma fold_pymin_attained (l : list Q) :
  forall x, fold_left pymin l x = x \/ In (fold_left pymin l x) l.
Proof.
  induction l as [|y l IH]; intros x; cbn [fold_left]; [now left|].
  destruct (IH (pymin x y)) as [E|Hin].
  - rewrite E. unfold pymin. destruct (Qlt_le_dec y x).
    + right. now left.
    + now left.
  - right. now right.
Qed.

(** [min] of a sequence that is not empty: one of its elements, below
    all of them. *)
Lemma min_of_spec (l : list Q) :
  l <> [] ->
  exists m, min_of l = Some m /\ In m l /\ forall y, In y l -> m <= y.
Proof.
  destruct l as [|x rest]; [congruence|]. intros _.
  exists (fold_left pymin rest x). split; [reflexivity|]. split.
  - destruct (fold_pymin_attained rest x) as [E|Hin].
    + rewrite E. now left.
    + now right.
  - intros y [->|Hin]; [apply fold_pymin_le_init|now apply fold_pymin_le_in].
Qed.

Lemma get_last {A} (l : list A) (d : A) :
  l <> [] -> Py.get l (-1) = Some (nth (length l - 1) l d).
Proof.
  intros Hne. unfold Py.get.
  assert (Hlen : (0 < length l)%nat) by (destruct l; [congruence|cbn; lia]).
  destruct (Z.ltb_spec (-1) 0) as [_|?]; [|lia].
  destruct (Z.ltb_spec (-1 + Z.of_nat (length l)) 0) as [?|_]; [lia|].
  replace (Z.to_nat (-1 + Z.of_nat (length l))) with (length l - 1)%nat by lia.
  apply nth_error_nth'. lia.
Qed.

Lemma slice_from_skipn {A} (l : list A) (a : Z) :
  (0 <= a)%Z -> Py.slice_from l a = skipn (Z.to_nat a) l.
Proof.
  intros Ha. unfold Py.slice_from, Py.clip.
  destruct (Z.ltb_spec a 0) as [?|_]; [lia|].
  destruct (Z.le_gt_cases a (Z.of_nat (length l))).
  - now replace (Z.min a (Z.of_nat (length l))) with a by lia.
  - replace (Z.min a (Z.of_nat (length l))) with (Z.of_nat (length l)) by lia.
    rewrite Nat2Z.id, skipn_all, skipn_all2 by lia. reflexivity.
Qed.

(** The values of a task whose row goes on after its own training. *)
Lemma task_values_spec (iters : Z) (accuracies : list (list Q)) (j : Z)
      (row : list Q) :
  (1 <= iters)%Z -> Py.get accuracies j = Some row ->
  (iters < Z.of_nat (length row))%Z ->
  exists a f m,
    task_values iters accuracies j = Some (a - f, f, m) /\
    Py.get row (iters - 1) = Some a /\
    Py.get row (-1) = Some f /\
    In m (Py.slice_from row iters) /\
    (forall y, In y (Py.slice_from row iters) -> m <= y) /\
    m <= f.
Proof.
  intros Hit Hrow Hlen.
  assert (Hne : row <> []) by (intros ->; cbn in Hlen; lia).
  assert (Hs : Py.slice_from row iters <> []).
  { rewrite slice_from_skipn by lia. intros E.
    apply (f_equal (@length Q)) in E. rewrite length_skipn in E.
    cbn in E. lia. }
  destruct (min_of_spec _ Hs) as (m & Em & Hin & Hmin).
  exists (nth (Z.to_nat (iters - 1)) row 0), (nth (length row - 1) row 0), m.
  unfold task_values. rewrite Hrow. cbn [Py.bind].
  rewrite (get_nth row (iters - 1) 0) by lia. cbn [Py.bind].
  rewrite (get_last row 0 Hne). cbn [Py.bind].
  rewrite Em. cbn [Py.bind].
  repeat split; try reflexivity; try assumption.
  apply Hmin. rewrite slice_from_skipn by lia.
  replace (nth (length row - 1) row 0)
    with (nth (length row - 1 - Z.to_nat iters) (skipn (Z.to_nat iters) row) 0).
  - apply nth_In. rewrite length_skipn. lia.
  - rewrite nth_skipn. f_equal. lia.
Qed.

(** A row that stops with the task's own training has no values. *)
Lemma task_values_short (iters : Z) (accuracies : list (list Q)) (j : Z)
      (row : list Q) :
  (1 <= iters)%Z -> Py.get accuracies j = Some row ->
  (Z.of_nat (length row) <= iters)%Z ->
  task_values iters accuracies j = None.
Proof.
  intros Hit Hrow Hlen. unfold task_values. rewrite Hrow. cbn [Py.bind].
  destruct (Py.get row (iters - 1)) as [a|]; [|reflexivity]. cbn [Py.bind].
  destruct (Py.get row (-1)) as [f|]; [|reflexivity]. cbn [Py.bind].
  rewrite slice_from_skipn by lia. rewrite skipn_all2 by lia. reflexivity.
Qed.

Lemma values_loop_inv (iters : Z) (accuracies : list (list Q))
      (js : list Z) :
  forall lists lists',
    values_loop iters accuracies js lists = Some lists' ->
    exists vals,
      Forall2 (fun j v => task_values iters accuracies j = Some v) js vals /\
      lists' = fold_left append_values vals lists.
Proof.
  induction js as [|j js IH]; intros lists lists' E; cbn [values_loop] in E.
  - injection E as <-. exists []. split; [constructor|reflexivity].
  - destruct (task_values iters accuracies j) as [v|] eqn:Ev;
      [|discriminate E].
    cbn [Py.bind] in E. destruct (IH _ _ E) as (vals & Hall & ->).
    exists (v :: vals). split; [now constructor|reflexivity].
Qed.

Lemma values_loop_total (iters : Z) (accuracies : list (list Q))
      (js : list Z) :
  (forall j, In j js -> exists v, task_values iters accuracies j = Some v) ->
  forall lists,
    exists lists', values_loop iters accuracies js lists = Some lists'.
Proof.
  induction js as [|j js IH]; intros Hjs lists; cbn [values_loop].
  - now exists lists.
  - destruct (Hjs j (or_introl eq_refl)) as (v & ->). cbn [Py.bind].
    apply IH. intros j' Hj'. apply Hjs. now right.
Qed.

Lemma values_loop_raises (iters : Z) (accuracies : list (list Q))
      (js : list Z) (j : Z) :
  In j js -> task_values iters accuracies j = None ->
  forall lists, values_loop iters accuracies js lists = None.
Proof.
  intros Hin Hnone.
  induction js as [|j' js IH]; intros lists; [destruct Hin|].
  cbn [values_loop]. destruct Hin as [->|Hin].
  - rewrite Hnone. reflexivity.
  - destruct (task_values iters accuracies j') as [v|]; [|reflexivity].
    cbn [Py.bind]. now apply IH.
Qed.

Lemma appended_values (vals : list (Q * Q * Q)) :
  forall lists,
    final_FORG_values_experiment_i (fold_left append_values vals lists)
    = final_FORG_values_experiment_i lists
      ++ map (fun v => fst (fst v)) vals /\
    final_ACC_values_experiment_i (fold_left append_values vals lists)
    = final_ACC_values_experiment_i lists
      ++ map (fun v => snd (fst v)) vals /\
    min_ACC_values_experiment_i (fold_left append_values vals lists)
    = min_ACC_values_experiment_i lists ++ map snd vals.
Proof.
  induction vals as [|v vals IH]; intros lists.
  - cbn. now rewrite !app_nil_r.
  - cbn [fold_left map].
    destruct (IH (append_values lists v)) as (H1 & H2 & H3).
    rewrite H1, H2, H3. cbn. now rewrite <- !app_assoc.
Qed.

Lemma one_over_bounds (n : Z) :
  (1 <= n)%Z ->
  one_over n = Some (1 / inject_Z n) /\
  0 <= 1 / inject_Z n /\ 1 / inject_Z n <= 1.
Proof.
  intros Hn. unfold one_over.
  destruct (Z.eqb_spec n 0) as [?|_]; [lia|].
  split; [reflexivity|].
  assert (Hpos : 0 < inject_Z n) by (unfold Qlt; cbn; lia).
  split.
  - apply Qle_shift_div_l; [exact Hpos|]. rewrite Qmult_0_l.
    unfold Qle. cbn. lia.
  - apply Qle_shift_div_r; [exact Hpos|]. rewrite Qmult_1_l.
    unfold Qle. cbn. lia.
Qed.

(** A weighted mean of two numbers lies between them. *)
End ReducerFacts.

(** X14: the four scalar metrics are defined on every log that training
    writes: for at least one task and one iteration per task no index is
    out of range, no minimum is taken of an empty slice, and ACC, the mean
    of the final accuracies of all tasks, is a finite number. *)
Theorem scalar_metrics_accept_training_log (accuracy : Z -> Z -> Z -> Q)
        (n_tasks iters : Z) :
  1 <= n_tasks -> 1 <= iters ->
  exists log res acc,
    Training.current_experiment_performances accuracy n_tasks iters
    = Some log /\
    Reducer.scalar_metrics iters n_tasks log = Some res /\
    Reducer.ACC res = Fin acc.
Proof.
  intros Hn Hit.
  destruct (training_log_shape accuracy n_tasks iters)
    as (log & E & Hl & Hrows); try lia.
  destruct (Reducer.values_loop iters log (Py.range 0 (n_tasks - 1))
                                Reducer.no_values) as [lists|] eqn:Eloop.
  2: { exfalso.
       destruct (values_loop_total iters log (Py.range 0 (n_tasks - 1)))
         with (lists := Reducer.no_values) as (lists & El); [|congruence].
       intros j Hj. apply range_in in Hj.
       destruct (Hrows j) as (row & Hrow & Hlen); [lia|].
       destruct (task_values_spec iters log j row) as (a & f & m & Ev & _);
         [lia|exact Hrow|nia|].
       eexists. exact Ev. }
  destruct (Hrows (n_tasks - 1)) as (last_row & Hlast & Hlen); [lia|].
  assert (Hne : last_row <> []) by (intros ->; cbn in Hlen; nia).
  exists log. eexists. eexists. split; [exact E|].
  unfold Reducer.scalar_metrics. rewrite Eloop. cbn [Py.bind].
  rewrite Hlast. cbn [Py.bind].
  rewrite (get_last last_row 0%Q Hne). cbn [Py.bind].
  destruct (one_over_bounds n_tasks) as (-> & _); [lia|]. cbn [Py.bind].
  split; [reflexivity|]. cbn [Reducer.ACC].
  apply mean_finite. intros Enil. apply app_eq_nil in Enil.
  destruct Enil as (_ & Enil). discriminate Enil.
Qed.

Lemma scalar_metrics_accept_training_log_witness :
  1 <= 3 /\ 1 <= 6 /\
  exists log res,
    Training.current_experiment_performances (fun _ _ _ => 95%Q) 3 6
    = Some log /\
    Reducer.scalar_metrics 6 3 log = Some res.
Proof.
  assert (H1 : 1 <= 3) by lia.
  assert (H2 : 1 <= 6) by lia.
  repeat (split; [assumption|]).
  destruct (scalar_metrics_accept_training_log (fun _ _ _ => 95%Q) 3 6 H1 H2)
    as (log & res & acc & E & Eres & _).
  exists log, res. auto.
Defined.

(** X16: with a single task there is nothing to average over: FORG,
    min-ACC and WC-ACC are not-a-number (the mean of an empty list, and
    not-a-number times a weight of zero), and ACC is the final accuracy of
    the task. *)
Theorem single_task_metrics (iters : Z) (accuracies : list (list Q))
        (row : list Q) :
  Py.get accuracies 0 = Some row -> row <> [] ->
  exists res f,
    Reducer.scalar_metrics iters 1 accuracies = Some res /\
    Py.get row (-1) = Some f /\
    Reducer.FORG res = NaN /\
    Reducer.min_ACC res = NaN /\
    Reducer.WC_ACC res = NaN /\
    Np.feq (Reducer.ACC res) (Fin f).
Proof.
  intros Hrow Hne. unfold Reducer.scalar_metrics.
  change (Py.range 0 (1 - 1)) with (@nil Z). cbn [Reducer.values_loop Py.bind].
  change (1 - 1) with 0. rewrite Hrow. cbn [Py.bind].
  rewrite (get_last row 0%Q Hne). cbn [Py.bind].
  eexists. eexists. split; [reflexivity|]. split; [reflexivity|].
  repeat split; try reflexivity.
  cbn. field.
Qed.

Lemma single_task_metrics_witness :
  Py.get [Examples.dip_row] 0 = Some Examples.dip_row /\
  Examples.dip_row <> [] /\
  exists res,
    Reducer.scalar_metrics 6 1 [Examples.dip_row] = Some res /\
    Reducer.WC_ACC res = NaN.
Proof.
  assert (H1 : Py.get [Examples.dip_row] 0 = Some Examples.dip_row)
    by reflexivity.
  assert (H2 : Examples.dip_row <> []) by discriminate.
  repeat (split; [assumption|]).
  destruct (single_task_metrics 6 [Examples.dip_row] Examples.dip_row H1 H2)
    as (res & f & E & _ & _ & _ & Hwc & _).
  exists res. auto.
Defined.

(** X17: a task other than the last whose row holds no sample after its
    own training phase (at most [iters] samples) makes the metrics raise:
    either [row[iters - 1]] is out of range or [min] is given an empty
    slice. *)
Theorem short_row_raises (iters n_tasks : Z) (accuracies : list (list Q))
        (j : Z) (row : list Q) :
  1 <= iters -> 0 <= j < n_tasks - 1 ->
  Py.get accuracies j = Some row ->
  Z.of_nat (length row) <= iters ->
  Reducer.scalar_metrics iters n_tasks accuracies = None.
Proof.
  intros Hit Hj Hrow Hlen. unfold Reducer.scalar_metrics.
  rewrite (values_loop_raises iters accuracies (Py.range 0 (n_tasks - 1)) j).
  - reflexivity.
  - unfold Py.range. apply in_map_iff. exists (Z.to_nat j).
    split; [lia|]. apply in_seq. lia.
  - now apply (task_values_short iters accuracies j row).
Qed.

Lemma short_row_raises_witness :
  1 <= 6 /\ 0 <= 0 < 2 - 1 /\
  Py.get [repeat 95%Q 6; repeat 95%Q 6] 0 = Some (repeat 95%Q 6) /\
  Z.of_nat (length (repeat 95%Q 6)) <= 6 /\
  Reducer.scalar_metrics 6 2 [repeat 95%Q 6; repeat 95%Q 6] = None.
Proof.
  assert (H1 : 1 <= 6) by lia.
  assert (H2 : 0 <= 0 < 2 - 1) by lia.
  assert (H3 : Py.get [repeat 95%Q 6; repeat 95%Q 6] 0 = Some (repeat 95%Q 6))
    by reflexivity.
  assert (H4 : Z.of_nat (length (repeat 95%Q 6)) <= 6) by (cbn; lia).
  repeat (split; [assumption|]).
  apply (short_row_raises 6 2 [repeat 95%Q 6; repeat 95%Q 6] 0
                          (repeat 95%Q 6) H1 H2 H3 H4).
Defined.

(** ** The batches of a training phase *)

Section LoaderFacts.

Import Loader.

Lemma pred_div_mod (L t : Z) :
  1 <= L -> 0 <= t ->
  (t mod L = 0 /\ (t - 1) mod L = L - 1 /\ (t - 1) / L = t / L - 1) \/
  (t mod L <> 0 /\ (t - 1) mod L = t mod L - 1 /\ (t - 1) / L = t / L).
Proof.
  intros HL Ht.
  pose proof (Z.div_mod t L ltac:(lia)) as E.
  pose proof (Z.mod_pos_bound t L ltac:(lia)) as B.
  destruct (Z.eq_dec (t mod L) 0) as [E0|E0]; [left|right];
    (split; [assumption|]).
  - assert (Ed : t - 1 = L * (t / L - 1) + (L - 1)) by lia.
    split.
    + symmetry. apply (Z.mod_unique _ _ (t / L - 1)); [lia|exact Ed].
    + symmetry. apply (Z.div_unique _ _ _ (L - 1)); [lia|exact Ed].
  - assert (Ed : t - 1 = L * (t / L) + (t mod L - 1)) by lia.
    split.
    + symmetry. apply (Z.mod_unique _ _ (t / L)); [lia|exact Ed].
    + symmetry. apply (Z.div_unique _ _ _ (t mod L - 1)); [lia|exact Ed].
Qed.

(** The state before the draw numbered [t] (from 0). *)
Lemma draw_spec (L t : Z) (st : loader_state) :
  1 <= L -> 0 <= t ->
  iters_left st = L - (t - 1) mod L ->
  created st = (t - 1) / L + 1 ->
  (1 <= t -> taken st = (t - 1) mod L + 1) ->
  exists st',
    draw L st = Some (st', (t / L + 1, t mod L)) /\
    iters_left st' = L - t mod L /\
    created st' = t / L + 1 /\
    taken st' = t mod L + 1.
Proof.
  intros HL Ht Hleft Hcreated Htaken.
  pose proof (Z.mod_pos_bound t L ltac:(lia)) as B.
  pose proof (Z.div_pos t L ltac:(lia) ltac:(lia)) as D.
  unfold draw. rewrite Hleft, Hcreated.
  destruct (pred_div_mod L t HL Ht) as [(E0 & Em & Ed)|(E0 & Em & Ed)];
    rewrite Em, Ed.
  - destruct (Z.eqb_spec (L - (L - 1) - 1) 0) as [_|?]; [|lia].
    cbn [created taken iters_left].
    destruct (Z.eqb_spec (t / L - 1 + 1 + 1) 0) as [?|_]; [lia|].
    destruct (Z.ltb_spec 0 L) as [_|?]; [|lia].
    eexists. split.
    + apply f_equal. apply f_equal2; [reflexivity|].
      apply f_equal2; lia.
    + cbn [created taken iters_left]. lia.
  - assert (Ht1 : 1 <= t).
    { destruct (Z.eq_dec t 0) as [->|]; [|lia].
      rewrite Z.mod_0_l in E0 by lia. congruence. }
    rewrite (Htaken Ht1), Em.
    destruct (Z.eqb_spec (L - (t mod L - 1) - 1) 0) as [?|_]; [lia|].
    cbn [created taken iters_left].
    destruct (Z.eqb_spec (t / L + 1) 0) as [?|_]; [lia|].
    destruct (Z.ltb_spec (t mod L - 1 + 1) L) as [_|?]; [|lia].
    eexists. split.
    + apply f_equal. apply f_equal2; [reflexivity|].
      apply f_equal2; lia.
    + cbn [created taken iters_left]. lia.
Qed.

Lemma draws_spec (L : Z) (n : nat) :
  1 <= L ->
  forall (t a : Z) (st : loader_state) (batches : list (Z * Z)),
    0 <= t ->
    iters_left st = L - (t - 1) mod L ->
    created st = (t - 1) / L + 1 ->
    (1 <= t -> taken st = (t - 1) mod L + 1) ->
    exists st',
      draws L (Py.range a (a + Z.of_nat n)) st batches
      = Some (st', batches ++ map (fun u => (u / L + 1, u mod L))
                                  (Py.range t (t + Z.of_nat n))).
Proof.
  intros HL. induction n as [|n IH]; intros t a st batches Ht H1 H2 H3.
  - rewrite !range_empty by lia. cbn [draws map]. rewrite app_nil_r.
    now exists st.
  - rewrite (range_cons a), (range_cons t) by lia. cbn [draws map].
    destruct (draw_spec L t st HL Ht H1 H2 H3) as (st1 & E & G1 & G2 & G3).
    rewrite E. cbn [Py.bind fst snd].
    destruct (IH (t + 1) (a + 1) st1 (batches ++ [(t / L + 1, t mod L)]))
      as (st2 & E2); try lia.
    + now replace (t + 1 - 1) with t by lia.
    + now replace (t + 1 - 1) with t by lia.
    + intros _. now replace (t + 1 - 1) with t by lia.
    + exists st2.
      replace (a + Z.of_nat (S n)) with (a + 1 + Z.of_nat n) by lia.
      replace (t + Z.of_nat (S n)) with (t + 1 + Z.of_nat n) by lia.
      rewrite E2, <- app_assoc. reflexivity.
Qed.

End LoaderFacts.

(** X18: the loader never runs dry.  For a loader of at least one batch
    every iteration of a training phase gets a batch, whatever [iters]
    is: the iteration numbered [t] (from 0) takes the batch at position
    [t mod L] of the loader numbered [t / L + 1], so a new (reshuffled)
    loader is made exactly every [L] iterations and each of its batches
    is used once. *)
Theorem batches_cycle_through_loader (len_loader iters : Z) :
  1 <= len_loader ->
  Loader.batches_of len_loader iters
  = Some (map (fun t => (t / len_loader + 1, t mod len_loader))
              (Py.range 0 iters)).
Proof.
  intros HL. unfold Loader.batches_of.
  destruct (Z.le_gt_cases iters 0) as [Hle|Hgt].
  - rewrite !range_empty by lia. reflexivity.
  - destruct (draws_spec len_loader (Z.to_nat iters) HL 0 1
                         Loader.init_state [])
      as (st & E); try lia.
    + cbn [Loader.iters_left Loader.init_state].
      destruct (pred_div_mod len_loader 0 HL ltac:(lia))
        as [(_ & -> & _)|(E0 & _)]; [lia|].
      rewrite Z.mod_0_l in E0 by lia. congruence.
    + cbn [Loader.created Loader.init_state].
      destruct (pred_div_mod len_loader 0 HL ltac:(lia))
        as [(_ & _ & ->)|(E0 & _)].
      * rewrite Z.div_0_l by lia. lia.
      * rewrite Z.mod_0_l in E0 by lia. congruence.
    + replace (1 + Z.of_nat (Z.to_nat iters)) with (iters + 1) in E by lia.
      replace (0 + Z.of_nat (Z.to_nat iters)) with iters in E by lia.
      rewrite E. reflexivity.
Qed.

Lemma batches_cycle_through_loader_witness :
  1 <= 3 /\
  Loader.batches_of 3 7
  = Some [(1, 0); (1, 1); (1, 2); (2, 0); (2, 1); (2, 2); (3, 0)].
Proof.
  assert (H : 1 <= 3) by lia.
  split; [exact H|].
  exact (batches_cycle_through_loader 3 7 H).
Defined.

(** X19: a loader without a complete batch stops training at once: with
    [len(data_loader) = 0] the first [next] of a training phase of at
    least one iteration raises StopIteration. *)
Theorem empty_loader_raises (iters : Z) :
  1 <= iters -> Loader.batches_of 0 iters = None.
Proof.
  intros Hit. unfold Loader.batches_of.
  rewrite range_cons by lia. reflexivity.
Qed.

Lemma empty_loader_raises_witness :
  1 <= 500 /\ Loader.batches_of 0 500 = None.
Proof.
  assert (H : 1 <= 500) by lia.
  split; [exact H|exact (empty_loader_raises 500 H)].
Defined.

(** ** The padded curves *)

Section PlotFacts.

Import Plot.

Lemma nth_repeat_nan (n k : nat) : nth k (repeat NaN n) NaN = NaN.
Proof.
  revert k. induction n as [|n IH]; intros [|k]; cbn; auto.
Qed.

End PlotFacts.

(** X20: the padded curve of a task is aligned with the iterations of the
    whole run.  For a mean curve of [iters * (n_tasks - task_id)] values,
    the length of the task's row in the log, the assignment fits: the
    padded curve has [iters * n_tasks] values, not-a-number before the
    task's own training starts at [iters * task_id], and the value [k] of
    the mean curve at position [iters * task_id + k]. *)
Theorem padded_curve_aligned (iters n_tasks task_id : Z)
        (average_performance : list npfloat) :
  0 <= iters -> 0 <= task_id <= n_tasks ->
  Z.of_nat (length average_performance) = iters * (n_tasks - task_id) ->
  exists padded,
    Plot.padded_avg iters n_tasks task_id average_performance = Some padded /\
    Z.of_nat (length padded) = iters * n_tasks /\
    (forall k, 0 <= k < iters * task_id -> Py.get padded k = Some NaN) /\
    (forall k, 0 <= k < Z.of_nat (length average_performance) ->
               Py.get padded (iters * task_id + k)
               = Py.get average_performance k).
Proof.
  intros Hit Hid Hlen.
  assert (Hs : 0 <= iters * task_id) by nia.
  assert (Ht : iters * n_tasks
               = iters * task_id + Z.of_nat (length average_performance))
    by nia.
  unfold Plot.padded_avg, Plot.np_full.
  destruct (Z.ltb_spec (iters * n_tasks) 0) as [?|_]; [lia|].
  cbn [Py.bind]. unfold Plot.assign_from.
  rewrite repeat_length. unfold Py.clip.
  destruct (Z.ltb_spec (iters * task_id) 0) as [?|_]; [lia|].
  replace (Z.to_nat (Z.min (iters * task_id)
                           (Z.of_nat (Z.to_nat (iters * n_tasks)))))
    with (Z.to_nat (iters * task_id)) by lia.
  destruct (Nat.eqb_spec (length average_performance)
                         (Z.to_nat (iters * n_tasks)
                          - Z.to_nat (iters * task_id))) as [_|?]; [|lia].
  eexists. split; [reflexivity|].
  assert (Hf : length (firstn (Z.to_nat (iters * task_id))
                              (repeat NaN (Z.to_nat (iters * n_tasks))))
               = Z.to_nat (iters * task_id)).
  { rewrite length_firstn, repeat_length. lia. }
  split; [rewrite length_app, Hf; lia|]. split.
  - intros k Hk. rewrite (get_nth _ k NaN) by (rewrite length_app, Hf; lia).
    f_equal. rewrite app_nth1 by (rewrite Hf; lia).
    rewrite nth_firstn.
    destruct (Nat.ltb_spec (Z.to_nat k) (Z.to_nat (iters * task_id)));
      [apply nth_repeat_nan|lia].
  - intros k Hk.
    rewrite (get_nth _ (iters * task_id + k) NaN)
      by (rewrite length_app, Hf; lia).
    rewrite (get_nth average_performance k NaN) by lia.
    f_equal. rewrite app_nth2 by (rewrite Hf; lia).
    rewrite Hf. f_equal. lia.
Qed.

Lemma padded_curve_aligned_witness :
  0 <= 2 /\ 0 <= 1 <= 3 /\
  Z.of_nat (length [Fin 1; Fin 2; Fin 3; Fin 4]) = 2 * (3 - 1) /\
  exists padded,
    Plot.padded_avg 2 3 1 [Fin 1; Fin 2; Fin 3; Fin 4] = Some padded /\
    Py.get padded 1 = Some NaN /\
    Py.get padded (2 * 1 + 0) = Py.get [Fin 1; Fin 2; Fin 3; Fin 4] 0.
Proof.
  assert (H1 : 0 <= 2) by lia.
  assert (H2 : 0 <= 1 <= 3) by lia.
  assert (H3 : Z.of_nat (length [Fin 1; Fin 2; Fin 3; Fin 4]) = 2 * (3 - 1))
    by reflexivity.
  repeat (split; [assumption|]).
  destruct (padded_curve_aligned 2 3 1 [Fin 1; Fin 2; Fin 3; Fin 4] H1 H2 H3)
    as (padded & E & _ & Hnan & Hval).
  exists padded. split; [exact E|]. split.
  - apply Hnan. lia.
  - apply Hval. cbn. lia.
Defined.

(** ** A log with too few rows *)

Section LogErrors.

Import Training.

Variable accuracy : Z -> Z -> Z -> Q.

Lemma append_at_beyond (performances : list (list Q)) :
  forall (index : nat) (v : Q),
    (length performances <= index)%nat ->
    append_at performances index v = None.
Proof.
  induction performances as [|row rest IH]; intros index v Hle;
    [reflexivity|].
  destruct index as [|index]; [cbn in Hle; lia|].
  cbn [append_at]. rewrite IH by (cbn in Hle; lia). reflexivity.
Qed.

Lemma evaluate_beyond (task_id iteration : Z) (n : nat) :
  forall (a : Z) (performances : list (list Q)),
    0 <= a <= Z.of_nat (length performances) ->
    Z.of_nat (length performances) < a + Z.of_nat n ->
    evaluate accuracy task_id iteration (Py.range a (a + Z.of_nat n))
             performances = None.
Proof.
  induction n as [|n IH]; intros a performances Ha Hlen; [lia|].
  rewrite range_cons by lia. cbn [evaluate].
  destruct (Z.eq_dec a (Z.of_nat (length performances))) as [E|E].
  - rewrite append_at_beyond by lia. reflexivity.
  - destruct (append_at_content performances (Z.to_nat a)
                                (accuracy task_id iteration a))
      as (p1 & E1 & Hl1 & _); [lia|].
    rewrite E1. cbn [Py.bind].
    replace (a + Z.of_nat (S n)) with (a + 1 + Z.of_nat n) by lia.
    apply IH; lia.
Qed.

End LogErrors.

(** X22: [train_and_evaluate] needs a row for each of the first
    [task_id] test sets: called for at least one iteration with fewer
    rows in [performances] than [task_id] (its default [performances=[]]
    among them) it raises IndexError at the first iteration. *)
Theorem too_few_rows_raise (accuracy : Z -> Z -> Z -> Q) (iters : Z)
        (performances : list (list Q)) (task_id : Z) :
  1 <= iters -> Z.of_nat (length performances) < task_id ->
  Training.train_and_evaluate accuracy iters performances task_id = None.
Proof.
  intros Hit Hlen. unfold Training.train_and_evaluate.
  rewrite range_cons by lia. cbn [Training.iterations].
  pose proof (evaluate_beyond accuracy task_id 1 (Z.to_nat task_id) 0
                              performances) as H.
  replace (0 + Z.of_nat (Z.to_nat task_id)) with task_id in H by lia.
  rewrite H by lia. reflexivity.
Qed.

Lemma too_few_rows_raise_witness :
  1 <= 500 /\ Z.of_nat (length (@nil (list Q))) < 1 /\
  Training.train_and_evaluate (fun _ _ _ => 95%Q) 500 [] 1 = None.
Proof.
  assert (H1 : 1 <= 500) by lia.
  assert (H2 : Z.of_nat (length (@nil (list Q))) < 1) by (cbn; lia).
  repeat (split; [assumption|]).
  exact (too_few_rows_raise (fun _ _ _ => 95%Q) 500 [] 1 H1 H2).
Defined.

(** X23: the sliding scan of a row of the training log.  The scan starts
    at the fixed index 500, not at [iters], so on the row of task [j] of a
    log written by training it returns exactly when
    [iters * (n_tasks - j)] exceeds 500, and raises IndexError
    otherwise. *)
Theorem scan_of_training_log (accuracy : Z -> Z -> Z -> Q)
        (n_tasks iters j : Z) :
  0 <= iters -> 0 <= j < n_tasks ->
  exists log row,
    Training.current_experiment_performances accuracy n_tasks iters
    = Some log /\
    Py.get log j = Some row /\
    ((exists st, Sliding.sliding_scan row = Some st) <->
     500 < iters * (n_tasks - j)).
Proof.
  intros Hit Hj.
  destruct (training_log_shape accuracy n_tasks iters)
    as (log & E & _ & Hrows); try lia.
  destruct (Hrows j Hj) as (row & Hrow & Hlen).
  exists log, row. split; [exact E|]. split; [exact Hrow|].
  rewrite <- Hlen. split.
  - intros (st & Est). unfold Sliding.sliding_scan in Est.
    destruct (Z.ltb_spec 500 (Z.of_nat (length row))) as [H|H]; [exact H|].
    rewrite get_beyond in Est by lia. discriminate Est.
  - intros H. destruct (sliding_scan_run row H) as (st & Est & _).
    now exists st.
Qed.

Lemma scan_of_training_log_witness :
  0 <= 100 /\ 0 <= 2 < 4 /\
  exists log row,
    Training.current_experiment_performances (fun _ _ _ => 95%Q) 4 100
    = Some log /\
    Py.get log 2 = Some row /\
    Sliding.sliding_scan row = None.
Proof.
  assert (H1 : 0 <= 100) by lia.
  assert (H2 : 0 <= 2 < 4) by lia.
  repeat (split; [assumption|]).
  destruct (scan_of_training_log (fun _ _ _ => 95%Q) 4 100 2 H1 H2)
    as (log & row & E & Hrow & Hiff).
  exists log, row. split; [exact E|]. split; [exact Hrow|].
  destruct (Sliding.sliding_scan row) as [st|]; [|reflexivity].
  exfalso.
  assert (H : 500 < 100 * (4 - 2)) by (apply Hiff; now exists st).
  lia.
Defined.
